(** * BlockchainLab (LAB3): the node engine of the healthcare ledger

    A shallow embedding of [blockchain_core.py], of [node_common.py] (the
    chain, pool and ledger logic, the sessions, the views, the workflow
    actions and the framing of messages) and of the commands of the doctor,
    lab and pharmacy shells that look up what they act on, followed by the
    properties checked against it.

    Conventions of the embedding.
    - A transaction is a Python dict of JSON data; dynamically typed data is
      the inductive [value].  Strings hold ASCII text.  A float occurs
      only as the amount of a transfer of an unpickled chain, in the part
      on amounts that are not ints.
    - A Python exception that leaves a function is the outcome [Raise];
      blocking for ever on [self.lock] (a [threading.Lock], which is not
      re-entrant) is the outcome [Deadlock].  Both keep the state reached.
      The embedding follows one thread: the lock is held when a caller on
      that thread has taken it.
    - [print] calls are dropped, the subscripts their messages evaluate
      are kept where they can raise; [datetime.now()] reads the next value
      of a clock that is part of the state.
    - [self.current_user] is the state of [login] and [logout] and an
      argument of the workflow actions; the patient registry file and the
      source of [uuid.uuid4()] surround the node in the record [World].
    - A socket is the list of bytes still to come with the sizes of the
      chunks in which [recv] hands them out. *)

From Stdlib Require Import ZArith QArith String Ascii List Lia Bool.
From Stdlib Require Import Floats.SpecFloat.
From stdpp Require Import gmap strings list fin_maps pretty sorting.
Import ListNotations.

Local Open Scope string_scope.
Local Open Scope list_scope.
Local Open Scope Z_scope.

Set Warnings "-register-all".

(** ** Python values *)

Inductive value : Type :=
| VNone
| VBool (b : bool)
| VInt (z : Z)
| VStr (s : string)
| VList (l : list value)
| VDict (kvs : list (string * value)).

(** [d.get(k)] and [k in d] on the items of a dict. *)
Fixpoint dict_get (kvs : list (string * value)) (k : string) : option value :=
  match kvs with
  | [] => None
  | (k', v) :: rest => if String.eqb k' k then Some v else dict_get rest k
  end.

Definition dict_has (kvs : list (string * value)) (k : string) : bool :=
  match dict_get kvs k with Some _ => true | None => false end.

(** [d[k] = v]: replaces the value in place, or adds the item at the end. *)
Fixpoint dict_set (kvs : list (string * value)) (k : string) (v : value)
  : list (string * value) :=
  match kvs with
  | [] => [(k, v)]
  | (k', v') :: rest =>
      if String.eqb k' k then (k', v) :: rest else (k', v') :: dict_set rest k v
  end.

(** [isinstance(v, int)]: [bool] is a subclass of [int]. *)
Definition as_int (v : value) : option Z :=
  match v with
  | VInt z => Some z
  | VBool b => Some (Z.b2z b)
  | _ => None
  end.

(** Python [==]. *)
Fixpoint py_eq (a b : value) {struct a} : bool :=
  match a, b with
  | VNone, VNone => true
  | VStr s, VStr t => String.eqb s t
  | VInt x, VInt y => Z.eqb x y
  | VInt x, VBool y => Z.eqb x (Z.b2z y)
  | VBool x, VInt y => Z.eqb (Z.b2z x) y
  | VBool x, VBool y => Bool.eqb x y
  | VList l, VList m =>
      (fix go (l : list value) (m : list value) {struct l} : bool :=
         match l, m with
         | [], [] => true
         | x :: l', y :: m' => py_eq x y && go l' m'
         | _, _ => false
         end) l m
  | VDict kvs, VDict kvs' =>
      Nat.eqb (length kvs) (length kvs') &&
      (fix go (l : list (string * value)) {struct l} : bool :=
         match l with
         | [] => true
         | (k, v) :: l' =>
             match dict_get kvs' k with
             | Some v' => py_eq v v' && go l'
             | None => false
             end
         end) kvs
  | _, _ => false
  end.

(** Truth value of an object, as [if v:] and [not v] take it. *)
Definition truthy (v : value) : bool :=
  match v with
  | VNone => false
  | VBool b => b
  | VInt z => negb (Z.eqb z 0)
  | VStr s => negb (String.eqb s EmptyString)
  | VList l => match l with [] => false | _ => true end
  | VDict kvs => match kvs with [] => false | _ => true end
  end.

(** ** [json.dumps(v, sort_keys=True)] *)

Definition hex_digit (n : Z) : ascii :=
  ascii_of_nat (Z.to_nat (if n <? 10 then 48 + n else 87 + n)).

Definition u_escape (c : Z) : string :=
  "\u00" +:+ String (hex_digit (c / 16)) (String (hex_digit (c mod 16)) EmptyString).

Definition json_char (a : ascii) : string :=
  let c := Z.of_nat (nat_of_ascii a) in
  if c =? 34 then "\" +:+ String a EmptyString
  else if c =? 92 then "\\"
  else if c =? 10 then "\n"
  else if c =? 13 then "\r"
  else if c =? 9 then "\t"
  else if c =? 8 then "\b"
  else if c =? 12 then "\f"
  else if (c <? 32) || (126 <? c) then u_escape c
  else String a EmptyString.

Fixpoint json_chars (s : string) : string :=
  match s with
  | EmptyString => EmptyString
  | String a s' => json_char a +:+ json_chars s'
  end.

Definition json_str (s : string) : string :=
  String (ascii_of_nat 34) (json_chars s +:+ String (ascii_of_nat 34) EmptyString).

Fixpoint join (sep : string) (l : list string) : string :=
  match l with
  | [] => EmptyString
  | [x] => x
  | x :: rest => x +:+ sep +:+ join sep rest
  end.

Definition key_le (x y : string * string) : bool := String.leb (fst x) (fst y).

Fixpoint insert_item (x : string * string) (l : list (string * string))
  : list (string * string) :=
  match l with
  | [] => [x]
  | y :: rest => if key_le x y then x :: l else y :: insert_item x rest
  end.

Definition sort_items (l : list (string * string)) : list (string * string) :=
  foldr insert_item [] l.

Fixpoint json_dumps (v : value) : string :=
  match v with
  | VNone => "null"
  | VBool b => if b then "true" else "false"
  | VInt z => pretty z
  | VStr s => json_str s
  | VList l => "[" +:+ join ", " (map json_dumps l) +:+ "]"
  | VDict kvs =>
      "{" +:+
      join ", "
        (map (fun kv => json_str (fst kv) +:+ ": " +:+ snd kv)
           (sort_items (map (fun kv => (fst kv, json_dumps (snd kv))) kvs)))
      +:+ "}"
  end.

(** ** [hashlib.sha256(data).hexdigest()]

    FIPS 180-4.  The round constants are the first 32 bits of the fractional
    parts of the cube roots of the first 64 primes, the initial state those
    of the square roots of the first 8; both are computed here. *)

Definition is_prime (n : Z) : bool :=
  forallb (fun d => negb (n mod Z.of_nat d =? 0)) (seq 2 (Z.to_nat n - 2)).

Definition primes64 : list Z :=
  Eval vm_compute in
    take 64 (filter (fun n => is_prime n = true) (map Z.of_nat (seq 2 320))).

(** Largest [r] in [[lo, lo + 2^fuel)] with [r^3 <= n]. *)
Fixpoint cube_root_from (fuel : nat) (lo n : Z) : Z :=
  match fuel with
  | O => lo
  | S f =>
      let mid := lo + 2 ^ Z.of_nat f in
      if mid * mid * mid <=? n then cube_root_from f mid n
      else cube_root_from f lo n
  end.

Definition w32 (x : Z) : Z := x mod 2 ^ 32.

Definition sha_K : list Z :=
  Eval vm_compute in
    map (fun p => w32 (cube_root_from 40 0 (p * 2 ^ 96))) primes64.

Definition sha_H0 : list Z :=
  Eval vm_compute in
    map (fun p => w32 (Z.sqrt (p * 2 ^ 64))) (take 8 primes64).

Definition rotr (n x : Z) : Z :=
  Z.lor (Z.shiftr x n) (w32 (Z.shiftl x (32 - n))).

Definition big_sigma0 (x : Z) : Z := Z.lxor (Z.lxor (rotr 2 x) (rotr 13 x)) (rotr 22 x).
Definition big_sigma1 (x : Z) : Z := Z.lxor (Z.lxor (rotr 6 x) (rotr 11 x)) (rotr 25 x).
Definition small_sigma0 (x : Z) : Z :=
  Z.lxor (Z.lxor (rotr 7 x) (rotr 18 x)) (Z.shiftr x 3).
Definition small_sigma1 (x : Z) : Z :=
  Z.lxor (Z.lxor (rotr 17 x) (rotr 19 x)) (Z.shiftr x 10).
Definition sha_ch (x y z : Z) : Z :=
  Z.lxor (Z.land x y) (Z.land (Z.lxor x (2 ^ 32 - 1)) z).
Definition sha_maj (x y z : Z) : Z :=
  Z.lxor (Z.lxor (Z.land x y) (Z.land x z)) (Z.land y z).

(** Padding: a 1 bit, zeros up to 56 mod 64 bytes, the bit length on 8 bytes. *)
Definition be_bytes (n : nat) (x : Z) : list Z :=
  map (fun i => (x / 2 ^ (8 * Z.of_nat (n - 1 - i))) mod 256) (seq 0 n).

Definition sha_pad (msg : list Z) : list Z :=
  let len := Z.of_nat (length msg) in
  let zeros := Z.to_nat ((55 - len) mod 64) in
  msg ++ [128] ++ replicate zeros 0 ++ be_bytes 8 (8 * len).

Fixpoint be_words (fuel : nat) (bytes : list Z) : list Z :=
  match fuel, bytes with
  | S f, a :: b :: c :: d :: rest =>
      (((a * 256 + b) * 256 + c) * 256 + d) :: be_words f rest
  | _, _ => []
  end.

(** The message schedule, most recent word first. *)
Fixpoint sha_schedule (n : nat) (recent : list Z) : list Z :=
  match n with
  | O => recent
  | S n' =>
      let w := w32 (small_sigma1 (nth 1 recent 0) + nth 6 recent 0
                    + small_sigma0 (nth 14 recent 0) + nth 15 recent 0) in
      sha_schedule n' (w :: recent)
  end.

Definition sha_round (st : list Z) (kw : Z * Z) : list Z :=
  match st with
  | [a; b; c; d; e; f; g; h] =>
      let t1 := h + big_sigma1 e + sha_ch e f g + fst kw + snd kw in
      let t2 := big_sigma0 a + sha_maj a b c in
      [w32 (t1 + t2); a; b; c; w32 (d + t1); e; f; g]
  | _ => st
  end.

Definition sha_block (st : list Z) (words : list Z) : list Z :=
  let ws := rev (sha_schedule 48 (rev words)) in
  let st' := fold_left sha_round (combine sha_K ws) st in
  map (fun p => w32 (fst p + snd p)) (combine st st').

Fixpoint sha_blocks (fuel : nat) (st : list Z) (words : list Z) : list Z :=
  match fuel with
  | O => st
  | S f =>
      match words with
      | [] => st
      | _ => sha_blocks f (sha_block st (take 16 words)) (drop 16 words)
      end
  end.

Definition bytes_of_string (s : string) : list Z :=
  map (fun a => Z.of_nat (nat_of_ascii a)) (list_ascii_of_string s).

Definition hex_of_word (x : Z) : list ascii :=
  map (fun i => hex_digit ((x / 16 ^ Z.of_nat (7 - i)) mod 16)) (seq 0 8).

Definition sha256_hexdigest (data : string) : string :=
  let bytes := sha_pad (bytes_of_string data) in
  let words := be_words (length bytes) bytes in
  let st := sha_blocks (length words) sha_H0 words in
  string_of_list_ascii (concat (map hex_of_word st)).

(** ** blockchain_core.py *)

(** [timestamp] holds [str(self.timestamp)], the only way the code reads it. *)
Record Block : Type := {
  index : Z;
  timestamp : string;
  transactions : list value;
  previous_hash : string;
  nonce : Z;
  hash : string
}.

(** [Block.calculate_hash].  [json_dumps] is total on [value], so the
    [except TypeError] branch that returns "error_hash" is never taken. *)
Definition calculate_hash (b : Block) : string :=
  sha256_hexdigest
    (json_dumps
       (VDict [("index", VInt (index b));
               ("timestamp", VStr (timestamp b));
               ("transactions", VList (transactions b));
               ("previous_hash", VStr (previous_hash b));
               ("nonce", VInt (nonce b))])).

(** [Block.__init__], with [nonce=0] as every call in the code leaves it. *)
Definition Block_init (i : Z) (ts : string) (txs : list value) (prev : string)
  : Block :=
  let b := {| index := i; timestamp := ts; transactions := txs;
              previous_hash := prev; nonce := 0; hash := EmptyString |} in
  {| index := i; timestamp := ts; transactions := txs;
     previous_hash := prev; nonce := 0; hash := calculate_hash b |}.

Definition genesis_block (now : string) : Block :=
  Block_init 0 now
    [VDict [("type", VStr "genesis"); ("details", VStr "The beginning")]] "0".

(** [Blockchain.__init__]: the chain of a fresh [Blockchain]. *)
Definition Blockchain_init (now : string) : list Block := [genesis_block now].

Definition get_latest_block (chain : list Block) : option Block := last chain.

(** [Blockchain.add_block]: the returned flag and the chain afterwards. *)
Definition add_block (chain : list Block) (block : Block) : bool * list Block :=
  match get_latest_block chain with
  | Some latest_block =>
      if String.eqb (previous_hash block) (hash latest_block)
         && (index block =? index latest_block + 1)
      then (true, chain ++ [block])
      else (false, chain)
  | None =>
      if index block =? 0 then (true, chain ++ [block]) else (false, chain)
  end.

(** The body of the loop of [is_chain_valid] at position [i]. *)
Definition link_ok (target_chain : list Block) (i : nat) : bool :=
  match target_chain !! i, target_chain !! (i - 1)%nat with
  | Some current_block, Some previous_block =>
      String.eqb (hash current_block) (calculate_hash current_block)
      && String.eqb (previous_hash current_block) (hash previous_block)
      && (index current_block =? index previous_block + 1)
  | _, _ => false
  end.

(** [Blockchain.is_chain_valid(self, chain_to_validate=None)].  The target
    is [chain_to_validate if chain_to_validate else self.chain]: an empty
    list is falsy, as [None] is. *)
Definition is_chain_valid (self_chain : list Block)
    (chain_to_validate : option (list Block)) : bool :=
  let target_chain :=
    match chain_to_validate with
    | Some (b :: c) => b :: c
    | _ => self_chain
    end in
  match target_chain with
  | [] => false
  | first :: _ =>
      if negb (index first =? 0) || negb (String.eqb (previous_hash first) "0")
      then false
      else if negb (String.eqb (hash first) (calculate_hash first)) then false
      else forallb (link_ok target_chain) (seq 1 (length target_chain - 1))
  end.

(** ** Outcomes and state *)

Inductive exn : Type :=
  TypeError | AttributeError | KeyError | UnboundLocalError | OverflowError.

Inductive result (A : Type) : Type :=
| Ret (a : A)
| Raise (e : exn)
| Deadlock.
Arguments Ret {A} a.
Arguments Raise {A} e.
Arguments Deadlock {A}.

Definition M (S A : Type) : Type := S -> result A * S.

Definition ret {S A : Type} (a : A) : M S A := fun s => (Ret a, s).

Definition bind {S A B : Type} (m : M S A) (k : A -> M S B) : M S B :=
  fun s =>
    match m s with
    | (Ret a, s') => k a s'
    | (Raise e, s') => (Raise e, s')
    | (Deadlock, s') => (Deadlock, s')
    end.

Definition raise {S A : Type} (e : exn) : M S A := fun s => (Raise e, s).
Definition gets {S A : Type} (f : S -> A) : M S A := fun s => (Ret (f s), s).
Definition modify {S : Type} (f : S -> S) : M S unit := fun s => (Ret tt, f s).

Notation "'let*' x ':=' m 'in' k" := (bind m (fun x => k))
  (at level 10, x pattern, m at level 100, k at level 200).

(** [for x in l: body x], without [break]. *)
Fixpoint for_each {S A : Type} (l : list A) (body : A -> M S unit) : M S unit :=
  match l with
  | [] => ret tt
  | x :: l' => let* _ := body x in for_each l' body
  end.

(** Runs a computation on a local variable of type [L]; the local is
    returned with the result and dropped by an exception. *)
Definition local {S L A : Type} (m : M L A) (init : L) : M S (A * L) :=
  fun s =>
    match m init with
    | (Ret a, l) => (Ret (a, l), s)
    | (Raise e, _) => (Raise e, s)
    | (Deadlock, _) => (Deadlock, s)
    end.

Definition lift {S A : Type} (r : result A) : M S A := fun s => (r, s).

(** [tx.get(k, dflt)]; only a dict has the method. *)
Definition py_get {S : Type} (tx : value) (k : string) (dflt : value) : M S value :=
  match tx with
  | VDict kvs => ret (default dflt (dict_get kvs k))
  | _ => raise AttributeError
  end.

(** [d[k]]. *)
Definition py_item {S : Type} (d : value) (k : string) : M S value :=
  match d with
  | VDict kvs =>
      match dict_get kvs k with
      | Some v => ret v
      | None => raise KeyError
      end
  | _ => raise TypeError
  end.

(** An operand of [<], [-] or [+] against an [int]. *)
Definition int_of {S : Type} (v : value) : M S Z :=
  match as_int v with
  | Some z => ret z
  | None => raise TypeError
  end.

(** ** Balances: a dict from principals to amounts *)

Inductive key : Type := KNone | KInt (z : Z) | KStr (s : string).

Global Instance key_eq_dec : EqDecision key.
Proof. solve_decision. Defined.

Definition key_code (k : key) : option (Z + string) :=
  match k with KNone => None | KInt z => Some (inl z) | KStr s => Some (inr s) end.

Definition key_decode (c : option (Z + string)) : key :=
  match c with None => KNone | Some (inl z) => KInt z | Some (inr s) => KStr s end.

Global Instance key_countable : Countable key.
Proof. apply (inj_countable' key_code key_decode). by intros []. Defined.

(** A dict key: [True] and [1] are the same key, lists and dicts cannot be one. *)
Definition hash_key (v : value) : option key :=
  match v with
  | VNone => Some KNone
  | VBool b => Some (KInt (Z.b2z b))
  | VInt z => Some (KInt z)
  | VStr s => Some (KStr s)
  | VList _ | VDict _ => None
  end.

Definition hashable {S : Type} (v : value) : M S key :=
  match hash_key v with
  | Some k => ret k
  | None => raise TypeError
  end.

Definition TX_TRANSFER_ECASH : string := "TRANSFER_ECASH".
Definition SYSTEM_ACCOUNT : string := "SYSTEM_BANK_001".
Definition INITIAL_SYSTEM_BALANCE : Z := 1000000.
Definition MSG_TYPE_NEW_TRANSACTION : Z := 1.
Definition MSG_TYPE_NEW_BLOCK : Z := 2.
Definition MSG_TYPE_REQUEST_CHAIN : Z := 3.
Definition MSG_TYPE_SEND_CHAIN : Z := 4.

(** The keys of [USERS]. *)
Definition USERS : list string := ["dr_alice"; "lab_tech_bob"; "pharm_charlie"].

(** [{user: 0 for user in USERS}] with the system allocation added. *)
Definition initial_balances : gmap key Z :=
  <[KStr SYSTEM_ACCOUNT := INITIAL_SYSTEM_BALANCE]>
    (foldr (fun user b => <[KStr user := 0]> b) ∅ USERS).

Definition balance_of (b : gmap key Z) (k : key) : Z := default 0 (b !! k).

(** [if k not in balances: balances[k] = 0]. *)
Definition init_account (k : key) (b : gmap key Z) : gmap key Z :=
  match b !! k with Some _ => b | None => <[k := 0]> b end.

(** The sum of all balances. *)
Definition total (b : gmap key Z) : Z := map_fold (fun _ v acc => v + acc) 0 b.

(** The ledger update shared by [_update_balances_from_block],
    [_recalculate_all_balances], [get_balances_up_to_block] and
    [_get_balances_from_chain]: the body of [for tx in block.transactions]. *)
Definition credit_debit (tx : value) : M (gmap key Z) unit :=
  let* ty := py_get tx "type" VNone in
  if py_eq ty (VStr TX_TRANSFER_ECASH) then
    let* sender := py_get tx "from" VNone in
    let* recipient := py_get tx "to" VNone in
    let* amount := py_get tx "amount" (VInt 0) in
    let* ks := hashable sender in
    let* _ := modify (init_account ks) in
    let* kr := hashable recipient in
    let* _ := modify (init_account kr) in
    let* a := int_of amount in
    let* _ := modify (fun b => <[ks := balance_of b ks - a]> b) in
    modify (fun b => <[kr := balance_of b kr + a]> b)
  else ret tt.

(** The affordability step shared by [_validate_chain_balances],
    [mine_block_local] and the [NewBlock] branch of [_process_message]:
    [false] when the sender cannot afford the transfer, otherwise the
    transfer is applied to the local balances. *)
Definition spend (tx : value) : M (gmap key Z) bool :=
  let* ty := py_get tx "type" VNone in
  if py_eq ty (VStr TX_TRANSFER_ECASH) then
    let* sender := py_get tx "from" VNone in
    let* amount := py_get tx "amount" (VInt 0) in
    let* short :=
      if negb (py_eq sender (VStr SYSTEM_ACCOUNT)) then
        let* ks := hashable sender in
        let* bal := gets (fun b => balance_of b ks) in
        let* a := int_of amount in
        ret (bal <? a)
      else ret false in
    if short then ret false
    else
      let* ks := hashable sender in
      let* a := int_of amount in
      let* _ := modify (fun b => <[ks := balance_of b ks - a]> b) in
      let* recipient := py_get tx "to" VNone in
      let* kr := hashable recipient in
      let* _ := modify (fun b => <[kr := balance_of b kr + a]> b) in
      ret true
  else ret true.

(** ** node_common.py: the node *)

Definition addr : Type := string * Z.

Inductive payload : Type :=
| PTx (tx : value)
| PBlock (b : Block)
| PChain (c : list Block)
| PStr (s : string).

(** A call of [self.broadcast] or of [self.send_message]. *)
Inductive event : Type :=
| Broadcast (msg_type : Z) (data : payload) (exclude_addr : option addr)
| Send (peer : addr) (msg_type : Z) (data : payload).

(** The state a node works on.  [E_CASH_BALANCES] is the module-level
    ledger; [lock_held] is the state of [self.lock]; [sent] lists the
    network calls made, oldest first; [datetime.now()] returns
    [clock ticks] and advances [ticks]. *)
Record Node : Type := {
  chain : list Block;
  pending_transactions : list value;
  E_CASH_BALANCES : gmap key Z;
  lock_held : bool;
  sent : list event;
  clock : nat -> string;
  ticks : nat
}.

Definition set_chain (c : list Block) (s : Node) : Node :=
  {| chain := c; pending_transactions := pending_transactions s;
     E_CASH_BALANCES := E_CASH_BALANCES s; lock_held := lock_held s;
     sent := sent s; clock := clock s; ticks := ticks s |}.

Definition set_pending (p : list value) (s : Node) : Node :=
  {| chain := chain s; pending_transactions := p;
     E_CASH_BALANCES := E_CASH_BALANCES s; lock_held := lock_held s;
     sent := sent s; clock := clock s; ticks := ticks s |}.

Definition set_balances (b : gmap key Z) (s : Node) : Node :=
  {| chain := chain s; pending_transactions := pending_transactions s;
     E_CASH_BALANCES := b; lock_held := lock_held s;
     sent := sent s; clock := clock s; ticks := ticks s |}.

Definition set_lock (l : bool) (s : Node) : Node :=
  {| chain := chain s; pending_transactions := pending_transactions s;
     E_CASH_BALANCES := E_CASH_BALANCES s; lock_held := l;
     sent := sent s; clock := clock s; ticks := ticks s |}.

Definition emit (e : event) (s : Node) : Node :=
  {| chain := chain s; pending_transactions := pending_transactions s;
     E_CASH_BALANCES := E_CASH_BALANCES s; lock_held := lock_held s;
     sent := sent s ++ [e]; clock := clock s; ticks := ticks s |}.

Definition tick (s : Node) : Node :=
  {| chain := chain s; pending_transactions := pending_transactions s;
     E_CASH_BALANCES := E_CASH_BALANCES s; lock_held := lock_held s;
     sent := sent s; clock := clock s; ticks := S (ticks s) |}.

(** [str(datetime.now())]. *)
Definition datetime_now : M Node string :=
  fun s => (Ret (clock s (ticks s)), tick s).

(** [with self.lock: body].  Acquiring a lock that is held blocks for
    ever; the lock is released when the body returns or raises. *)
Definition with_lock {A : Type} (body : M Node A) : M Node A :=
  fun s =>
    if lock_held s then (Deadlock, s)
    else
      match body (set_lock true s) with
      | (Deadlock, s') => (Deadlock, s')
      | (r, s') => (r, set_lock false s')
      end.

Definition broadcast (msg_type : Z) (data : payload) (exclude_addr : option addr)
  : M Node unit :=
  modify (emit (Broadcast msg_type data exclude_addr)).

Definition send_message (sock : addr) (msg_type : Z) (data : payload)
  : M Node unit :=
  modify (emit (Send sock msg_type data)).

(** Runs a computation on the global [E_CASH_BALANCES]. *)
Definition on_ledger {A : Type} (m : M (gmap key Z) A) : M Node A :=
  fun s =>
    match m (E_CASH_BALANCES s) with
    | (r, b) => (r, set_balances b s)
    end.

Definition replay_block (block : Block) : M (gmap key Z) unit :=
  for_each (transactions block) credit_debit.

Definition _update_balances_from_block (block : Block) : M Node unit :=
  with_lock (on_ledger (replay_block block)).

Definition _recalculate_all_balances : M Node unit :=
  with_lock (
    let temp_balances := initial_balances in
    let* chain_copy := gets chain in
    let* r := local (for_each chain_copy replay_block) temp_balances in
    modify (set_balances (snd r))).

Definition _get_balances_from_chain : M Node (gmap key Z) :=
  let balances := initial_balances in
  let* r := with_lock (
    let* chain_copy := gets chain in
    local (for_each chain_copy replay_block) balances) in
  ret (snd r).

Definition get_current_balance (username : value) : M Node Z :=
  let* temp_balances := _get_balances_from_chain in
  let* k := hashable username in
  ret (balance_of temp_balances k).

(** The loop of [get_balances_up_to_block], left by [break] after the
    first block whose hash is [block_hash]. *)
Fixpoint replay_up_to (blocks : list Block) (block_hash : string)
  : M (gmap key Z) unit :=
  match blocks with
  | [] => ret tt
  | block :: rest =>
      let* _ := replay_block block in
      if String.eqb (hash block) block_hash then ret tt
      else replay_up_to rest block_hash
  end.

Definition get_balances_up_to_block (block_hash : string) : M Node (gmap key Z) :=
  let balances := initial_balances in
  let* r := with_lock (
    let* chain_copy := gets chain in
    local (replay_up_to chain_copy block_hash) balances) in
  ret (snd r).

(** [for tx in txs: ... return False]: [false] at the first transfer that
    is not affordable. *)
Fixpoint spend_all (txs : list value) : M (gmap key Z) bool :=
  match txs with
  | [] => ret true
  | tx :: rest =>
      let* ok := spend tx in
      if ok then spend_all rest else ret false
  end.

(** The loop over the blocks of [_validate_chain_balances].  Each block
    works on a copy of the balances, which replaces them when the block
    is done. *)
Fixpoint validate_blocks (blocks : list Block) : M (gmap key Z) bool :=
  match blocks with
  | [] => ret true
  | block :: rest =>
      let* temp_balances := gets id in
      let* r := local (spend_all (transactions block)) temp_balances in
      if fst r then
        let* _ := modify (fun _ => snd r) in
        validate_blocks rest
      else ret false
  end.

Definition _validate_chain_balances (chain : list Block) : result bool :=
  fst (validate_blocks chain initial_balances).

Definition _reconcile_pending_transactions : M Node unit :=
  let* c := gets chain in
  let all_tx_in_chain :=
    concat (map (fun block => map json_dumps (transactions block)) c) in
  let* pend := gets pending_transactions in
  modify (set_pending
    (List.filter (fun tx => negb (bool_decide (json_dumps tx ∈ all_tx_in_chain)))
       pend)).

Definition request_chain_from_peers : M Node unit :=
  broadcast MSG_TYPE_REQUEST_CHAIN (PStr EmptyString) None.

Definition resolve_conflicts (received_chain : list Block) : M Node bool :=
  with_lock (
    let* current_len := gets (fun s => length (chain s)) in
    let received_len := length received_chain in
    if (current_len <? received_len)%nat then
      (* temp_blockchain = Blockchain(), which stamps a genesis block of its
         own; temp_blockchain.chain = received_chain *)
      let* _ := datetime_now in
      if is_chain_valid received_chain None then
        let* balances_ok := lift (_validate_chain_balances received_chain) in
        if balances_ok then
          let* _ := modify (set_chain received_chain) in
          let* _ := _reconcile_pending_transactions in
          let* _ := _recalculate_all_balances in
          ret true
        else ret false
      else ret false
    else ret false).

(** The format check that opens both [add_transaction_local] and the
    [NewTransaction] branch of [_process_message]: the value of [valid_tx]. *)
Definition valid_tx_format (data : value) : bool :=
  match data with
  | VDict kvs =>
      match dict_get kvs "type" with
      | Some ty =>
          if py_eq ty (VStr TX_TRANSFER_ECASH) then
            forallb (dict_has kvs) ["from"; "to"; "amount"]
            && match dict_get kvs "amount" with
               | Some a => match as_int a with Some z => 0 <? z | None => false end
               | None => false
               end
          else true
      | None => false
      end
  | _ => false
  end.

(** [any(json.dumps(tx, sort_keys=True) == tx_repr for tx in pending)]. *)
Definition pooled (tx_repr : string) (pending : list value) : bool :=
  existsb (fun tx => String.eqb (json_dumps tx) tx_repr) pending.

(** The balance test of both admission paths: the value of [should_add]. *)
Definition sender_can_pay (transaction : value) : M Node bool :=
  let* ty := py_item transaction "type" in
  if py_eq ty (VStr TX_TRANSFER_ECASH) then
    let* sender := py_item transaction "from" in
    if negb (py_eq sender (VStr SYSTEM_ACCOUNT)) then
      let* sender_balance := get_current_balance sender in
      let* amount := py_item transaction "amount" in
      let* a := int_of amount in
      ret (negb (sender_balance <? a))
    else ret true
  else ret true.

Definition stamp (transaction : value) (now : string) : value :=
  match transaction with
  | VDict kvs => VDict (dict_set kvs "timestamp" (VStr now))
  | _ => transaction
  end.

Definition add_transaction_local (transaction : value) : M Node unit :=
  if negb (valid_tx_format transaction) then ret tt
  else
    let* should_add := sender_can_pay transaction in
    if should_add then
      let* transaction :=
        match transaction with
        | VDict kvs =>
            if dict_has kvs "timestamp" then ret transaction
            else let* now := datetime_now in ret (stamp transaction now)
        | _ => ret transaction
        end in
      with_lock (
        let tx_repr := json_dumps transaction in
        let* pend := gets pending_transactions in
        if negb (pooled tx_repr pend) then
          let* _ := modify (set_pending (pend ++ [transaction])) in
          broadcast MSG_TYPE_NEW_TRANSACTION (PTx transaction) None
        else ret tt)
    else ret tt.

(** ** Reward synthesis *)

Fixpoint is_prefix (p s : string) : bool :=
  match p, s with
  | EmptyString, _ => true
  | String a p', String b s' => Ascii.eqb a b && is_prefix p' s'
  | String _ _, EmptyString => false
  end.

Fixpoint is_substring (p s : string) : bool :=
  is_prefix p s ||
  match s with
  | EmptyString => false
  | String _ s' => is_substring p s'
  end.

(** [x in c]. *)
Definition py_in {S : Type} (x c : value) : M S bool :=
  match c with
  | VList l => ret (existsb (fun e => py_eq e x) l)
  | VDict kvs =>
      match x with
      | VStr k => ret (dict_has kvs k)
      | VList _ | VDict _ => raise TypeError
      | _ => ret false
      end
  | VStr s =>
      match x with
      | VStr t => ret (is_substring t s)
      | _ => raise TypeError
      end
  | _ => raise TypeError
  end.

(** [repr] and [str] of a value holding ASCII text. *)
Definition repr_char (q : ascii) (a : ascii) : string :=
  let c := Z.of_nat (nat_of_ascii a) in
  if Ascii.eqb a q || (c =? 92) then String (ascii_of_nat 92) (String a EmptyString)
  else if c =? 10 then "\n"
  else if c =? 13 then "\r"
  else if c =? 9 then "\t"
  else if (c <? 32) || (126 <? c) then
    "\x" +:+ String (hex_digit (c / 16)) (String (hex_digit (c mod 16)) EmptyString)
  else String a EmptyString.

Fixpoint has_char (a : ascii) (s : string) : bool :=
  match s with
  | EmptyString => false
  | String b s' => Ascii.eqb a b || has_char a s'
  end.

Definition repr_str (s : string) : string :=
  let single := ascii_of_nat 39 in
  let double := ascii_of_nat 34 in
  let q := if has_char single s && negb (has_char double s) then double else single in
  String q
    ((fix go (s : string) : string :=
        match s with
        | EmptyString => EmptyString
        | String a s' => repr_char q a +:+ go s'
        end) s
     +:+ String q EmptyString).

Fixpoint py_repr (v : value) : string :=
  match v with
  | VNone => "None"
  | VBool b => if b then "True" else "False"
  | VInt z => pretty z
  | VStr s => repr_str s
  | VList l => "[" +:+ join ", " (map py_repr l) +:+ "]"
  | VDict kvs =>
      "{" +:+
      join ", " (map (fun kv => repr_str (fst kv) +:+ ": " +:+ py_repr (snd kv)) kvs)
      +:+ "}"
  end.

Definition py_str (v : value) : string :=
  match v with VStr s => s | _ => py_repr v end.

Definition is_dict (v : value) : bool :=
  match v with VDict _ => true | _ => false end.

(** The nested [get_history_from_copy]: the transactions of the patient in
    the blocks up to [block], oldest first. *)
Definition get_history_from_copy (block : Block) (patient_id : value)
    (chain_copy : list Block) : list value :=
  concat
    (map
       (fun b =>
          if index block <? index b then []
          else
            List.filter
              (fun t =>
                 match t with
                 | VDict kvs =>
                     py_eq (default VNone (dict_get kvs "patient_id")) patient_id
                 | _ => false
                 end)
              (transactions b))
       chain_copy).

(** [for record in reversed(history)] of the [LAB_TEST_RESULT] branch: the
    value of [ordering_doctor] after the loop. *)
Fixpoint find_ordering_doctor (records : list value) (tx patient_id : value)
  : M Node value :=
  match records with
  | [] => ret VNone
  | prev_tx :: rest =>
      let* ty := py_get prev_tx "type" VNone in
      let* hit :=
        if py_eq ty (VStr "DOCTOR_CONSULTATION") then
          let* test_name := py_get tx "test_name" VNone in
          let* tests_ordered := py_get prev_tx "tests_ordered" (VList []) in
          let* ordered := py_in test_name tests_ordered in
          if ordered then
            let* pid := py_get prev_tx "patient_id" VNone in
            ret (py_eq pid patient_id)
          else ret false
        else ret false in
      if hit then py_get prev_tx "doctor" VNone
      else find_ordering_doctor rest tx patient_id
  end.

(** The same loop of the [PRESCRIPTION_FILLED] branch: the value of
    [prescribing_doctor] after it. *)
Fixpoint find_prescribing_doctor (records : list value) (ref_ts patient_id : value)
  : M Node value :=
  match records with
  | [] => ret VNone
  | prev_tx :: rest =>
      let* ty := py_get prev_tx "type" VNone in
      let* hit :=
        if py_eq ty (VStr "PRESCRIPTION") then
          let* ts := py_get prev_tx "timestamp" VNone in
          if py_eq ts ref_ts then
            let* pid := py_get prev_tx "patient_id" VNone in
            ret (py_eq pid patient_id)
          else ret false
        else ret false in
      if hit then py_get prev_tx "prescribed_by" VNone
      else find_prescribing_doctor rest ref_ts patient_id
  end.

Definition reward_tx (doctor : value) (amount : Z) (reason now : string) : value :=
  VDict [("type", VStr TX_TRANSFER_ECASH); ("from", VStr SYSTEM_ACCOUNT);
         ("to", doctor); ("amount", VInt amount); ("reason", VStr reason);
         ("timestamp", VStr now)].

(** The body of [for tx in block.transactions] in
    [_generate_system_transfers_for_block]; it returns the transfers to
    append to [generated_tx].  [patient_id] is the local variable of that
    name, [None] while it is unbound.  Its only assignment stands on the
    line [if not isinstance(tx, dict): continue; patient_id = ...], after
    the [continue] and inside the [if], so no iteration runs it. *)
Definition reward_for (block : Block) (chain_history_copy : list Block)
    (patient_id : option value) (tx : value) : M Node (list value) :=
  if negb (is_dict tx) then ret []
  else
    match patient_id with
    | None => raise UnboundLocalError
    | Some patient_id =>
        if negb (truthy patient_id) then ret []
        else
          let* ty := py_get tx "type" VNone in
          if py_eq ty (VStr "LAB_TEST_RESULT") then
            let history := get_history_from_copy block patient_id chain_history_copy in
            let* ordering_doctor := find_ordering_doctor (rev history) tx patient_id in
            if truthy ordering_doctor then
              let* test_name := py_get tx "test_name" VNone in
              let* now := datetime_now in
              ret [reward_tx ordering_doctor 500
                     ("Reward for Lab Test Order (" +:+ py_str test_name +:+ ")") now]
            else ret []
          else if py_eq ty (VStr "PRESCRIPTION_FILLED") then
            let* ref_ts := py_get tx "references_prescription_timestamp" VNone in
            let history := get_history_from_copy block patient_id chain_history_copy in
            let* prescribing_doctor :=
              find_prescribing_doctor (rev history) ref_ts patient_id in
            if truthy prescribing_doctor then
              let* now := datetime_now in
              ret [reward_tx prescribing_doctor 700 "Reward for Prescription Fill" now]
            else ret []
          else ret []
    end.

Fixpoint collect_rewards (block : Block) (chain_history_copy : list Block)
    (patient_id : option value) (txs : list value) : M Node (list value) :=
  match txs with
  | [] => ret []
  | tx :: rest =>
      let* made := reward_for block chain_history_copy patient_id tx in
      let* more := collect_rewards block chain_history_copy patient_id rest in
      ret (made ++ more)
  end.

Definition _generate_system_transfers_for_block (block : Block)
  : M Node (list value) :=
  let* chain_history_copy := with_lock (gets chain) in
  collect_rewards block chain_history_copy None (transactions block).

(** ** Block production and message dispatch *)

(** Removes from the pool the transactions whose encoding is among those
    of [txs]. *)
Definition purge (txs : list value) (pending : list value) : list value :=
  let mined_tx_ids := map json_dumps txs in
  List.filter (fun tx => negb (bool_decide (json_dumps tx ∈ mined_tx_ids))) pending.

Definition blockchain_add_block (block : Block) : M Node bool :=
  fun s =>
    let r := add_block (chain s) block in
    (Ret (fst r), set_chain (snd r) s).

(** The selection loop of [mine_block_local]: the value of
    [valid_tx_for_block]. *)
Fixpoint select_affordable (candidate_txs : list value)
  : M (gmap key Z) (list value) :=
  match candidate_txs with
  | [] => ret []
  | tx :: rest =>
      let* valid_for_block := spend tx in
      let* kept := select_affordable rest in
      ret (if valid_for_block then tx :: kept else kept)
  end.

Definition mine_block_local : M Node bool :=
  let* r := with_lock (
    let* pend := gets pending_transactions in
    match pend with
    | [] => ret None
    | _ =>
        let* c := gets chain in
        match get_latest_block c with
        | None => ret None
        | Some latest_block =>
            let* temp_balances := get_balances_up_to_block (hash latest_block) in
            let* candidate_txs := gets pending_transactions in
            let* sel := local (select_affordable candidate_txs) temp_balances in
            let valid_tx_for_block := fst sel in
            match valid_tx_for_block with
            | [] => ret None
            | _ =>
                let* now := datetime_now in
                let new_block :=
                  Block_init (index latest_block + 1) now valid_tx_for_block
                    (hash latest_block) in
                let* added := blockchain_add_block new_block in
                if added then
                  let* _ := _update_balances_from_block new_block in
                  let* pend := gets pending_transactions in
                  let* _ := modify (set_pending (purge valid_tx_for_block pend)) in
                  let* generated_tx := _generate_system_transfers_for_block new_block in
                  ret (Some (new_block, generated_tx))
                else ret None
            end
        end
    end) in
  match r with
  | Some (new_block, generated_tx) =>
      let* _ := broadcast MSG_TYPE_NEW_BLOCK (PBlock new_block) None in
      let* _ := for_each generated_tx add_transaction_local in
      ret true
  | None => ret false
  end.

Inductive message : Type :=
| NewTransaction (data : value)
| NewBlock (data : Block)
| RequestChain
| SendChain (data : list Block).

(** The checks of the [NewBlock] branch, up to the value of [valid]. *)
Definition new_block_valid (data : Block) : M Node bool :=
  let* c := gets chain in
  let latest_block := get_latest_block c in
  if match latest_block with None => negb (index data =? 0) | Some _ => false end
  then ret false
  else
    let expected_index :=
      match latest_block with None => 0 | Some latest => index latest + 1 end in
    if negb (index data =? expected_index) then ret false
    else if match latest_block with
            | Some latest => negb (String.eqb (previous_hash data) (hash latest))
            | None => false
            end
    then let* _ := request_chain_from_peers in ret false
    else if negb (String.eqb (hash data) (calculate_hash data)) then ret false
    else
      let* temp_balances := get_balances_up_to_block (previous_hash data) in
      let* r := local (spend_all (transactions data)) temp_balances in
      ret (fst r).

Definition _process_message (msg : message) (source_addr : addr) : M Node unit :=
  match msg with
  | NewTransaction data =>
      if valid_tx_format data then
        with_lock (
          let tx_repr := json_dumps data in
          let* pend := gets pending_transactions in
          if negb (pooled tx_repr pend) then
            let* should_add := sender_can_pay data in
            if should_add then
              let* _ := modify (set_pending (pend ++ [data])) in
              broadcast MSG_TYPE_NEW_TRANSACTION (PTx data) (Some source_addr)
            else ret tt
          else ret tt)
      else ret tt
  | NewBlock data =>
      let* valid := new_block_valid data in
      if valid then
        let* r := with_lock (
          let* c := gets chain in
          let current_latest := get_latest_block c in
          if match current_latest with
             | None => index data =? 0
             | Some latest =>
                 String.eqb (previous_hash data) (hash latest)
                 && (index data =? index latest + 1)
             end
          then
            let* _ := blockchain_add_block data in
            let* pend := gets pending_transactions in
            let* _ := modify (set_pending (purge (transactions data) pend)) in
            let* _ := _update_balances_from_block data in
            let* generated_tx := _generate_system_transfers_for_block data in
            ret (Some generated_tx)
          else ret None) in
        match r with
        | Some generated_tx =>
            let* _ := broadcast MSG_TYPE_NEW_BLOCK (PBlock data) (Some source_addr) in
            for_each generated_tx add_transaction_local
        | None => ret tt
        end
      else ret tt
  | RequestChain =>
      with_lock (
        let* c := gets chain in
        send_message source_addr MSG_TYPE_SEND_CHAIN (PChain c))
  | SendChain data =>
      let* _ := resolve_conflicts data in ret tt
  end.

(** [Node.__init__]: a fresh chain, an empty pool, a free lock, and the
    ledger recomputed. *)
Definition Node_init (clk : nat -> string) : result unit * Node :=
  _recalculate_all_balances
    {| chain := Blockchain_init (clk 0%nat); pending_transactions := [];
       E_CASH_BALANCES := initial_balances; lock_held := false;
       sent := []; clock := clk; ticks := 1 |}.

Arguments sha256_hexdigest : simpl never.
Arguments json_dumps : simpl never.
Arguments calculate_hash : simpl never.

(** ** Patient history *)

(** The record that [get_patient_history] appends for a transaction. *)
Definition history_record (block : Block) (tx : value) : value :=
  VDict [("block_index", VInt (index block));
         ("timestamp", VStr (timestamp block));
         ("transaction", tx)].

(** [isinstance(tx, dict) and tx.get('patient_id') == patient_id]. *)
Definition about_patient (patient_id : value) (tx : value) : bool :=
  match tx with
  | VDict kvs => py_eq (default VNone (dict_get kvs "patient_id")) patient_id
  | _ => false
  end.

(** [Blockchain.get_patient_history]. *)
Definition get_patient_history (self_chain : list Block) (patient_id : value)
  : list value :=
  concat
    (map
       (fun block =>
          map (history_record block)
            (List.filter (about_patient patient_id) (transactions block)))
       self_chain).

(** ** The selection loop of the miner, with its message

    The loop of [mine_block_local] prints a message for a transfer that it
    skips, which formats [tx['from']]: the subscript raises [KeyError] on a
    transfer without that key.  [select_affordable] leaves the message out;
    [select_for_block] evaluates it. *)
Definition consider (tx : value) : M (gmap key Z) bool :=
  let* valid_for_block := spend tx in
  if valid_for_block then ret true
  else
    let* _ := py_item tx "from" in
    ret false.

Fixpoint select_for_block (candidate_txs : list value)
  : M (gmap key Z) (list value) :=
  match candidate_txs with
  | [] => ret []
  | tx :: rest =>
      let* valid_for_block := consider tx in
      let* kept := select_for_block rest in
      ret (if valid_for_block then tx :: kept else kept)
  end.

(** ** Users and sessions *)

(** The dict [USERS] with its values. *)
Definition USER_TABLE : list (string * value) :=
  [("dr_alice",
    VDict [("password", VStr "password123"); ("role", VStr "doctor");
           ("name", VStr "Dr. Alice")]);
   ("lab_tech_bob",
    VDict [("password", VStr "labpass"); ("role", VStr "lab");
           ("name", VStr "Bob (Lab)")]);
   ("pharm_charlie",
    VDict [("password", VStr "pharmpass"); ("role", VStr "pharmacy");
           ("name", VStr "Charlie (Pharmacy)")])].

(** The items that follow the first ones in a dict display: each is set in
    turn, so a key that comes again keeps its place and takes the new value. *)
Definition dict_update (d more : list (string * value)) : list (string * value) :=
  fold_left (fun acc kv => dict_set acc (fst kv) (snd kv)) more d.

(** [**v] in a dict display. *)
Definition unpack {S : Type} (v : value) : M S (list (string * value)) :=
  match v with
  | VDict kvs => ret kvs
  | _ => raise TypeError
  end.

(** [Node.login] and [Node.logout].  Their state is [self.current_user]:
    [None], or the dict of the user who is logged in.  The messages that
    they print format [self.current_user['name']], [user_info['name']] and
    [user_info['role']]: these are evaluated. *)
Definition login (username password : string) : M value value :=
  let* current_user := gets id in
  if truthy current_user then
    let* _ := py_item current_user "name" in
    ret current_user
  else
    let user_info := default VNone (dict_get USER_TABLE username) in
    let* ok :=
      if truthy user_info then
        let* stored := py_item user_info "password" in
        ret (py_eq stored (VStr password))
      else ret false in
    if ok then
      let* _ := py_item user_info "name" in
      let* _ := py_item user_info "role" in
      let* fields := unpack user_info in
      let* _ := modify (fun _ => VDict (dict_update [("username", VStr username)] fields)) in
      gets id
    else
      let* _ := modify (fun _ => VNone) in
      ret VNone.

Definition logout : M value unit :=
  let* current_user := gets id in
  if truthy current_user then
    let* _ := py_item current_user "name" in
    modify (fun _ => VNone)
  else ret tt.

(** The [login] command of the three shells ([doctor_node.py],
    [lab_node.py], [pharmacy_node.py]), which differ in the role they
    serve; [username] and [password] are the two lines read. *)
Definition login_command (role username password : string) : M value unit :=
  let* current_user := gets id in
  if negb (truthy current_user) then
    let* user_info := login username password in
    let* other_role :=
      if truthy user_info then
        let* r := py_item user_info "role" in
        ret (negb (py_eq r (VStr role)))
      else ret false in
    if other_role then logout else ret tt
  else ret tt.

(** ** Views *)

Definition key_leb (x y : key) : bool :=
  match x, y with
  | KInt a, KInt b => a <=? b
  | KStr a, KStr b => String.leb a b
  | _, _ => true
  end.

Fixpoint insert_key (x : key) (l : list key) : list key :=
  match l with
  | [] => [x]
  | y :: rest => if key_leb x y then x :: l else y :: insert_key x rest
  end.

Definition is_int_key (k : key) : bool :=
  match k with KInt _ => true | _ => false end.

Definition is_str_key (k : key) : bool :=
  match k with KStr _ => true | _ => false end.

(** [sorted(keys)]: [<] is defined between two ints and between two
    strings, and a list of two or more elements is compared. *)
Definition sorted_keys {S : Type} (keys : list key) : M S (list key) :=
  if (length keys <=? 1)%nat || forallb is_int_key keys || forallb is_str_key keys
  then ret (foldr insert_key [] keys)
  else raise TypeError.

(** [Node.view_balances]; it returns the lines that it prints, each as the
    pair of the two values formatted. *)
Definition view_balances : M Node (list (key * Z)) :=
  with_lock (
    let* ledger := gets E_CASH_BALANCES in
    let* sorted_users := sorted_keys (map fst (map_to_list ledger)) in
    ret (map (fun user => (user, balance_of ledger user)) sorted_users)).

(** [Node.view_patient_history]; it returns the records that it prints. *)
Definition view_patient_history (patient_id : value) : M Node (list value) :=
  with_lock (gets (fun s => get_patient_history (chain s) patient_id)).

(** ** Workflow actions

    The actions read [self.current_user] and leave it alone: it is their
    first parameter. *)

(** [not self.current_user or self.current_user['role'] != role]. *)
Definition lacks_role {S : Type} (current_user : value) (role : string) : M S bool :=
  if negb (truthy current_user) then ret true
  else
    let* r := py_item current_user "role" in
    ret (negb (py_eq r (VStr role))).

Definition doctor_consultation (current_user patient_id notes order_test_flag : value)
  : M Node string :=
  let* denied := lacks_role current_user "doctor" in
  if denied then ret "Permission denied."
  else if negb (truthy patient_id) then ret "No active patient selected."
  else
    let* doctor := py_item current_user "username" in
    let* now := datetime_now in
    let transaction :=
      VDict [("type", VStr "DOCTOR_CONSULTATION"); ("patient_id", patient_id);
             ("doctor", doctor); ("notes", notes);
             ("tests_ordered",
              VList (if truthy order_test_flag then [VStr "Blood Test"] else []));
             ("timestamp", VStr now)] in
    let* _ := add_transaction_local transaction in
    ret "Consultation transaction created.".

Definition perform_blood_test (current_user patient_id results_dict : value)
  : M Node string :=
  let* denied := lacks_role current_user "lab" in
  if denied then ret "Permission denied."
  else if negb (truthy patient_id) then ret "No active patient selected."
  else
    let* performed_by := py_item current_user "username" in
    let* now := datetime_now in
    let transaction :=
      VDict [("type", VStr "LAB_TEST_RESULT"); ("patient_id", patient_id);
             ("test_name", VStr "Blood Test"); ("performed_by", performed_by);
             ("results", results_dict); ("timestamp", VStr now)] in
    let* _ := add_transaction_local transaction in
    ret "Blood test result transaction created.".

Definition doctor_review_results_and_prescribe
    (current_user patient_id prescription_details reviewed_lab_user : value)
  : M Node string :=
  let* denied := lacks_role current_user "doctor" in
  if denied then ret "Permission denied."
  else if negb (truthy patient_id) then ret "No active patient selected."
  else
    let* doctor_user := py_item current_user "username" in
    let payment_amount := 100 in
    let* doctor_balance := get_current_balance doctor_user in
    let transfer_possible := payment_amount <=? doctor_balance in
    let* details := unpack prescription_details in
    let* now := datetime_now in
    let presc_tx :=
      VDict (dict_update
               [("type", VStr "PRESCRIPTION"); ("patient_id", patient_id);
                ("prescribed_by", doctor_user)]
               (details ++ [("based_on_review_of_test_by", reviewed_lab_user);
                            ("timestamp", VStr now)])) in
    let* _ := add_transaction_local presc_tx in
    let final_msg := "Prescription transaction created. " in
    if transfer_possible && truthy reviewed_lab_user then
      let* now := datetime_now in
      let transfer_tx :=
        VDict [("type", VStr TX_TRANSFER_ECASH); ("from", doctor_user);
               ("to", reviewed_lab_user); ("amount", VInt payment_amount);
               ("reason", VStr "Payment for Lab Report Access");
               ("timestamp", VStr now)] in
      let* _ := add_transaction_local transfer_tx in
      ret (final_msg +:+ "Payment transaction (" +:+ pretty payment_amount
           +:+ " units to " +:+ py_str reviewed_lab_user +:+ ") created.")
    else if negb (truthy reviewed_lab_user) then
      ret (final_msg +:+ "(Could not identify lab user for payment).")
    else ret (final_msg +:+ "(Payment skipped due to insufficient funds).").

Definition pharmacy_fill_prescription
    (current_user patient_id prescription_timestamp : value) : M Node string :=
  let* denied := lacks_role current_user "pharmacy" in
  if denied then ret "Permission denied."
  else if negb (truthy patient_id) then ret "No active patient selected."
  else
    let* filled_by := py_item current_user "username" in
    let* now := datetime_now in
    let transaction :=
      VDict [("type", VStr "PRESCRIPTION_FILLED"); ("patient_id", patient_id);
             ("filled_by_pharmacy", filled_by);
             ("references_prescription_timestamp", prescription_timestamp);
             ("timestamp", VStr now)] in
    let* _ := add_transaction_local transaction in
    ret "Prescription filled transaction created.".

(** ** Patient registration and the registry file

    [register_new_patient] also works on the file [patient_registry.csv]
    and draws a UUID.  The file is the list of the rows written to it, each
    the list of its fields, or [None] while it does not exist;
    [registry_writable] tells whether opening it for appending succeeds;
    [uuid.uuid4()] returns [uuid_source uuids_drawn]. *)
Record World : Type := {
  node : Node;
  patient_registry : option (list (list string));
  registry_writable : bool;
  uuid_source : nat -> string;
  uuids_drawn : nat
}.

Definition set_node (s : Node) (w : World) : World :=
  {| node := s; patient_registry := patient_registry w;
     registry_writable := registry_writable w;
     uuid_source := uuid_source w; uuids_drawn := uuids_drawn w |}.

Definition set_registry (rows : option (list (list string))) (w : World) : World :=
  {| node := node w; patient_registry := rows;
     registry_writable := registry_writable w;
     uuid_source := uuid_source w; uuids_drawn := uuids_drawn w |}.

(** Runs a computation of the node. *)
Definition on_node {A : Type} (m : M Node A) : M World A :=
  fun w =>
    match m (node w) with
    | (r, s) => (r, set_node s w)
    end.

(** [str(uuid.uuid4())]. *)
Definition uuid4 : M World string :=
  fun w =>
    (Ret (uuid_source w (uuids_drawn w)),
     {| node := node w; patient_registry := patient_registry w;
        registry_writable := registry_writable w;
        uuid_source := uuid_source w; uuids_drawn := S (uuids_drawn w) |}).

Definition PATIENT_CSV_HEADER : list string :=
  ["patient_id"; "patient_name"; "registered_by"; "timestamp"].

(** The text that [csv.writer] writes for a value: [None] is the empty field. *)
Definition csv_field (v : value) : string :=
  match v with
  | VNone => EmptyString
  | _ => py_str v
  end.

(** [writer.writerow(row)] on a file opened for appending. *)
Definition writerow (row : list string) (w : World) : World :=
  set_registry (Some (default [] (patient_registry w) ++ [row])) w.

Definition register_new_patient (current_user : value) (patient_name : string)
  : M World (option string * string) :=
  let* denied := lacks_role current_user "doctor" in
  if denied then ret (None, "Permission denied.")
  else
    let* patient_id := uuid4 in
    let* timestamp := on_node datetime_now in
    let* registered_by := py_item current_user "username" in
    let transaction :=
      VDict [("type", VStr "PATIENT_REGISTRATION"); ("patient_id", VStr patient_id);
             ("patient_name", VStr patient_name); ("registered_by", registered_by);
             ("timestamp", VStr timestamp)] in
    let* write_header :=
      gets (fun w => match patient_registry w with None => true | Some _ => false end) in
    let* writable := gets registry_writable in
    let* _ :=
      if writable then
        let* _ := if write_header then modify (writerow PATIENT_CSV_HEADER) else ret tt in
        modify (writerow [patient_id; patient_name; csv_field registered_by; timestamp])
      else ret tt in
    let* _ := on_node (add_transaction_local transaction) in
    ret (Some patient_id,
         "Registration tx created for " +:+ patient_name +:+ " (ID: " +:+ patient_id
         +:+ ") and logged to CSV.").

(** ** The shells: looking up what a command acts on *)

(** [doctor_node.py], command [prescribe]: the loop over
    [reversed(history)]; the value of [reviewed_lab_user] after it. *)
Fixpoint find_reviewed_lab_user {S : Type} (records : list value) : M S value :=
  match records with
  | [] => ret VNone
  | record :: rest =>
      let* tx := py_item record "transaction" in
      let* ty := py_get tx "type" VNone in
      let* hit :=
        if py_eq ty (VStr "LAB_TEST_RESULT") then
          let* test_name := py_get tx "test_name" VNone in
          ret (py_eq test_name (VStr "Blood Test"))
        else ret false in
      if hit then py_get tx "performed_by" VNone
      else find_reviewed_lab_user rest
  end.

(** [all(details.values())] on the four lines read. *)
Definition all_given (lines : list string) : bool :=
  forallb (fun line => truthy (VStr line)) lines.

(** The command [prescribe] for an active patient, from the lines read to
    the message printed, [None] when the command is cancelled.  The shell
    runs it when [node.current_user] has the role [doctor]. *)
Definition prescribe_command (current_user active_patient_id : value)
    (medication dosage frequency duration : string) : M Node (option string) :=
  if truthy active_patient_id then
    let* _ := view_patient_history active_patient_id in
    let* history :=
      with_lock (gets (fun s => get_patient_history (chain s) active_patient_id)) in
    let* reviewed_lab_user := find_reviewed_lab_user (rev history) in
    let details :=
      VDict [("medication", VStr medication); ("dosage", VStr dosage);
             ("frequency", VStr frequency); ("duration", VStr duration)] in
    if all_given [medication; dosage; frequency; duration] then
      let* msg :=
        doctor_review_results_and_prescribe current_user active_patient_id details
          reviewed_lab_user in
      ret (Some msg)
    else ret None
  else ret None.

(** [pharmacy_node.py], command [fill]: the first loop, which collects
    [already_filled_timestamps]. *)
Fixpoint collect_filled {S : Type} (records : list value) (filled : gset key)
  : M S (gset key) :=
  match records with
  | [] => ret filled
  | record :: rest =>
      let* tx := py_item record "transaction" in
      let* ty := py_get tx "type" VNone in
      if py_eq ty (VStr "PRESCRIPTION_FILLED") then
        let* ref := py_get tx "references_prescription_timestamp" VNone in
        let* k := hashable ref in
        collect_filled rest ({[ k ]} ∪ filled)
      else collect_filled rest filled
  end.

(** The second loop, over [reversed(history)]: the value of
    [latest_prescription_tx] after it. *)
Fixpoint find_unfilled {S : Type} (records : list value) (filled : gset key)
  : M S value :=
  match records with
  | [] => ret VNone
  | record :: rest =>
      let* tx := py_item record "transaction" in
      let* ty := py_get tx "type" VNone in
      if py_eq ty (VStr "PRESCRIPTION") then
        let* ts := py_get tx "timestamp" VNone in
        let* k := hashable ts in
        if bool_decide (k ∈ filled) then find_unfilled rest filled
        else ret tx
      else find_unfilled rest filled
  end.

(** The command [fill] for an active patient; [confirmed] tells whether
    the answer to the prompt is [y].  The shell runs it when
    [node.current_user] has the role [pharmacy]. *)
Definition fill_command (current_user active_patient_id : value) (confirmed : bool)
  : M Node (option string) :=
  if truthy active_patient_id then
    let* history :=
      with_lock (gets (fun s => get_patient_history (chain s) active_patient_id)) in
    let* already_filled_timestamps := collect_filled history ∅ in
    let* latest_prescription_tx := find_unfilled (rev history) already_filled_timestamps in
    if truthy latest_prescription_tx then
      let* medication := py_get latest_prescription_tx "medication" VNone in
      if confirmed then
        let* ts := py_get latest_prescription_tx "timestamp" VNone in
        let* msg := pharmacy_fill_prescription current_user active_patient_id ts in
        ret (Some msg)
      else ret None
    else ret None
  else ret None.

(** ** The wire format

    A byte is an integer from 0 to 255.  A connection is read through
    [recv]: [incoming] holds the bytes that the peer has sent and that have
    not been read, after which the peer has closed the connection; [ready]
    tells for the coming calls of [recv], in their order, how many bytes
    have arrived when the call returns (at least one, as [recv] waits for
    data); after the calls listed everything has arrived. *)
Definition MSG_BUFFER_SIZE : Z := 4096.
Definition MSG_HEADER_LENGTH : Z := 4.

(** [n.to_bytes(length, byteorder='big')]; [None] is [OverflowError]. *)
Definition to_bytes (n : Z) (length : nat) : option (list Z) :=
  if (0 <=? n) && (n <? 256 ^ Z.of_nat length) then Some (be_bytes length n)
  else None.

(** [int.from_bytes(b, byteorder='big')]. *)
Definition from_bytes (b : list Z) : Z :=
  fold_left (fun acc x => acc * 256 + x) b 0.

(** The bytes that [send_message] hands to [sock.sendall] for the pickled
    data: [header + serialized_data]. *)
Definition frame (msg_type : Z) (serialized_data : list Z) : option (list Z) :=
  let msg_len := Z.of_nat (length serialized_data) in
  match to_bytes msg_len 3, to_bytes msg_type 1 with
  | Some len_bytes, Some type_byte => Some ((len_bytes ++ type_byte) ++ serialized_data)
  | _, _ => None
  end.

Record Socket : Type := {
  incoming : list Z;
  ready : list nat
}.

(** [sock.recv(bufsize)]: empty only at the end of the stream. *)
Definition recv (bufsize : Z) (sock : Socket) : list Z * Socket :=
  let arrived :=
    match ready sock with
    | [] => length (incoming sock)
    | n :: _ => Nat.max 1 n
    end in
  let n := Nat.min (Z.to_nat bufsize) arrived in
  (take n (incoming sock),
   {| incoming := drop n (incoming sock); ready := tail (ready sock) |}).

(** The loop [while bytes_recd < msg_len] of [_handle_connection].  Each
    round adds at least one byte, so [msg_len] rounds are enough:
    [Unfinished] tells that [fuel] rounds were not. *)
Inductive payload_outcome : Type :=
| Complete (data : list Z)
| Disconnected
| Unfinished.

Fixpoint recv_payload (fuel : nat) (msg_len bytes_recd : Z) (data : list Z)
    (sock : Socket) {struct fuel} : payload_outcome * Socket :=
  if bytes_recd <? msg_len then
    match fuel with
    | O => (Unfinished, sock)
    | S fuel' =>
        match recv (Z.min (msg_len - bytes_recd) MSG_BUFFER_SIZE) sock with
        | ([], sock') => (Disconnected, sock')
        | (chunk, sock') =>
            recv_payload fuel' msg_len (bytes_recd + Z.of_nat (length chunk))
              (data ++ chunk) sock'
        end
    end
  else (Complete data, sock).

(** One round of the loop of [_handle_connection], up to the bytes that it
    hands to [pickle.loads]. *)
Inductive reception : Type :=
| Received (msg_type : Z) (data : list Z)
| LoopLeft
| ConnectionAborted
| OutOfFuel.

Definition read_message (sock : Socket) : reception * Socket :=
  match recv MSG_HEADER_LENGTH sock with
  | (header, sock1) =>
      if (Z.of_nat (length header) =? 0) || (Z.of_nat (length header) <? MSG_HEADER_LENGTH)
      then (LoopLeft, sock1)
      else
        let msg_len := from_bytes (take 3 header) in
        let msg_type := from_bytes (drop 3 header) in
        match recv_payload (Z.to_nat msg_len) msg_len 0 [] sock1 with
        | (Complete data, sock2) => (Received msg_type data, sock2)
        | (Disconnected, sock2) => (ConnectionAborted, sock2)
        | (Unfinished, sock2) => (OutOfFuel, sock2)
        end
  end.

(** * Amounts that are not ints

    The chain of a peer arrives pickled ([_handle_connection]) and is
    taken after [is_chain_valid] and [_validate_chain_balances]; a block
    of a peer is taken after the affordability test of [_process_message].
    None of the three tests the type of an amount, which the admission
    of a transaction does ([isinstance(amount, int)]).  This part gives
    the ledger update on transfers whose amount may be a [float]. *)

(** ** Python numbers *)

(** An [int] or a [float]; a [float] is an IEEE 754 binary64 value, of
    which [spec_float] keeps the sign, the mantissa and the exponent. *)
Inductive number : Type :=
| NInt (z : Z)
| NFloat (f : spec_float).

(** [float(z)] as [-] and [+] convert an [int] operand when the other
    operand is a [float]: the nearest float, ties to even, and
    [OverflowError] for an [int] beyond the finite floats. *)
Definition float_of_int {S : Type} (z : Z) : M S spec_float :=
  match binary_normalize 53 1024 z 0 false with
  | S754_infinity _ => raise OverflowError
  | f => ret f
  end.

(** [x - y]. *)
Definition number_sub {S : Type} (x y : number) : M S number :=
  match x, y with
  | NInt a, NInt b => ret (NInt (a - b))
  | NInt a, NFloat g =>
      let* f := float_of_int a in ret (NFloat (SFsub 53 1024 f g))
  | NFloat f, NInt b =>
      let* g := float_of_int b in ret (NFloat (SFsub 53 1024 f g))
  | NFloat f, NFloat g => ret (NFloat (SFsub 53 1024 f g))
  end.

(** [x + y]. *)
Definition number_add {S : Type} (x y : number) : M S number :=
  match x, y with
  | NInt a, NInt b => ret (NInt (a + b))
  | NInt a, NFloat g =>
      let* f := float_of_int a in ret (NFloat (SFadd 53 1024 f g))
  | NFloat f, NInt b =>
      let* g := float_of_int b in ret (NFloat (SFadd 53 1024 f g))
  | NFloat f, NFloat g => ret (NFloat (SFadd 53 1024 f g))
  end.

(** ** Transactions of an unpickled chain *)

(** A transaction of JSON data, or the dict [{**kvs, 'amount': amount}]
    of JSON data whose amount is a [float]. *)
Inductive unpickled : Type :=
| Json (tx : value)
| FloatAmount (kvs : list (string * value)) (amount : spec_float).

(** [tx.get(k, dflt)] for a key [k] other than ['amount']. *)
Definition get_item {S : Type} (tx : unpickled) (k : string) (dflt : value)
  : M S value :=
  match tx with
  | Json tx => py_get tx k dflt
  | FloatAmount kvs _ => py_get (VDict kvs) k dflt
  end.

(** [tx.get('amount', 0)]. *)
Definition get_amount {S : Type} (tx : unpickled) : M S (value + spec_float) :=
  match tx with
  | Json tx => let* amount := py_get tx "amount" (VInt 0) in ret (inl amount)
  | FloatAmount _ amount => ret (inr amount)
  end.

(** An operand of [-] or [+] against a number. *)
Definition number_of {S : Type} (v : value + spec_float) : M S number :=
  match v with
  | inl v => let* z := int_of v in ret (NInt z)
  | inr f => ret (NFloat f)
  end.

(** ** Balances that may be floats *)

Definition initial_numbers : gmap key number :=
  <[KStr SYSTEM_ACCOUNT := NInt INITIAL_SYSTEM_BALANCE]>
    (foldr (fun user b => <[KStr user := NInt 0]> b) ∅ USERS).

Definition number_at (b : gmap key number) (k : key) : number :=
  default (NInt 0) (b !! k).

(** [if k not in balances: balances[k] = 0]. *)
Definition init_number (k : key) (b : gmap key number) : gmap key number :=
  match b !! k with Some _ => b | None => <[k := NInt 0]> b end.

(** The body of [for tx in block.transactions] of the ledger updates, as
    [credit_debit], on numbers. *)
Definition credit_debit_number (tx : unpickled) : M (gmap key number) unit :=
  let* ty := get_item tx "type" VNone in
  if py_eq ty (VStr TX_TRANSFER_ECASH) then
    let* sender := get_item tx "from" VNone in
    let* recipient := get_item tx "to" VNone in
    let* amount := get_amount tx in
    let* ks := hashable sender in
    let* _ := modify (init_number ks) in
    let* kr := hashable recipient in
    let* _ := modify (init_number kr) in
    let* a := number_of amount in
    let* balance := gets (fun b => number_at b ks) in
    let* debited := number_sub balance a in
    let* _ := modify (fun b => <[ks := debited]> b) in
    let* balance := gets (fun b => number_at b kr) in
    let* credited := number_add balance a in
    modify (fun b => <[kr := credited]> b)
  else ret tt.

(** [_update_balances_from_block] on the ledger, for a block of which
    [transactions] is [block.transactions]. *)
Definition update_numbers (transactions : list unpickled)
  : M (gmap key number) unit :=
  for_each transactions credit_debit_number.

(** The loop of [_recalculate_all_balances] from the initial balances;
    [chain] gives [block.transactions] for each block of the chain. *)
Definition recalculate_numbers (chain : list (list unpickled))
  : result unit * gmap key number :=
  for_each chain update_numbers initial_numbers.

(** * Vocabulary of the statements and sample data *)

(** ** The chain store *)

(** A chain is linked when each block after the first names its
    predecessor's hash and index. *)
Definition linked (c : list Block) : Prop :=
  forall (i : nat) cur prev,
    c !! S i = Some cur -> c !! i = Some prev ->
    previous_hash cur = hash prev /\ index cur = index prev + 1.

Definition sealed (b : Block) : Prop := hash b = calculate_hash b.

(** The chains that [add_block] builds from the empty chain: every call
    counts, also one that returns [False] and leaves the chain as it was. *)
Inductive built : list Block -> Prop :=
| built_empty : built []
| built_append (c : list Block) (block : Block) :
    built c -> built (snd (add_block c block)).

(** A first block whose stored hash is not the hash of its contents. *)
Definition unsealed_block : Block :=
  {| index := 0; timestamp := "2024-05-01 10:00:00"; transactions := [];
     previous_hash := "0"; nonce := 0; hash := "00" |}.

Definition second_block : Block :=
  Block_init 1 "2024-05-01 10:05:00"
    [VDict [("type", VStr "PATIENT_REGISTRATION"); ("patient_id", VStr "p-001")]]
    (hash (genesis_block "2024-05-01 10:00:00")).

(** ** The ledger *)

(** A transaction that the ledger updates can read: a dict whose transfer
    fields, when it is a transfer, are a key, a key and an [int]. *)
Definition well_typed (tx : value) : bool :=
  match tx with
  | VDict kvs =>
      if py_eq (default VNone (dict_get kvs "type")) (VStr TX_TRANSFER_ECASH) then
        match hash_key (default VNone (dict_get kvs "from")),
              hash_key (default VNone (dict_get kvs "to")),
              as_int (default (VInt 0) (dict_get kvs "amount")) with
        | Some _, Some _, Some _ => true
        | _, _, _ => false
        end
      else true
  | _ => false
  end.

Definition well_typed_chain (c : list Block) : Prop :=
  Forall (fun block => Forall (fun tx => well_typed tx = true) (transactions block)) c.

(** ** Sample data *)

Definition demo_clock (n : nat) : string :=
  nth n ["2024-05-01 10:00:00.105213"; "2024-05-01 10:04:11.730021";
         "2024-05-01 10:09:45.000518"; "2024-05-01 10:12:02.918277"]
    "2024-05-01 10:15:30.440912".

(** The node as [Node.__init__] leaves it. *)
Definition fresh_node : Node := snd (Node_init demo_clock).

Definition peer : addr := ("10.0.0.7", 5001).

Definition transfer (sender recipient : string) (amount : Z) (ts : string) : value :=
  VDict [("type", VStr TX_TRANSFER_ECASH); ("from", VStr sender);
         ("to", VStr recipient); ("amount", VInt amount); ("timestamp", VStr ts)].

(** A block that extends the chain of [fresh_node]. *)
Definition next_block (txs : list value) : Block :=
  Block_init 1 "2024-05-01 10:30:00" txs (hash (genesis_block (demo_clock 0))).

Definition reward_block : Block :=
  next_block [transfer SYSTEM_ACCOUNT "dr_alice" 500 "2024-05-01 10:29:00"].

Definition paid_node : Node :=
  set_chain (chain fresh_node ++ [reward_block]) fresh_node.

(** The chain of a fresh node, extended by a block that moves -5 units
    from dr_alice to lab_tech_bob. *)
Definition forged_chain : list Block :=
  chain fresh_node
  ++ [next_block [transfer "dr_alice" "lab_tech_bob" (-5) "2024-05-01 10:29:00"]].

(** ** Block production *)

Definition registration : value :=
  VDict [("type", VStr "PATIENT_REGISTRATION"); ("patient_id", VStr "p-001");
         ("patient_name", VStr "Dana"); ("registered_by", VStr "dr_alice");
         ("timestamp", VStr "2024-05-01 10:02:00.000000")].

Definition node_with_registration : Node :=
  snd (add_transaction_local registration fresh_node).

(** ** Reward synthesis *)

Definition consultation : value :=
  VDict [("type", VStr "DOCTOR_CONSULTATION"); ("patient_id", VStr "p-001");
         ("doctor", VStr "dr_alice"); ("notes", VStr "fatigue");
         ("tests_ordered", VList [VStr "Blood Test"]);
         ("timestamp", VStr "2024-05-01 10:20:00.000000")].

Definition lab_result : value :=
  VDict [("type", VStr "LAB_TEST_RESULT"); ("patient_id", VStr "p-001");
         ("test_name", VStr "Blood Test"); ("performed_by", VStr "lab_tech_bob");
         ("results", VDict [("hemoglobin", VInt 14)]);
         ("timestamp", VStr "2024-05-01 10:40:00.000000")].

Definition consultation_block : Block := next_block [consultation].

Definition lab_block : Block :=
  Block_init 2 "2024-05-01 10:45:00" [lab_result] (hash consultation_block).

(** A node whose chain ends with the consultation. *)
Definition consultation_node : Node :=
  set_chain (chain fresh_node ++ [consultation_block]) fresh_node.

(** A node whose chain ends with the consultation and then the result. *)
Definition lab_node : Node :=
  set_chain (chain fresh_node ++ [consultation_block; lab_block]) fresh_node.

(** ** Chain replacement *)

(** The replacement rule: the received chain is strictly longer, valid
    and affordable. *)
Definition replaces (received_chain : list Block) (s : Node) : bool :=
  (length (chain s) <? length received_chain)%nat
  && is_chain_valid received_chain None
  && match _validate_chain_balances received_chain with
     | Ret true => true
     | _ => false
     end.

Definition reward_transfer : value :=
  transfer SYSTEM_ACCOUNT "dr_alice" 500 "2024-05-01 10:29:00".

(** A fresh node whose pool holds the transfer that [reward_block] carries. *)
Definition pooled_node : Node := set_pending [reward_transfer] fresh_node.

(** ** Remote block acceptance *)

(** The index that the next block must carry. *)
Definition expected_index (s : Node) : Z :=
  match get_latest_block (chain s) with
  | None => 0
  | Some latest => index latest + 1
  end.

(** The four ways in which a received block fails its acceptance checks. *)
Definition wrong_index (s : Node) (data : Block) : Prop :=
  index data <> expected_index s.

Definition wrong_previous_hash (s : Node) (data : Block) : Prop :=
  exists latest, get_latest_block (chain s) = Some latest /\
                 previous_hash data <> hash latest.

Definition wrong_hash (data : Block) : Prop :=
  hash data <> calculate_hash data.

(** The replay of the block on the balances at its parent meets a transfer
    that its sender cannot afford. *)
Definition unaffordable (s : Node) (data : Block) : Prop :=
  exists balances,
    fst (get_balances_up_to_block (previous_hash data) s) = Ret balances /\
    fst (spend_all (transactions data) balances) = Ret false.

Definition resync_request : event :=
  Broadcast MSG_TYPE_REQUEST_CHAIN (PStr EmptyString) None.

(** The affordability replay of the [NewBlock] branch. *)
Definition parent_replay (data : Block) : M Node bool :=
  let* temp_balances := get_balances_up_to_block (previous_hash data) in
  let* r := local (spend_all (transactions data)) temp_balances in
  ret (fst r).

(** A block that names a predecessor the node does not have. *)
Definition stray_block : Block :=
  Block_init 1 "2024-05-01 11:00:00" [registration] "0000".

(** A block that extends the chain of [fresh_node] with a payment that
    dr_alice cannot afford. *)
Definition overdraft_block : Block :=
  next_block [transfer "dr_alice" "lab_tech_bob" 100 "2024-05-01 10:29:00"].

(** ** Admission to the pending pool *)

(** The balance of a principal on the chain of the node. *)
Definition chain_balance (s : Node) (username : value) : result Z :=
  match for_each (chain s) replay_block initial_balances with
  | (Ret _, b) =>
      match hash_key username with
      | Some k => Ret (balance_of b k)
      | None => Raise TypeError
      end
  | (Raise e, _) => Raise e
  | (Deadlock, _) => Deadlock
  end.

(** A transfer whose sender is not the system account: the transactions
    whose admission reads a balance. *)
Definition is_user_transfer (tx : value) : bool :=
  match tx with
  | VDict kvs =>
      py_eq (default VNone (dict_get kvs "type")) (VStr TX_TRANSFER_ECASH)
      && negb (py_eq (default VNone (dict_get kvs "from")) (VStr SYSTEM_ACCOUNT))
  | _ => false
  end.

(** The admission condition: a dict with a [type], whatever its value;
    for a transfer, the three fields with a positive [int] amount and,
    unless the sender is the system account, a balance on the chain that
    covers the amount. *)
Definition admissible (s : Node) (tx : value) : Prop :=
  exists kvs ty,
    tx = VDict kvs /\ dict_get kvs "type" = Some ty /\
    (ty = VStr TX_TRANSFER_ECASH ->
     exists sender recipient amount a,
       dict_get kvs "from" = Some sender /\
       dict_get kvs "to" = Some recipient /\
       dict_get kvs "amount" = Some amount /\
       as_int amount = Some a /\ 0 < a /\
       (sender <> VStr SYSTEM_ACCOUNT ->
        exists balance, chain_balance s sender = Ret balance /\ a <= balance)).

(** The value that [should_add] takes on a free lock. *)
Definition pay_check (s : Node) (kvs : list (string * value)) : result bool :=
  if is_user_transfer (VDict kvs) then
    match chain_balance s (default VNone (dict_get kvs "from")) with
    | Ret balance =>
        match as_int (default VNone (dict_get kvs "amount")) with
        | Some a => Ret (negb (balance <? a))
        | None => Raise TypeError
        end
    | Raise e => Raise e
    | Deadlock => Deadlock
    end
  else Ret true.

(** ['timestamp' in transaction]. *)
Definition has_timestamp (tx : value) : bool :=
  match tx with
  | VDict kvs => dict_has kvs "timestamp"
  | _ => false
  end.

(** The transaction that the local path puts in the pool: the candidate,
    with the time of admission as [timestamp] when it has none. *)
Definition stamped (s : Node) (tx : value) : value :=
  if has_timestamp tx then tx else stamp tx (clock s (ticks s)).

(** The kinds of transaction that section 3 of the specification lists,
    under the names that the code gives them. *)
Definition spec_recognized_types : list string :=
  ["genesis"; "PATIENT_REGISTRATION"; "DOCTOR_CONSULTATION"; "LAB_TEST_RESULT";
   "PRESCRIPTION"; "PRESCRIPTION_FILLED"; "TRANSFER_ECASH"].

Definition spec_carries_recognized_type (tx : value) : Prop :=
  exists kvs ty, tx = VDict kvs /\ dict_get kvs "type" = Some (VStr ty) /\
                 In ty spec_recognized_types.

Definition unknown_kind : value :=
  VDict [("type", VStr "SURGERY_NOTE"); ("patient_id", VStr "p-001");
         ("timestamp", VStr "2024-05-01 10:03:00.000000")].

Definition lab_payment : value :=
  transfer "dr_alice" "lab_tech_bob" 100 "2024-05-01 10:50:00.000000".

(** ** Idempotent admission *)

Definition unstamped : value :=
  VDict [("type", VStr "PATIENT_REGISTRATION"); ("patient_id", VStr "p-002");
         ("patient_name", VStr "Eli"); ("registered_by", VStr "dr_alice")].

(** A node that has taken [unstamped] from a peer. *)
Definition gossiped_node : Node :=
  snd (_process_message (NewTransaction unstamped) peer fresh_node).

(** ** Affordability of validated chains *)

Definition txs_of (c : list Block) : list value := concat (map transactions c).

(** A transfer whose amount is an [int] below zero. *)
Definition negative_amount (tx : value) : bool :=
  match tx with
  | VDict kvs =>
      py_eq (default VNone (dict_get kvs "type")) (VStr TX_TRANSFER_ECASH)
      && match as_int (default (VInt 0) (dict_get kvs "amount")) with
         | Some a => a <? 0
         | None => false
         end
  | _ => false
  end.

(** A transaction that is no transfer, or a transfer whose amount is an
    [int] that is not negative. *)
Definition natural_amount (tx : value) : bool :=
  match tx with
  | VDict kvs =>
      negb (py_eq (default VNone (dict_get kvs "type")) (VStr TX_TRANSFER_ECASH))
      || match as_int (default (VInt 0) (dict_get kvs "amount")) with
         | Some a => 0 <=? a
         | None => false
         end
  | _ => true
  end.

Definition non_negative (b : gmap key Z) : Prop :=
  forall k, k <> KStr SYSTEM_ACCOUNT -> 0 <= balance_of b k.

(** Two dicts that give every principal the same balance; they may differ
    in the principals that they hold with balance 0. *)
Definition same_balances (b b' : gmap key Z) : Prop :=
  forall k, balance_of b k = balance_of b' k.

(** ** Patient history *)

(** [record['transaction']] on the records of [get_patient_history]. *)
Definition transaction_of (record : value) : value :=
  match record with
  | VDict kvs => default VNone (dict_get kvs "transaction")
  | _ => VNone
  end.

(** ** Frames *)

(** A computation that leaves a component of the node as it found it,
    whatever its outcome. *)
Definition preserves {A X : Type} (f : Node -> X) (m : M Node A) : Prop :=
  forall s, f (snd (m s)) = f s.

(** A component that the lock and the log of network calls are no part of. *)
Definition lock_free_component {X : Type} (f : Node -> X) : Prop :=
  (forall l s, f (set_lock l s) = f s) /\ (forall e s, f (emit e s) = f s)
  /\ (forall s, f (tick s) = f s).

(** ** Admission, continued *)

(** [l] with [tx] appended unless a transaction of the same encoding is in [l]. *)
Definition pool_add (l : list value) (tx : value) : list value :=
  if pooled (json_dumps tx) l then l else l ++ [tx].

(** A transfer from the system account of twice its initial allocation. *)
Definition minting : value :=
  transfer SYSTEM_ACCOUNT "pharm_charlie" 2000000 "2024-05-01 11:00:00".

(** Two payments of 400 units each from dr_alice, who holds 500 on the
    chain of [paid_node]. *)
Definition first_payment : value :=
  transfer "dr_alice" "lab_tech_bob" 400 "2024-05-01 11:01:00".

Definition second_payment : value :=
  transfer "dr_alice" "pharm_charlie" 400 "2024-05-01 11:02:00".

(** [registration] with its fields in another order. *)
Definition reordered_registration : value :=
  VDict [("timestamp", VStr "2024-05-01 10:02:00.000000");
         ("registered_by", VStr "dr_alice"); ("patient_name", VStr "Dana");
         ("type", VStr "PATIENT_REGISTRATION"); ("patient_id", VStr "p-001")].

(** ** Sessions *)

(** The user names of [USERS], each with its password and its role. *)
Definition credentials : list (string * string * string) :=
  [("dr_alice", "password123", "doctor"); ("lab_tech_bob", "labpass", "lab");
   ("pharm_charlie", "pharmpass", "pharmacy")].

(** The session of a user: the dict that [login] builds. *)
Definition session_of (current_user : value) (username role : string) : Prop :=
  exists kvs name,
    current_user = VDict kvs /\
    dict_get kvs "username" = Some (VStr username) /\
    dict_get kvs "role" = Some (VStr role) /\
    dict_get kvs "name" = Some name.

(** Nobody is logged in, or a user of the given role is. *)
Definition serves (role : string) (current_user : value) : Prop :=
  current_user = VNone \/ exists username, session_of current_user username role.

(** Nobody is logged in, or a user of another role is. *)
Definition without_role (role : string) (current_user : value) : Prop :=
  truthy current_user = false \/
  exists kvs r, current_user = VDict kvs /\ dict_get kvs "role" = Some r /\
                r <> VStr role.

Definition alice_session : value :=
  VDict [("username", VStr "dr_alice"); ("password", VStr "password123");
         ("role", VStr "doctor"); ("name", VStr "Dr. Alice")].

Definition bob_session : value :=
  VDict [("username", VStr "lab_tech_bob"); ("password", VStr "labpass");
         ("role", VStr "lab"); ("name", VStr "Bob (Lab)")].

(** ** Workflow actions *)

(** The node after a local submission that is admitted: the transaction
    is appended and broadcast unless one of the same encoding is pooled. *)
Definition submit (tx : value) (s : Node) : Node :=
  if pooled (json_dumps tx) (pending_transactions s) then s
  else emit (Broadcast MSG_TYPE_NEW_TRANSACTION (PTx tx) None)
         (set_pending (pending_transactions s ++ [tx]) s).

Definition iron_prescription : value :=
  VDict [("medication", VStr "Iron"); ("dosage", VStr "50 mg");
         ("frequency", VStr "daily"); ("duration", VStr "30 days")].

(** A world around [fresh_node] in which no registry file exists. *)
Definition fresh_world : World :=
  {| node := fresh_node; patient_registry := None; registry_writable := true;
     uuid_source := fun n => "3f2c9a4e-5b1d-4c7e-9a60-7d2e8b1f00" +:+ pretty n;
     uuids_drawn := 0 |}.

(** What dr_alice submits on [paid_node] when she prescribes
    [iron_prescription] after the blood test of lab_tech_bob. *)
Definition iron_prescription_tx : value :=
  VDict [("type", VStr "PRESCRIPTION"); ("patient_id", VStr "p-001");
         ("prescribed_by", VStr "dr_alice"); ("medication", VStr "Iron");
         ("dosage", VStr "50 mg"); ("frequency", VStr "daily");
         ("duration", VStr "30 days");
         ("based_on_review_of_test_by", VStr "lab_tech_bob");
         ("timestamp", VStr (demo_clock 1))].

Definition lab_access_payment : value :=
  VDict [("type", VStr TX_TRANSFER_ECASH); ("from", VStr "dr_alice");
         ("to", VStr "lab_tech_bob"); ("amount", VInt 100);
         ("reason", VStr "Payment for Lab Report Access");
         ("timestamp", VStr (demo_clock 2))].

(** ** Views *)

(** A ledger that holds a balance for the principal 7, which a transfer to
    the recipient 7 creates. *)
Definition ledger_with_number : gmap key Z := <[KInt 7 := 25]> initial_balances.

(** ** The shells *)

(** The transactions of a patient on a chain, oldest first. *)
Definition patient_transactions (c : list Block) (patient_id : value) : list value :=
  map transaction_of (get_patient_history c patient_id).

(** A result of a blood test. *)
Definition is_blood_test (tx : value) : bool :=
  match tx with
  | VDict kvs =>
      py_eq (default VNone (dict_get kvs "type")) (VStr "LAB_TEST_RESULT")
      && py_eq (default VNone (dict_get kvs "test_name")) (VStr "Blood Test")
  | _ => false
  end.

(** The user who performed the most recent blood test of the patient that
    the chain records, [None] when it records no blood test. *)
Definition latest_lab_user (c : list Block) (patient_id : value) : value :=
  match List.find is_blood_test (rev (patient_transactions c patient_id)) with
  | Some (VDict kvs) => default VNone (dict_get kvs "performed_by")
  | _ => VNone
  end.

Definition is_prescription (tx : value) : bool :=
  match tx with
  | VDict kvs => py_eq (default VNone (dict_get kvs "type")) (VStr "PRESCRIPTION")
  | _ => false
  end.

(** [tx.get('timestamp')] and [tx.get('references_prescription_timestamp')]. *)
Definition timestamp_of (tx : value) : value :=
  match tx with
  | VDict kvs => default VNone (dict_get kvs "timestamp")
  | _ => VNone
  end.

Definition reference_of (tx : value) : value :=
  match tx with
  | VDict kvs => default VNone (dict_get kvs "references_prescription_timestamp")
  | _ => VNone
  end.

Definition is_filling (tx : value) : bool :=
  match tx with
  | VDict kvs => py_eq (default VNone (dict_get kvs "type")) (VStr "PRESCRIPTION_FILLED")
  | _ => false
  end.

(** A prescription, with the key of its timestamp. *)
Definition prescribed_at (tx : value) (k : key) : Prop :=
  is_prescription tx = true /\ hash_key (timestamp_of tx) = Some k.

(** The record that a prescription was filled, with the key of the
    timestamp that it refers to. *)
Definition fills (tx : value) (k : key) : Prop :=
  is_filling tx = true /\ hash_key (reference_of tx) = Some k.

(** A chain on which bob's blood test is followed by a prescription of
    alice and its filling, and then by a second prescription. *)
Definition first_prescription : value :=
  VDict [("type", VStr "PRESCRIPTION"); ("patient_id", VStr "p-001");
         ("prescribed_by", VStr "dr_alice"); ("medication", VStr "Iron");
         ("timestamp", VStr "2024-05-01 11:00:00.000000")].

Definition first_filling : value :=
  VDict [("type", VStr "PRESCRIPTION_FILLED"); ("patient_id", VStr "p-001");
         ("filled_by_pharmacy", VStr "pharm_charlie");
         ("references_prescription_timestamp", VStr "2024-05-01 11:00:00.000000");
         ("timestamp", VStr "2024-05-01 11:30:00.000000")].

Definition second_prescription : value :=
  VDict [("type", VStr "PRESCRIPTION"); ("patient_id", VStr "p-001");
         ("prescribed_by", VStr "dr_alice"); ("medication", VStr "Folate");
         ("timestamp", VStr "2024-05-01 12:00:00.000000")].

Definition pharmacy_node : Node :=
  set_chain
    (chain lab_node
     ++ [Block_init 3 "2024-05-01 12:30:00"
           [first_prescription; first_filling; second_prescription]
           (hash lab_block)])
    fresh_node.

Definition charlie_session : value :=
  VDict [("username", VStr "pharm_charlie"); ("password", VStr "pharmpass");
         ("role", VStr "pharmacy"); ("name", VStr "Charlie (Pharmacy)")].

(** [lab_node] after a block that rewards dr_alice with 500 units. *)
Definition funded_lab_node : Node :=
  set_chain
    (chain lab_node
     ++ [Block_init 3 "2024-05-01 10:50:00" [reward_transfer] (hash lab_block)])
    fresh_node.

(** ** The wire format *)

(** The pickled payload of a sample message, and a connection on which its
    frame arrives in pieces of 4, 2 and 1 bytes, followed by one more byte. *)
Definition sample_payload : list Z := [128; 4; 75; 42; 46].

Definition sample_socket : Socket :=
  {| incoming := [0; 0; 5; 1; 128; 4; 75; 42; 46; 0]; ready := [4; 2; 1]%nat |}.

(** ** The value of a ledger that may hold floats *)

(** The rational that a number is; an infinity and NaN are none. *)
Definition exact (n : number) : option Q :=
  match n with
  | NInt z => Some (inject_Z z)
  | NFloat (S754_zero _) => Some (inject_Z 0)
  | NFloat (S754_finite s m e) =>
      Some (Qmult (inject_Z (if s then Z.neg m else Z.pos m)) (Qpower (inject_Z 2) e))
  | NFloat (S754_infinity _) | NFloat S754_nan => None
  end.

(** The sum of all balances, as a rational. *)
Definition exact_total (b : gmap key number) : option Q :=
  map_fold (fun _ n acc =>
              match exact n, acc with
              | Some q, Some t => Some (Qplus q t)
              | _, _ => None
              end) (Some (inject_Z 0)) b.

(** The floats [0.1] and [0.7]. *)
Definition float_0_1 : spec_float := S754_finite false 7205759403792794 (-56).
Definition float_0_7 : spec_float := S754_finite false 6305039478318694 (-53).

Definition float_transfer (sender recipient : string) (amount : spec_float)
    (ts : string) : unpickled :=
  FloatAmount [("type", VStr TX_TRANSFER_ECASH); ("from", VStr sender);
               ("to", VStr recipient); ("timestamp", VStr ts)] amount.

(** The transactions of a chain of two blocks: the genesis block, and a
    block in which the system account pays 0.1 and 0.7. *)
Definition float_chain : list (list unpickled) :=
  [ map Json (transactions (genesis_block (demo_clock 0)));
    [ float_transfer SYSTEM_ACCOUNT "dr_alice" float_0_1 "2024-05-01 10:29:00";
      float_transfer SYSTEM_ACCOUNT "lab_tech_bob" float_0_7 "2024-05-01 10:29:30" ] ].

(** [block.transactions] for each block of a chain of JSON data. *)
Definition json_chain (c : list Block) : list (list unpickled) :=
  map (fun block => map Json (transactions block)) c.

(** * Properties *)

Ltac simpl_default := cbn [default from_option id] in *.

(** ** The chain store *)

Lemma genesis_block_sealed now :
  hash (genesis_block now) = calculate_hash (genesis_block now).
Proof. reflexivity. Qed.

Lemma link_ok_true c i :
  link_ok c (S i) = true <->
  exists cur prev, c !! S i = Some cur /\ c !! i = Some prev /\
    sealed cur /\ previous_hash cur = hash prev /\ index cur = index prev + 1.
Proof.
  unfold link_ok, sealed. replace (S i - 1)%nat with i by lia.
  destruct (c !! S i) as [cur|], (c !! i) as [prev|]; split;
    try (intros; discriminate); try (intros (? & ? & ? & ? & _); discriminate).
  - intros H. apply andb_true_iff in H as [H Hi].
    apply andb_true_iff in H as [Hh Hp].
    apply String.eqb_eq in Hh, Hp. apply Z.eqb_eq in Hi. eauto 10.
  - intros (? & ? & [= <-] & [= <-] & Hh & Hp & Hi).
    rewrite Hh, Hp, Hi, !String.eqb_refl, Z.eqb_refl. reflexivity.
Qed.

(** What [is_chain_valid] decides about the chain it validates. *)
Lemma is_chain_valid_self c :
  is_chain_valid c None = true <->
  exists first rest, c = first :: rest /\
    index first = 0 /\ previous_hash first = "0" /\ Forall sealed c /\ linked c.
Proof.
  unfold is_chain_valid. destruct c as [|first rest].
  { split; [discriminate | intros (? & ? & ? & _); discriminate]. }
  destruct (index first =? 0) eqn:Hi; cbn [negb orb].
  2:{ split; [discriminate|]. intros (? & ? & [= <- <-] & Hi' & _).
      apply Z.eqb_neq in Hi. contradiction. }
  apply Z.eqb_eq in Hi.
  destruct (String.eqb (previous_hash first) "0") eqn:Hp; cbn [negb].
  2:{ split; [discriminate|]. intros (? & ? & [= <- <-] & _ & Hp' & _).
      apply String.eqb_neq in Hp. contradiction. }
  apply String.eqb_eq in Hp.
  destruct (String.eqb (hash first) (calculate_hash first)) eqn:Hh; cbn [negb].
  2:{ split; [discriminate|]. intros (? & ? & [= <- <-] & _ & _ & Hs & _).
      apply String.eqb_neq in Hh. inversion Hs; subst. contradiction. }
  apply String.eqb_eq in Hh.
  rewrite forallb_forall. split.
  - intros Hall. exists first, rest. split_and!; try done.
    + apply Forall_lookup_2. intros [|i] b Hb.
      * injection Hb as <-. exact Hh.
      * assert (Hlt : (S i < length (first :: rest))%nat)
          by (apply lookup_lt_is_Some; eauto).
        assert (Hin : In (S i) (seq 1 (length (first :: rest) - 1)))
          by (apply in_seq; lia).
        apply Hall, link_ok_true in Hin as (cur & _ & Hc & _ & Hs & _).
        rewrite Hb in Hc. injection Hc as ->. exact Hs.
    + intros i cur prev Hc Hpv.
      assert (Hlt : (S i < length (first :: rest))%nat)
        by (apply lookup_lt_is_Some; eauto).
      assert (Hin : In (S i) (seq 1 (length (first :: rest) - 1)))
        by (apply in_seq; lia).
      apply Hall, link_ok_true in Hin as (cur' & prev' & Hc' & Hp' & _ & Hl).
      rewrite Hc in Hc'. rewrite Hpv in Hp'.
      injection Hc' as <-. injection Hp' as <-. exact Hl.
  - intros (? & ? & [= <- <-] & _ & _ & Hs & Hl) i Hin.
    apply in_seq in Hin. destruct i as [|i]; [lia|].
    destruct (lookup_lt_is_Some_2 (first :: rest) (S i)) as [cur Hc]; [lia|].
    destruct (lookup_lt_is_Some_2 (first :: rest) i) as [prev Hpv]; [lia|].
    apply link_ok_true. exists cur, prev. split_and!; try done.
    + eapply Forall_lookup_1; eauto.
    + eapply Hl; eauto.
    + eapply Hl; eauto.
Qed.

(** A non-empty argument is the chain validated, whatever [self.chain] is. *)
Lemma is_chain_valid_given self_chain b c :
  is_chain_valid self_chain (Some (b :: c)) = is_chain_valid (b :: c) None.
Proof. reflexivity. Qed.

Lemma linked_snoc c latest block :
  linked c -> last c = Some latest ->
  previous_hash block = hash latest -> index block = index latest + 1 ->
  linked (c ++ [block]).
Proof.
  intros Hl Hlast Hp Hi i cur prev Hc Hpv.
  rewrite last_lookup in Hlast.
  destruct (decide (S i < length c)%nat) as [Hlt|Hge].
  - rewrite lookup_app_l in Hc by lia. rewrite lookup_app_l in Hpv by lia.
    eapply Hl; eauto.
  - assert (Hlen : (S i < length (c ++ [block]))%nat)
      by (apply lookup_lt_is_Some; eauto).
    rewrite length_app in Hlen. cbn in Hlen.
    assert (S i = length c) as Heq by lia.
    rewrite lookup_app_r in Hc by lia.
    rewrite lookup_app_l in Hpv by lia.
    replace (S i - length c)%nat with 0%nat in Hc by lia.
    injection Hc as <-.
    replace (pred (length c)) with i in Hlast by lia.
    rewrite Hpv in Hlast. injection Hlast as ->. auto.
Qed.

Lemma built_linked c :
  built c -> linked c /\ (forall first, head c = Some first -> index first = 0).
Proof.
  induction 1 as [|c block Hb [IHl IHf]].
  - split; [intros i ? ? Hc; discriminate | intros ? [=]].
  - unfold add_block, get_latest_block.
    destruct (last c) as [latest|] eqn:Hlast.
    + destruct (String.eqb (previous_hash block) (hash latest)
                && (index block =? index latest + 1)) eqn:Hok; cbn [snd];
        [|auto].
      apply andb_true_iff in Hok as [Hp Hi].
      apply String.eqb_eq in Hp. apply Z.eqb_eq in Hi.
      split; [eapply linked_snoc; eauto|].
      destruct c; [discriminate|]. exact IHf.
    + apply last_None in Hlast as ->.
      destruct (index block =? 0) eqn:Hi; cbn [snd]; [|auto].
      apply Z.eqb_eq in Hi.
      split; [intros [|i] ? ? Hc; discriminate | intros ? [= <-]; exact Hi].
Qed.

(** C6: a chain built through [add_block] alone need not be valid, since
    [add_block] checks neither the stored hash of a block nor the
    [previous_hash] of the first one. *)
Lemma add_block_accepts_unsealed_block :
  built [unsealed_block] /\ is_chain_valid [unsealed_block] None = false.
Proof.
  split.
  - exact (built_append [] unsealed_block built_empty).
  - vm_compute. reflexivity.
Qed.

(** C6 (amended): a non-empty chain built through [add_block] alone is
    valid as soon as each of its blocks stores its recomputed hash and its
    first block has [previous_hash] "0"; the index of the first block and
    the links between the blocks follow from [add_block]. *)
Theorem add_block_keeps_chain_valid (c : list Block) :
  built c ->
  c <> [] ->
  Forall sealed c ->
  (forall first, head c = Some first -> previous_hash first = "0") ->
  is_chain_valid c None = true.
Proof.
  intros Hb Hne Hs Hp. apply built_linked in Hb as [Hl Hf].
  apply is_chain_valid_self. destruct c as [|first rest]; [contradiction|].
  exists first, rest. split_and!; auto.
Qed.

Lemma add_block_keeps_chain_valid_witness :
  is_chain_valid [genesis_block "2024-05-01 10:00:00"; second_block] None = true.
Proof.
  apply add_block_keeps_chain_valid.
  - replace [genesis_block "2024-05-01 10:00:00"; second_block]
      with (snd (add_block [genesis_block "2024-05-01 10:00:00"] second_block))
      by (vm_compute; reflexivity).
    apply built_append.
    exact (built_append [] (genesis_block "2024-05-01 10:00:00") built_empty).
  - discriminate.
  - repeat (apply Forall_cons_2; [vm_compute; reflexivity|]). apply Forall_nil_2.
  - intros first [= <-]. reflexivity.
Defined.

(** C7: called on an empty list, [is_chain_valid] validates [self.chain]
    instead; on a fresh [Blockchain] it answers [True]. *)
Theorem is_chain_valid_empty_argument (now : string) :
  is_chain_valid (Blockchain_init now) (Some []) = true.
Proof.
  apply is_chain_valid_self. exists (genesis_block now), [].
  split_and!; try reflexivity.
  - apply Forall_cons_2; [apply genesis_block_sealed | apply Forall_nil_2].
  - intros [|i] ? ? Hc; discriminate.
Qed.

(** ** The ledger *)

Lemma total_insert (b : gmap key Z) (k : key) (v : Z) :
  total (<[k := v]> b) = total b - balance_of b k + v.
Proof.
  assert (Hcomm : forall (m : gmap key Z) (j1 j2 : key) (z1 z2 y : Z),
             j1 <> j2 -> m !! j1 = Some z1 -> m !! j2 = Some z2 ->
             z1 + (z2 + y) = z2 + (z1 + y)) by (intros; lia).
  unfold total, balance_of. destruct (b !! k) as [x|] eqn:Hk; cbn.
  - rewrite <- insert_delete_eq.
    rewrite map_fold_insert_L; [|apply Hcomm|apply lookup_delete_eq].
    rewrite (map_fold_delete_L _ _ k x b); [lia|apply Hcomm|exact Hk].
  - rewrite map_fold_insert_L; [lia|apply Hcomm|exact Hk].
Qed.

Lemma total_init_account (b : gmap key Z) (k : key) :
  total (init_account k b) = total b.
Proof.
  unfold init_account. destruct (b !! k) eqn:Hk; [reflexivity|].
  rewrite total_insert. unfold balance_of. rewrite Hk. cbn. lia.
Qed.

Lemma total_initial_balances : total initial_balances = INITIAL_SYSTEM_BALANCE.
Proof. vm_compute. reflexivity. Qed.

(** Whatever its outcome, one ledger update keeps the sum of the balances. *)
Lemma credit_debit_total (tx : value) (b : gmap key Z) :
  total (snd (credit_debit tx b)) = total b.
Proof.
  unfold credit_debit, py_get, hashable, int_of, bind, ret, raise, modify.
  destruct tx as [| | | | |kvs]; try reflexivity.
  destruct (py_eq _ _); [|reflexivity].
  destruct (hash_key (default VNone (dict_get kvs "from"))) as [ks|];
    [|reflexivity].
  destruct (hash_key (default VNone (dict_get kvs "to"))) as [kr|]; cbn [snd];
    [|apply total_init_account].
  destruct (as_int (default (VInt 0) (dict_get kvs "amount"))) as [a|]; cbn [snd].
  - rewrite !total_insert, !total_init_account. lia.
  - rewrite !total_init_account. reflexivity.
Qed.

Lemma for_each_total {A : Type} (body : A -> M (gmap key Z) unit) (l : list A) :
  (forall x b, total (snd (body x b)) = total b) ->
  forall b, total (snd (for_each l body b)) = total b.
Proof.
  intros Hbody. induction l as [|x l IH]; intros b; [reflexivity|].
  cbn [for_each]. unfold bind. specialize (Hbody x b).
  destruct (body x b) as [[[]| |] b']; cbn [snd] in *;
    [rewrite IH|..]; exact Hbody.
Qed.

Lemma replay_block_total (block : Block) (b : gmap key Z) :
  total (snd (replay_block block b)) = total b.
Proof. apply for_each_total, credit_debit_total. Qed.

Lemma replay_chain_total (c : list Block) (b : gmap key Z) :
  total (snd (for_each c replay_block b)) = total b.
Proof. apply for_each_total, replay_block_total. Qed.

Lemma credit_debit_returns (tx : value) (b : gmap key Z) :
  well_typed tx = true -> fst (credit_debit tx b) = Ret tt.
Proof.
  unfold well_typed, credit_debit, py_get, hashable, int_of, bind, ret, raise, modify.
  destruct tx as [| | | | |kvs]; try discriminate. cbn [default].
  destruct (py_eq _ _); [|reflexivity].
  destruct (hash_key (default VNone (dict_get kvs "from"))); [|discriminate].
  destruct (hash_key (default VNone (dict_get kvs "to"))); [|discriminate].
  destruct (as_int (default (VInt 0) (dict_get kvs "amount"))); [|discriminate].
  reflexivity.
Qed.

Lemma for_each_returns {S A : Type} (P : A -> Prop) (body : A -> M S unit)
    (l : list A) :
  (forall x s, P x -> fst (body x s) = Ret tt) ->
  Forall P l -> forall s, fst (for_each l body s) = Ret tt.
Proof.
  intros Hbody Hl. induction Hl as [|x l Hx _ IH]; intros s; [reflexivity|].
  cbn [for_each]. unfold bind. specialize (Hbody x s Hx).
  destruct (body x s) as [r s']. cbn [fst] in Hbody. subst r. apply IH.
Qed.

Lemma replay_chain_returns (c : list Block) (b : gmap key Z) :
  well_typed_chain c -> fst (for_each c replay_block b) = Ret tt.
Proof.
  intros Hc. eapply for_each_returns; [|exact Hc].
  intros block b' Hb. eapply for_each_returns; [|exact Hb].
  intros tx b'' Htx. apply credit_debit_returns, Htx.
Qed.

(** What [_recalculate_all_balances] does when the lock is free. *)
Lemma _recalculate_all_balances_free (s : Node) :
  lock_held s = false ->
  _recalculate_all_balances s =
    match for_each (chain s) replay_block initial_balances with
    | (Ret _, b) => (Ret tt, set_lock false (set_balances b (set_lock true s)))
    | (Raise e, _) => (Raise e, set_lock false (set_lock true s))
    | (Deadlock, _) => (Deadlock, set_lock true s)
    end.
Proof.
  intros Hfree. unfold _recalculate_all_balances, with_lock. rewrite Hfree.
  unfold bind, gets, local, modify. cbn [chain set_lock].
  destruct (for_each (chain s) replay_block initial_balances) as [[[]| |] b];
    reflexivity.
Qed.

Lemma _recalculate_all_balances_held (s : Node) :
  lock_held s = true -> _recalculate_all_balances s = (Deadlock, s).
Proof.
  intros Hheld. unfold _recalculate_all_balances, with_lock. rewrite Hheld.
  reflexivity.
Qed.

(** X30.  On int amounts the supply is conserved: when the lock is free
    and the transactions of the chain are well typed (dicts whose transfer
    fields are a key, a key and an [int]), the full recomputation returns
    and the balances it produces sum to the initial allocation of the
    system account; the update for a block of well-typed transactions
    returns and keeps the sum of the ledger. *)
Theorem supply_conserved_for_int_amounts (s : Node) (block : Block) :
  lock_held s = false ->
  well_typed_chain (chain s) ->
  Forall (fun tx => well_typed tx = true) (transactions block) ->
  (exists s', _recalculate_all_balances s = (Ret tt, s') /\
              total (E_CASH_BALANCES s') = INITIAL_SYSTEM_BALANCE) /\
  (exists s', _update_balances_from_block block s = (Ret tt, s') /\
              total (E_CASH_BALANCES s') = total (E_CASH_BALANCES s)).
Proof.
  intros Hfree Hwt Hblock. split.
  - rewrite _recalculate_all_balances_free by exact Hfree.
    pose proof (replay_chain_returns (chain s) initial_balances Hwt) as Hr.
    pose proof (replay_chain_total (chain s) initial_balances) as Ht.
    destruct (for_each (chain s) replay_block initial_balances) as [r b].
    cbn [fst snd] in Hr, Ht. subst r. eexists. split; [reflexivity|].
    cbn [E_CASH_BALANCES set_lock set_balances]. rewrite Ht.
    apply total_initial_balances.
  - unfold _update_balances_from_block, with_lock, on_ledger. rewrite Hfree.
    cbn [E_CASH_BALANCES set_lock].
    assert (Hr : fst (replay_block block (E_CASH_BALANCES s)) = Ret tt).
    { eapply for_each_returns; [|exact Hblock].
      intros tx b Htx. apply credit_debit_returns, Htx. }
    pose proof (replay_block_total block (E_CASH_BALANCES s)) as Ht.
    destruct (replay_block block (E_CASH_BALANCES s)) as [r b].
    cbn [fst snd] in Hr, Ht. subst r. eexists. split; [reflexivity|].
    cbn [E_CASH_BALANCES set_lock set_balances]. exact Ht.
Qed.

(** ** Conservation and affordability on sample chains *)

Lemma supply_conserved_for_int_amounts_witness :
  (exists s', _recalculate_all_balances paid_node = (Ret tt, s') /\
              total (E_CASH_BALANCES s') = INITIAL_SYSTEM_BALANCE) /\
  (exists s', _update_balances_from_block reward_block paid_node = (Ret tt, s') /\
              total (E_CASH_BALANCES s') = total (E_CASH_BALANCES paid_node)).
Proof.
  apply (supply_conserved_for_int_amounts paid_node reward_block).
  - reflexivity.
  - vm_compute. repeat (apply Forall_cons_2 || apply Forall_nil_2 || reflexivity).
  - vm_compute. repeat (apply Forall_cons_2 || apply Forall_nil_2 || reflexivity).
Defined.

(** C2: a transfer of a negative amount passes the affordability replay
    and leaves its recipient, who is not the system account, below zero. *)
Theorem negative_transfer_passes_validation :
  is_chain_valid forged_chain None = true /\
  _validate_chain_balances forged_chain = Ret true /\
  exists s',
    _recalculate_all_balances (set_chain forged_chain fresh_node) = (Ret tt, s') /\
             E_CASH_BALANCES s' !! KStr "lab_tech_bob" = Some (-5) /\
             E_CASH_BALANCES s' !! KStr "dr_alice" = Some 5.
Proof.
  split_and!; [vm_compute; reflexivity..|].
  eexists. split_and!; [vm_compute; reflexivity|vm_compute; reflexivity..].
Qed.

(** ** The lock *)

Lemma set_lock_release (s : Node) :
  lock_held s = false -> set_lock false (set_lock true s) = s.
Proof. destruct s. cbn. intros ->. reflexivity. Qed.

Lemma with_lock_held {A : Type} (body : M Node A) (s : Node) :
  lock_held s = true -> with_lock body s = (Deadlock, s).
Proof. intros H. unfold with_lock. rewrite H. reflexivity. Qed.

(** Every ledger method takes the lock itself: called by a method that
    holds it, it never returns. *)
Lemma get_balances_up_to_block_held (h : string) (s : Node) :
  lock_held s = true -> get_balances_up_to_block h s = (Deadlock, s).
Proof.
  intros H. unfold get_balances_up_to_block, bind.
  rewrite with_lock_held by exact H. reflexivity.
Qed.

Lemma _get_balances_from_chain_held (s : Node) :
  lock_held s = true -> _get_balances_from_chain s = (Deadlock, s).
Proof.
  intros H. unfold _get_balances_from_chain, bind.
  rewrite with_lock_held by exact H. reflexivity.
Qed.

Lemma _update_balances_from_block_held (block : Block) (s : Node) :
  lock_held s = true -> _update_balances_from_block block s = (Deadlock, s).
Proof. apply with_lock_held. Qed.

(** ** Block production *)

(** All that [mine_block_local] can do: return [False] on an empty pool or
    an empty chain, and block on the lock it already holds otherwise. *)
Lemma mine_block_local_outcome (s : Node) :
  mine_block_local s =
    if lock_held s then (Deadlock, s)
    else
      match pending_transactions s, get_latest_block (chain s) with
      | _ :: _, Some _ => (Deadlock, set_lock true s)
      | _, _ => (Ret false, set_lock false (set_lock true s))
      end.
Proof.
  unfold mine_block_local. unfold bind at 1. unfold with_lock.
  destruct (lock_held s) eqn:Hl; [reflexivity|].
  unfold bind at 1. unfold gets at 1. cbn [pending_transactions set_lock].
  destruct (pending_transactions s) as [|tx pend];
    [destruct (get_latest_block (chain s)); reflexivity|].
  unfold bind at 1. unfold gets at 1. cbn [chain set_lock].
  destruct (get_latest_block (chain s)) as [latest|]; [|reflexivity].
  unfold bind at 1. rewrite get_balances_up_to_block_held by reflexivity.
  reflexivity.
Qed.

(** X1.  On no state does [mine_block_local] append a block, change the pool
    or the ledger, or return [True]. *)
Lemma mine_block_local_never_appends (s : Node) :
  chain (snd (mine_block_local s)) = chain s /\
  pending_transactions (snd (mine_block_local s)) = pending_transactions s /\
  E_CASH_BALANCES (snd (mine_block_local s)) = E_CASH_BALANCES s /\
  fst (mine_block_local s) <> Ret true.
Proof.
  rewrite mine_block_local_outcome.
  destruct (lock_held s); [split_and!; [reflexivity..|discriminate]|].
  destruct (pending_transactions s) eqn:Hp, (get_latest_block (chain s));
    cbn; split_and!; congruence.
Qed.

(** C5: with one admitted registration in the pool of a fresh node,
    [mine_block_local] takes the lock, calls [get_balances_up_to_block],
    which takes the lock again, and never returns; no block is appended
    and the pool keeps the transaction. *)
Theorem mine_block_local_blocks_on_its_lock :
  lock_held node_with_registration = false /\
  pending_transactions node_with_registration = [registration] /\
  mine_block_local node_with_registration
  = (Deadlock, set_lock true node_with_registration).
Proof.
  split_and!; [vm_compute; reflexivity..|].
  rewrite mine_block_local_outcome. vm_compute. reflexivity.
Qed.

(** ** Reward synthesis *)

(** With [patient_id] unbound the loop stops at the first transaction that
    is a dict. *)
Lemma collect_rewards_unbound (block : Block) (copy : list Block)
    (txs : list value) (s : Node) :
  collect_rewards block copy None txs s =
    if existsb is_dict txs then (Raise UnboundLocalError, s) else (Ret [], s).
Proof.
  induction txs as [|tx rest IH]; [reflexivity|].
  cbn [collect_rewards existsb]. unfold bind at 1. unfold reward_for.
  destruct (is_dict tx); cbn [negb orb]; [reflexivity|].
  unfold ret at 1. unfold bind. rewrite IH.
  destruct (existsb is_dict rest); reflexivity.
Qed.

(** [_generate_system_transfers_for_block] never produces a transfer: it
    raises as soon as the block holds a transaction that is a dict, and
    returns the empty list otherwise. *)
Lemma _generate_system_transfers_for_block_outcome (block : Block) (s : Node) :
  lock_held s = false ->
  _generate_system_transfers_for_block block s =
    if existsb is_dict (transactions block)
    then (Raise UnboundLocalError, s) else (Ret [], s).
Proof.
  intros Hfree. unfold _generate_system_transfers_for_block, bind, with_lock, gets.
  rewrite Hfree. rewrite collect_rewards_unbound.
  rewrite set_lock_release by exact Hfree. reflexivity.
Qed.

(** C9: for a block with a lab result whose test an earlier consultation
    ordered, [_generate_system_transfers_for_block] raises
    [UnboundLocalError] at [if not patient_id] and produces no transfer;
    when the same block arrives in a [NewBlock] message it is appended, and
    the handler blocks on the lock before it reaches reward synthesis, with
    no reward in the pool. *)
Theorem reward_synthesis_raises :
  is_chain_valid (chain lab_node) None = true /\
  lock_held lab_node = false /\
  _generate_system_transfers_for_block lab_block lab_node
  = (Raise UnboundLocalError, lab_node) /\
  fst (_process_message (NewBlock lab_block) peer consultation_node) = Deadlock /\
  chain (snd (_process_message (NewBlock lab_block) peer consultation_node))
  = chain lab_node /\
  pending_transactions (snd (_process_message (NewBlock lab_block) peer consultation_node))
  = [].
Proof.
  split_and!; vm_compute; reflexivity.
Qed.

(** Had [patient_id] been bound to the patient of the transaction, the
    same loop body would have produced the transfer of 500 units from the
    system account to the doctor who ordered the test. *)
Lemma reward_for_bound_patient :
  fst (reward_for lab_block (chain lab_node) (Some (VStr "p-001")) lab_result lab_node)
  = Ret [reward_tx (VStr "dr_alice") 500 "Reward for Lab Test Order (Blood Test)"
           (demo_clock 1)].
Proof. vm_compute. reflexivity. Qed.

(** ** Chain replacement *)

(** What [resolve_conflicts] does when the lock is free: a chain that is
    longer, valid and affordable replaces the local one and reconciles the
    pool, and then the call of [_recalculate_all_balances], made with the
    lock held, never returns. *)
Lemma resolve_conflicts_outcome (received_chain : list Block) (s : Node) :
  lock_held s = false ->
  resolve_conflicts received_chain s =
    if (length (chain s) <? length received_chain)%nat then
      let s1 := tick (set_lock true s) in
      if is_chain_valid received_chain None then
        match _validate_chain_balances received_chain with
        | Ret true =>
            (Deadlock,
             snd (_reconcile_pending_transactions (set_chain received_chain s1)))
        | Ret false => (Ret false, set_lock false s1)
        | Raise e => (Raise e, set_lock false s1)
        | Deadlock => (Deadlock, s1)
        end
      else (Ret false, set_lock false s1)
    else (Ret false, set_lock false (set_lock true s)).
Proof.
  intros Hfree. unfold resolve_conflicts, with_lock. rewrite Hfree.
  unfold bind at 1. unfold gets at 1. cbn [chain set_lock].
  destruct (length (chain s) <? length received_chain)%nat; [|reflexivity].
  unfold bind at 1. unfold datetime_now at 1.
  destruct (is_chain_valid received_chain None); [|reflexivity].
  unfold bind at 1. unfold lift at 1.
  destruct (_validate_chain_balances received_chain) as [[|]| |]; reflexivity.
Qed.

(** X2.  On a free lock [resolve_conflicts] ignores a received chain that
    is not strictly longer than the chain of the node: it returns [False]
    and leaves the node as it was, without validating what it received. *)
Lemma resolve_conflicts_not_longer (received_chain : list Block) (s : Node) :
  lock_held s = false ->
  (length received_chain <= length (chain s))%nat ->
  resolve_conflicts received_chain s = (Ret false, s).
Proof.
  intros Hfree Hlen. rewrite resolve_conflicts_outcome by exact Hfree.
  destruct (Nat.ltb_spec (length (chain s)) (length received_chain)); [lia|].
  rewrite set_lock_release by exact Hfree. reflexivity.
Qed.

(** On no state does [resolve_conflicts] change the ledger. *)
Lemma resolve_conflicts_keeps_ledger (received_chain : list Block) (s : Node) :
  E_CASH_BALANCES (snd (resolve_conflicts received_chain s)) = E_CASH_BALANCES s.
Proof.
  destruct (lock_held s) eqn:Hl.
  { unfold resolve_conflicts. rewrite with_lock_held by exact Hl. reflexivity. }
  rewrite resolve_conflicts_outcome by exact Hl.
  destruct (length (chain s) <? length received_chain)%nat; [|reflexivity].
  cbv zeta. destruct (is_chain_valid received_chain None); [|reflexivity].
  destruct (_validate_chain_balances received_chain) as [[|]| |]; reflexivity.
Qed.

(** On a free lock the chain is replaced, and the pool reconciled, exactly
    when [replaces] holds; the call then never returns. *)
Lemma resolve_conflicts_replaces (received_chain : list Block) (s : Node) :
  lock_held s = false ->
  let s' := snd (resolve_conflicts received_chain s) in
  chain s' = (if replaces received_chain s then received_chain else chain s) /\
  pending_transactions s' =
    (if replaces received_chain s
     then List.filter
            (fun tx =>
               negb (bool_decide
                       (json_dumps tx ∈
                          concat (map (fun block => map json_dumps (transactions block))
                                    received_chain))))
            (pending_transactions s)
     else pending_transactions s) /\
  (replaces received_chain s = true ->
   fst (resolve_conflicts received_chain s) = Deadlock).
Proof.
  intros Hfree. cbv zeta. rewrite resolve_conflicts_outcome by exact Hfree.
  unfold replaces.
  destruct (length (chain s) <? length received_chain)%nat; cbn [andb];
    [|split_and!; [reflexivity..|discriminate]].
  cbv zeta. destruct (is_chain_valid received_chain None); cbn [andb];
    [|split_and!; [reflexivity..|discriminate]].
  destruct (_validate_chain_balances received_chain) as [[|]| |];
    split_and!; try reflexivity; discriminate.
Qed.

(** C1: the node receives a longer, valid, affordable chain.  The chain
    is replaced and the pool reconciled, but the ledger is never
    recomputed: [resolve_conflicts] blocks on the lock it holds, the ledger
    still shows 0 for dr_alice where the new chain gives 500. *)
Theorem resolve_conflicts_blocks_before_ledger :
  let s' := snd (resolve_conflicts (chain paid_node) pooled_node) in
  lock_held pooled_node = false /\
  fst (resolve_conflicts (chain paid_node) pooled_node) = Deadlock /\
  chain s' = chain paid_node /\
  pending_transactions s' = [] /\
  lock_held s' = true /\
  E_CASH_BALANCES s' !! KStr "dr_alice" = Some 0 /\
  snd (for_each (chain paid_node) replay_block initial_balances) !! KStr "dr_alice"
  = Some 500.
Proof.
  cbv zeta. split_and!; vm_compute; reflexivity.
Qed.

(** ** Remote block acceptance *)

Lemma get_balances_up_to_block_ret (h : string) (s : Node) (b : gmap key Z) :
  fst (get_balances_up_to_block h s) = Ret b ->
  get_balances_up_to_block h s = (Ret b, s).
Proof.
  unfold get_balances_up_to_block, bind, with_lock.
  destruct (lock_held s) eqn:Hl; [discriminate|].
  unfold gets, local, ret. cbn [chain set_lock].
  destruct (replay_up_to (chain s) h initial_balances) as [[[]| |] b'];
    cbn [fst snd]; try discriminate.
  intros [= <-]. rewrite set_lock_release by exact Hl. reflexivity.
Qed.

Lemma new_block_valid_eq (data : Block) (s : Node) :
  new_block_valid data s =
    match get_latest_block (chain s) with
    | Some latest =>
        if negb (index data =? index latest + 1) then (Ret false, s)
        else if negb (String.eqb (previous_hash data) (hash latest))
        then (Ret false, emit resync_request s)
        else if negb (String.eqb (hash data) (calculate_hash data))
        then (Ret false, s)
        else parent_replay data s
    | None =>
        if negb (index data =? 0) then (Ret false, s)
        else if negb (String.eqb (hash data) (calculate_hash data))
        then (Ret false, s)
        else parent_replay data s
    end.
Proof.
  unfold new_block_valid. unfold bind at 1. unfold gets at 1.
  destruct (get_latest_block (chain s)) as [latest|].
  - destruct (index data =? index latest + 1); [|reflexivity].
    destruct (String.eqb (previous_hash data) (hash latest)); [|reflexivity].
    destruct (String.eqb (hash data) (calculate_hash data)); reflexivity.
  - destruct (index data =? 0); [|reflexivity].
    destruct (String.eqb (hash data) (calculate_hash data)); reflexivity.
Qed.

Lemma parent_replay_unaffordable (s : Node) (data : Block) :
  unaffordable s data -> parent_replay data s = (Ret false, s).
Proof.
  intros (balances & Hb & Hs). unfold parent_replay. unfold bind at 1.
  rewrite (get_balances_up_to_block_ret _ _ _ Hb).
  unfold bind, local, ret.
  destruct (spend_all (transactions data) balances) as [[ok| |] b'];
    cbn [fst] in Hs; try discriminate Hs.
  injection Hs as ->. reflexivity.
Qed.

Lemma new_block_valid_rejects (s : Node) (data : Block) :
  wrong_index s data \/ wrong_previous_hash s data \/ wrong_hash data
  \/ unaffordable s data ->
  (index data = expected_index s /\ wrong_previous_hash s data /\
   new_block_valid data s = (Ret false, emit resync_request s))
  \/
  (~ (index data = expected_index s /\ wrong_previous_hash s data) /\
   new_block_valid data s = (Ret false, s)).
Proof.
  intros Hfail. rewrite new_block_valid_eq.
  pose proof (parent_replay_unaffordable s data) as Haff.
  unfold wrong_index, wrong_previous_hash, wrong_hash, expected_index in *.
  destruct (get_latest_block (chain s)) as [latest|] eqn:Hlatest.
  - destruct (Z.eqb_spec (index data) (index latest + 1)) as [Hi|Hi];
      cbn [negb].
    2:{ right. split; [tauto|reflexivity]. }
    destruct (String.eqb_spec (previous_hash data) (hash latest)) as [Hp|Hp];
      cbn [negb].
    2:{ left. split; [exact Hi|]. split; [eauto|reflexivity]. }
    assert (Hno : ~ (index data = index latest + 1 /\
                     exists latest0, Some latest = Some latest0 /\
                                     previous_hash data <> hash latest0)).
    { intros (_ & ? & [= <-] & Hne). contradiction. }
    destruct (String.eqb_spec (hash data) (calculate_hash data)) as [Hh|Hh];
      cbn [negb]; right; (split; [exact Hno|]); [|reflexivity].
    apply Haff. destruct Hfail as [?|[(? & [= <-] & ?)|[?|?]]]; tauto.
  - assert (Hno : ~ (index data = 0 /\
                     exists latest0 : Block, None = Some latest0 /\
                                     previous_hash data <> hash latest0)).
    { intros (_ & ? & [=] & _). }
    destruct (Z.eqb_spec (index data) 0) as [Hi|Hi]; cbn [negb];
      right; (split; [exact Hno|]); [|reflexivity].
    destruct (String.eqb_spec (hash data) (calculate_hash data)) as [Hh|Hh];
      cbn [negb]; [|reflexivity].
    apply Haff. destruct Hfail as [?|[(? & [=] & ?)|[?|?]]]; tauto.
Qed.

Lemma unaffordable_on_free_lock (s : Node) (data : Block) :
  lock_held s = false ->
  fst (replay_up_to (chain s) (previous_hash data) initial_balances) = Ret tt ->
  fst (spend_all (transactions data)
         (snd (replay_up_to (chain s) (previous_hash data) initial_balances)))
  = Ret false ->
  unaffordable s data.
Proof.
  intros Hfree Hreplay Hspend.
  exists (snd (replay_up_to (chain s) (previous_hash data) initial_balances)).
  split; [|exact Hspend].
  unfold get_balances_up_to_block, bind, with_lock, gets, local, ret.
  rewrite Hfree. cbn [chain set_lock].
  destruct (replay_up_to (chain s) (previous_hash data) initial_balances)
    as [r b]. cbn [fst] in Hreplay. subst r. reflexivity.
Qed.

Lemma process_new_block_rejected (data : Block) (source_addr : addr)
    (s s1 : Node) :
  new_block_valid data s = (Ret false, s1) ->
  _process_message (NewBlock data) source_addr s = (Ret tt, s1).
Proof.
  intros Hv. cbn [_process_message]. unfold bind at 1. rewrite Hv. reflexivity.
Qed.

Lemma parent_replay_state (data : Block) (s : Node) (ok : bool) :
  fst (parent_replay data s) = Ret ok ->
  parent_replay data s = (Ret ok, s) /\ lock_held s = false.
Proof.
  unfold parent_replay. unfold bind at 1 3.
  destruct (lock_held s) eqn:Hl.
  { rewrite get_balances_up_to_block_held by exact Hl. discriminate. }
  destruct (get_balances_up_to_block (previous_hash data) s) as [[b| |] s1] eqn:Hb;
    try discriminate.
  assert (Hs1 : get_balances_up_to_block (previous_hash data) s = (Ret b, s))
    by (apply get_balances_up_to_block_ret; rewrite Hb; reflexivity).
  rewrite Hb in Hs1. injection Hs1 as ->.
  unfold bind, local, ret.
  destruct (spend_all (transactions data) b) as [[ok'| |] b']; cbn [fst];
    try discriminate.
  intros [= ->]. split; reflexivity.
Qed.

Lemma add_block_checked (c : list Block) (data : Block) :
  (match get_latest_block c with
   | Some latest =>
       String.eqb (previous_hash data) (hash latest)
       && (index data =? index latest + 1)
   | None => index data =? 0
   end) = true ->
  add_block c data = (true, c ++ [data]).
Proof.
  unfold add_block. destruct (get_latest_block c); intros ->; reflexivity.
Qed.

(** A block that passes every check is appended and purged from the pool;
    then [_update_balances_from_block], called with the lock held, never
    returns: the ledger is not updated, the block is not passed on, and
    reward synthesis is not reached. *)
Lemma process_new_block_accepted (data : Block) (source_addr : addr) (s : Node) :
  fst (new_block_valid data s) = Ret true ->
  _process_message (NewBlock data) source_addr s =
    (Deadlock,
     set_pending (purge (transactions data) (pending_transactions s))
       (set_chain (chain s ++ [data]) (set_lock true s))).
Proof.
  intros Hv. rewrite new_block_valid_eq in Hv.
  assert (Hchk : (match get_latest_block (chain s) with
                  | Some latest =>
                      String.eqb (previous_hash data) (hash latest)
                      && (index data =? index latest + 1)
                  | None => index data =? 0
                  end) = true
                 /\ String.eqb (hash data) (calculate_hash data) = true
                 /\ fst (parent_replay data s) = Ret true).
  { destruct (get_latest_block (chain s)) as [latest|].
    - destruct (index data =? index latest + 1); cbn [negb] in Hv;
        [|discriminate Hv].
      destruct (String.eqb (previous_hash data) (hash latest)); cbn [negb] in Hv;
        [|discriminate Hv].
      destruct (String.eqb (hash data) (calculate_hash data)); cbn [negb] in Hv;
        [|discriminate Hv].
      split_and!; [reflexivity..|exact Hv].
    - destruct (index data =? 0); cbn [negb] in Hv; [|discriminate Hv].
      destruct (String.eqb (hash data) (calculate_hash data)); cbn [negb] in Hv;
        [|discriminate Hv].
      split_and!; [reflexivity..|exact Hv]. }
  destruct Hchk as (Hchk & Hhash & Hreplay).
  assert (Hvalid : new_block_valid data s = (Ret true, s) /\ lock_held s = false).
  { rewrite new_block_valid_eq.
    apply parent_replay_state in Hreplay as [Hreplay Hfree]. split; [|exact Hfree].
    rewrite Hhash. destruct (get_latest_block (chain s)) as [latest|].
    - apply andb_true_iff in Hchk as [-> ->]. exact Hreplay.
    - rewrite Hchk. exact Hreplay. }
  destruct Hvalid as [Hvalid Hfree].
  cbn [_process_message]. unfold bind at 1. rewrite Hvalid.
  match goal with
  | |- context [with_lock ?body] =>
      assert (Hbody : body (set_lock true s) =
                (Deadlock,
                 set_pending (purge (transactions data) (pending_transactions s))
                   (set_chain (chain s ++ [data]) (set_lock true s))))
  end.
  { unfold bind at 1. unfold gets at 1. cbn [chain set_lock]. rewrite Hchk.
    unfold bind at 1. unfold blockchain_add_block at 1. cbn [chain set_lock].
    rewrite (add_block_checked _ _ Hchk). cbn [fst snd].
    unfold bind at 1. unfold gets at 1. unfold bind at 1. unfold modify at 1.
    unfold bind at 1.
    rewrite _update_balances_from_block_held by reflexivity. reflexivity. }
  unfold bind at 1. unfold with_lock. rewrite Hfree, Hbody. reflexivity.
Qed.

(** C3: a received block that fails a check is dropped: the handler
    returns normally, chain, pool and ledger are as before, nothing is sent
    to the peer it came from, and [RequestChain] is broadcast exactly when
    the index is the expected one and [previous_hash] is not the hash of
    the tip. *)
Theorem rejected_block_is_dropped (s : Node) (data : Block) (source_addr : addr) :
  wrong_index s data \/ wrong_previous_hash s data \/ wrong_hash data
  \/ unaffordable s data ->
  let s' := snd (_process_message (NewBlock data) source_addr s) in
  fst (_process_message (NewBlock data) source_addr s) = Ret tt /\
  chain s' = chain s /\
  pending_transactions s' = pending_transactions s /\
  E_CASH_BALANCES s' = E_CASH_BALANCES s /\
  lock_held s' = lock_held s /\
  (index data = expected_index s /\ wrong_previous_hash s data ->
   sent s' = sent s ++ [resync_request]) /\
  (~ (index data = expected_index s /\ wrong_previous_hash s data) ->
   sent s' = sent s).
Proof.
  intros Hfail. cbv zeta.
  destruct (new_block_valid_rejects s data Hfail)
    as [(Hi & Hp & Hv)|(Hno & Hv)];
    rewrite (process_new_block_rejected _ _ _ _ Hv); cbn [fst snd];
    split_and!; try reflexivity; tauto.
Qed.

Lemma rejected_block_is_dropped_witness :
  let s' := snd (_process_message (NewBlock stray_block) peer fresh_node) in
  let s'' := snd (_process_message (NewBlock overdraft_block) peer fresh_node) in
  (chain s' = chain fresh_node /\
   pending_transactions s' = pending_transactions fresh_node /\
   E_CASH_BALANCES s' = E_CASH_BALANCES fresh_node /\
   sent s' = sent fresh_node ++ [resync_request]) /\
  (chain s'' = chain fresh_node /\
   E_CASH_BALANCES s'' = E_CASH_BALANCES fresh_node /\
   sent s'' = sent fresh_node).
Proof.
  assert (Hw : wrong_previous_hash fresh_node stray_block).
  { eexists. split; [reflexivity|]. vm_compute. discriminate. }
  assert (Hu : unaffordable fresh_node overdraft_block).
  { apply unaffordable_on_free_lock; [reflexivity|vm_compute; reflexivity..]. }
  destruct (rejected_block_is_dropped fresh_node stray_block peer
              (or_intror (or_introl Hw)))
    as (_ & Hc & Hp & Hb & _ & Hs & _).
  destruct (rejected_block_is_dropped fresh_node overdraft_block peer
              (or_intror (or_intror (or_intror Hu))))
    as (_ & Hc' & _ & Hb' & _ & _ & Hs').
  cbv zeta. split_and!; try assumption.
  - apply Hs. split; [vm_compute; reflexivity|exact Hw].
  - apply Hs'. intros [_ (latest & Hl & Hne)]. apply Hne.
    injection Hl as <-. vm_compute. reflexivity.
Defined.

(** ** Admission to the pending pool *)

Lemma py_eq_str (v : value) (x : string) : py_eq v (VStr x) = true <-> v = VStr x.
Proof.
  destruct v; cbn; try (split; [discriminate|intros [=]]).
  rewrite String.eqb_eq. split; [intros ->; reflexivity|intros [= ->]; reflexivity].
Qed.

Lemma py_eq_str_false (v : value) (x : string) :
  py_eq v (VStr x) = false <-> v <> VStr x.
Proof.
  rewrite <- py_eq_str. destruct (py_eq v (VStr x)); split; congruence.
Qed.

Lemma credit_debit_no_deadlock (tx : value) (b : gmap key Z) :
  fst (credit_debit tx b) <> Deadlock.
Proof.
  unfold credit_debit, py_get, hashable, int_of, bind, ret, raise, modify.
  destruct tx as [| | | | |kvs]; try discriminate.
  destruct (py_eq _ _); [|discriminate].
  destruct (hash_key (default VNone (dict_get kvs "from"))); [|discriminate].
  destruct (hash_key (default VNone (dict_get kvs "to"))); [|discriminate].
  destruct (as_int (default (VInt 0) (dict_get kvs "amount"))); discriminate.
Qed.

Lemma for_each_no_deadlock {S A : Type} (body : A -> M S unit) (l : list A) :
  (forall x s, fst (body x s) <> Deadlock) ->
  forall s, fst (for_each l body s) <> Deadlock.
Proof.
  intros Hbody. induction l as [|x l IH]; intros s; [discriminate|].
  cbn [for_each]. unfold bind. specialize (Hbody x s).
  destruct (body x s) as [[[]| |] s']; cbn [fst] in *;
    [apply IH|discriminate|contradiction].
Qed.

Lemma replay_chain_no_deadlock (c : list Block) (b : gmap key Z) :
  fst (for_each c replay_block b) <> Deadlock.
Proof.
  apply for_each_no_deadlock. intros block b'.
  apply for_each_no_deadlock, credit_debit_no_deadlock.
Qed.

Lemma get_current_balance_free (username : value) (s : Node) :
  lock_held s = false ->
  get_current_balance username s = (chain_balance s username, s).
Proof.
  intros Hfree.
  unfold get_current_balance, _get_balances_from_chain, chain_balance.
  unfold bind, with_lock, gets, local, hashable, ret, raise. rewrite Hfree.
  cbn [chain set_lock].
  pose proof (replay_chain_no_deadlock (chain s) initial_balances) as Hnd.
  destruct (for_each (chain s) replay_block initial_balances) as [[[]| |] b];
    cbn [fst snd] in *; rewrite ?set_lock_release by exact Hfree;
    [|reflexivity|contradiction].
  destruct (hash_key username); reflexivity.
Qed.

Lemma get_current_balance_held (username : value) (s : Node) :
  lock_held s = true -> get_current_balance username s = (Deadlock, s).
Proof.
  intros Hheld. unfold get_current_balance. unfold bind at 1.
  rewrite _get_balances_from_chain_held by exact Hheld. reflexivity.
Qed.

(** The value of [should_add] once the format check has passed. *)
Lemma sender_can_pay_free (s : Node) (kvs : list (string * value)) :
  lock_held s = false ->
  valid_tx_format (VDict kvs) = true ->
  sender_can_pay (VDict kvs) s =
    (if is_user_transfer (VDict kvs) then
       match chain_balance s (default VNone (dict_get kvs "from")) with
       | Ret balance =>
           match as_int (default VNone (dict_get kvs "amount")) with
           | Some a => Ret (negb (balance <? a))
           | None => Raise TypeError
           end
       | Raise e => Raise e
       | Deadlock => Deadlock
       end
     else Ret true, s).
Proof.
  intros Hfree. unfold valid_tx_format, sender_can_pay, is_user_transfer, py_item.
  destruct (dict_get kvs "type") as [ty|]; [|discriminate]. simpl_default.
  unfold bind at 1. unfold ret at 1.
  destruct (py_eq ty (VStr TX_TRANSFER_ECASH)); [|reflexivity].
  cbn [forallb andb]. unfold dict_has.
  destruct (dict_get kvs "from") as [sender|]; [|discriminate].
  destruct (dict_get kvs "to") as [recipient|]; [|discriminate].
  destruct (dict_get kvs "amount") as [amount|]; [|discriminate].
  cbn [andb]. simpl_default. intros Hamount.
  unfold bind at 1. unfold ret at 1.
  destruct (py_eq sender (VStr SYSTEM_ACCOUNT)); cbn [negb]; [reflexivity|].
  unfold bind at 1. rewrite get_current_balance_free by exact Hfree.
  destruct (chain_balance s sender) as [balance| |]; try reflexivity.
  unfold bind, ret, int_of. destruct (as_int amount); reflexivity.
Qed.

Lemma admissible_iff (s : Node) (kvs : list (string * value)) :
  admissible s (VDict kvs) <->
  valid_tx_format (VDict kvs) = true /\ pay_check s kvs = Ret true.
Proof.
  unfold admissible, valid_tx_format, pay_check, is_user_transfer, dict_has.
  split.
  - intros (kvs' & ty & [= <-] & Hty & Htr). rewrite Hty. simpl_default.
    destruct (py_eq ty (VStr TX_TRANSFER_ECASH)) eqn:Ety; [|split; reflexivity].
    apply py_eq_str in Ety.
    destruct (Htr Ety) as (sender & recipient & amount & a & Hf & Ht & Ha & Hint
                           & Hpos & Hbal).
    cbn [forallb]. rewrite Hf, Ht, Ha, Hint. simpl_default. cbn [andb].
    split; [apply Z.ltb_lt, Hpos|].
    destruct (py_eq sender (VStr SYSTEM_ACCOUNT)) eqn:Es; cbn [negb];
      [reflexivity|].
    apply py_eq_str_false in Es. destruct (Hbal Es) as (balance & -> & Hle).
    rewrite Hint. f_equal. apply negb_true_iff, Z.ltb_ge, Hle.
  - intros [Hv Hp]. destruct (dict_get kvs "type") as [ty|] eqn:Hty;
      [|discriminate].
    exists kvs, ty. split; [reflexivity|]. split; [exact Hty|].
    intros ->. simpl_default. cbn [py_eq] in Hv, Hp.
    rewrite String.eqb_refl in Hv, Hp. cbn [forallb andb] in Hv, Hp.
    destruct (dict_get kvs "from") as [sender|] eqn:Hf; [|discriminate].
    destruct (dict_get kvs "to") as [recipient|] eqn:Ht; [|discriminate].
    destruct (dict_get kvs "amount") as [amount|] eqn:Ha; [|discriminate].
    simpl_default. cbn [andb] in Hv.
    destruct (as_int amount) as [a|] eqn:Hint; [|discriminate].
    exists sender, recipient, amount, a.
    split_and!; try reflexivity; try assumption.
    + apply Z.ltb_lt, Hv.
    + intros Hne. apply py_eq_str_false in Hne. rewrite Hne in Hp.
      cbn [negb] in Hp.
      destruct (chain_balance s sender) as [balance| |]; try discriminate.
      exists balance. split; [reflexivity|].
      injection Hp as Hp. apply negb_true_iff, Z.ltb_ge in Hp. exact Hp.
Qed.

Lemma admissible_is_dict (s : Node) (tx : value) :
  admissible s tx -> is_dict tx = true.
Proof. intros (? & ? & -> & _). reflexivity. Qed.

(** [sender_can_pay] reads the state and leaves it as it is. *)
Lemma sender_can_pay_state (tx : value) (s : Node) :
  snd (sender_can_pay tx s) = s.
Proof.
  unfold sender_can_pay, py_item, bind, ret, raise.
  destruct tx as [| | | | |kvs]; try reflexivity.
  destruct (dict_get kvs "type") as [ty|]; [|reflexivity].
  destruct (py_eq ty (VStr TX_TRANSFER_ECASH)); [|reflexivity].
  destruct (dict_get kvs "from") as [sender|]; [|reflexivity].
  destruct (py_eq sender (VStr SYSTEM_ACCOUNT)); cbn [negb]; [reflexivity|].
  destruct (lock_held s) eqn:Hl.
  - rewrite get_current_balance_held by exact Hl. reflexivity.
  - rewrite get_current_balance_free by exact Hl.
    destruct (chain_balance s sender); try reflexivity.
    destruct (dict_get kvs "amount") as [amount|]; [|reflexivity].
    unfold int_of, ret, raise. destruct (as_int amount); reflexivity.
Qed.

(** A transaction that is not a transfer from a user passes the balance
    test without reading a balance, whoever holds the lock. *)
Lemma sender_can_pay_no_balance (tx : value) (s : Node) :
  valid_tx_format tx = true -> is_user_transfer tx = false ->
  sender_can_pay tx s = (Ret true, s).
Proof.
  unfold valid_tx_format, is_user_transfer, sender_can_pay, py_item, dict_has.
  destruct tx as [| | | | |kvs]; try discriminate.
  destruct (dict_get kvs "type") as [ty|]; [|discriminate]. simpl_default.
  unfold bind at 1. unfold ret at 1.
  destruct (py_eq ty (VStr TX_TRANSFER_ECASH)); [|reflexivity].
  cbn [forallb andb].
  destruct (dict_get kvs "from") as [sender|]; [|discriminate]. simpl_default.
  intros _. unfold bind at 1. unfold ret at 1.
  destruct (py_eq sender (VStr SYSTEM_ACCOUNT)); [reflexivity|discriminate].
Qed.

(** The pool after [add_transaction_local], on a free lock. *)
Lemma add_transaction_local_pool (s : Node) (kvs : list (string * value)) :
  lock_held s = false ->
  pending_transactions (snd (add_transaction_local (VDict kvs) s)) =
    if valid_tx_format (VDict kvs) then
      match pay_check s kvs with
      | Ret true =>
          if pooled (json_dumps (stamped s (VDict kvs))) (pending_transactions s)
          then pending_transactions s
          else pending_transactions s ++ [stamped s (VDict kvs)]
      | _ => pending_transactions s
      end
    else pending_transactions s.
Proof.
  intros Hfree. unfold add_transaction_local.
  destruct (valid_tx_format (VDict kvs)) eqn:Hv; cbn [negb]; [|reflexivity].
  unfold bind at 1. rewrite sender_can_pay_free by assumption.
  fold (pay_check s kvs).
  destruct (pay_check s kvs) as [[|]| |]; try reflexivity.
  unfold stamped, has_timestamp.
  destruct (dict_has kvs "timestamp").
  - unfold bind at 1. unfold ret at 1. unfold with_lock. rewrite Hfree.
    unfold bind at 1. unfold gets at 1. cbn [pending_transactions set_lock].
    destruct (pooled (json_dumps (VDict kvs)) (pending_transactions s));
      reflexivity.
  - unfold bind at 1. unfold bind at 1. unfold datetime_now at 1.
    unfold ret at 1. unfold with_lock. cbn [lock_held tick]. rewrite Hfree.
    unfold bind at 1. unfold gets at 1.
    cbn [pending_transactions set_lock tick].
    destruct (pooled (json_dumps (stamp (VDict kvs) (clock s (ticks s))))
                (pending_transactions s)); reflexivity.
Qed.

(** The pool after a [NewTransaction] message that is not a transfer from
    a user, on a free lock. *)
Lemma process_new_transaction_pool (s : Node) (tx : value) (source_addr : addr) :
  lock_held s = false ->
  is_user_transfer tx = false ->
  pending_transactions (snd (_process_message (NewTransaction tx) source_addr s)) =
    if valid_tx_format tx && negb (pooled (json_dumps tx) (pending_transactions s))
    then pending_transactions s ++ [tx]
    else pending_transactions s.
Proof.
  intros Hfree Hnu. cbn [_process_message].
  destruct (valid_tx_format tx) eqn:Hv; cbn [andb]; [|reflexivity].
  unfold with_lock. rewrite Hfree.
  unfold bind at 1. unfold gets at 1. cbn [pending_transactions set_lock].
  destruct (pooled (json_dumps tx) (pending_transactions s)); cbn [negb];
    [reflexivity|].
  unfold bind at 1. rewrite sender_can_pay_no_balance by assumption.
  reflexivity.
Qed.

Lemma admissible_no_balance (s : Node) (tx : value) :
  is_user_transfer tx = false ->
  admissible s tx <-> valid_tx_format tx = true.
Proof.
  intros Hnu. destruct tx as [| | | | |kvs];
    try (split; [intros H; apply admissible_is_dict in H; discriminate
                |discriminate]).
  rewrite admissible_iff. unfold pay_check. rewrite Hnu. tauto.
Qed.

(** C4: a transaction of a type that is none of the known kinds is
    admitted by both paths; the code asks for a [type] key and never looks
    at its value, unless it is the transfer type. *)
Lemma unknown_type_is_pooled :
  ~ spec_carries_recognized_type unknown_kind /\
  pending_transactions (snd (add_transaction_local unknown_kind fresh_node))
  = [unknown_kind] /\
  pending_transactions
    (snd (_process_message (NewTransaction unknown_kind) peer fresh_node))
  = [unknown_kind].
Proof.
  split_and!; [|vm_compute; reflexivity..].
  intros (kvs & ty & [= <-] & [= <-] & Hin). cbn in Hin.
  repeat (destruct Hin as [Hin|Hin]; [discriminate Hin|]). exact Hin.
Qed.

(** C4 (amended): on a free lock, [add_transaction_local] appends the
    candidate, stamped when it has no timestamp, exactly when it is
    admissible and the pool holds no transaction with its encoding, and
    leaves the pool as it is otherwise; so does the [NewTransaction]
    branch, without the stamp, for every candidate other than a transfer
    from a user. *)
Theorem admission_rule (s : Node) (tx : value) (source_addr : addr) :
  lock_held s = false ->
  let pool := pending_transactions s in
  let local_pool := pending_transactions (snd (add_transaction_local tx s)) in
  let remote_pool :=
    pending_transactions (snd (_process_message (NewTransaction tx) source_addr s)) in
  (admissible s tx /\ pooled (json_dumps (stamped s tx)) pool = false ->
   local_pool = pool ++ [stamped s tx]) /\
  (~ (admissible s tx /\ pooled (json_dumps (stamped s tx)) pool = false) ->
   local_pool = pool) /\
  (is_user_transfer tx = false ->
   (admissible s tx /\ pooled (json_dumps tx) pool = false ->
    remote_pool = pool ++ [tx]) /\
   (~ (admissible s tx /\ pooled (json_dumps tx) pool = false) ->
    remote_pool = pool)).
Proof.
  intros Hfree. cbv zeta.
  assert (Hlocal :
    pending_transactions (snd (add_transaction_local tx s)) =
      match tx with
      | VDict kvs =>
          if valid_tx_format tx then
            match pay_check s kvs with
            | Ret true =>
                if pooled (json_dumps (stamped s tx)) (pending_transactions s)
                then pending_transactions s
                else pending_transactions s ++ [stamped s tx]
            | _ => pending_transactions s
            end
          else pending_transactions s
      | _ => pending_transactions s
      end).
  { destruct tx; try reflexivity. apply add_transaction_local_pool, Hfree. }
  split_and!.
  - intros [Hadm Hnew]. rewrite Hlocal.
    destruct tx as [| | | | |kvs];
      try (apply admissible_is_dict in Hadm; discriminate Hadm).
    apply admissible_iff in Hadm as [-> ->]. rewrite Hnew. reflexivity.
  - intros Hno. rewrite Hlocal. destruct tx as [| | | | |kvs]; try reflexivity.
    destruct (valid_tx_format (VDict kvs)) eqn:Hv; [|reflexivity].
    destruct (pay_check s kvs) as [[|]| |] eqn:Hp; try reflexivity.
    destruct (pooled _ _) eqn:Hnew; [reflexivity|].
    exfalso. apply Hno. split; [|reflexivity]. apply admissible_iff. auto.
  - intros Hnu. clear Hlocal.
    rewrite (process_new_transaction_pool s tx source_addr Hfree Hnu).
    rewrite (admissible_no_balance s tx Hnu). split.
    + intros [-> ->]. reflexivity.
    + intros Hno. destruct (valid_tx_format tx); cbn [andb]; [|reflexivity].
      destruct (pooled (json_dumps tx) (pending_transactions s));
        cbn [negb]; [reflexivity|].
      exfalso. auto.
Qed.

(** With 500 units on the chain dr_alice can pay the lab; on a fresh
    node, where she has none, the same transfer is turned away. *)
Lemma admission_rule_witness :
  pending_transactions (snd (add_transaction_local lab_payment paid_node))
  = [lab_payment] /\
  pending_transactions (snd (add_transaction_local lab_payment fresh_node)) = [] /\
  pending_transactions
    (snd (_process_message (NewTransaction registration) peer fresh_node))
  = [registration].
Proof.
  split_and!.
  - destruct (admission_rule paid_node lab_payment peer eq_refl) as (Hadd & _).
    apply Hadd. split; [|vm_compute; reflexivity].
    apply admissible_iff. split; vm_compute; reflexivity.
  - destruct (admission_rule fresh_node lab_payment peer eq_refl) as (_ & Hkeep & _).
    apply Hkeep. intros [Hadm _]. apply admissible_iff in Hadm as [_ Hpay].
    vm_compute in Hpay. discriminate Hpay.
  - destruct (admission_rule fresh_node registration peer eq_refl) as (_ & _ & Hrem).
    destruct (Hrem eq_refl) as [Hadd _].
    apply Hadd. split; [|vm_compute; reflexivity].
    apply admissible_iff. split; vm_compute; reflexivity.
Defined.

(** ** Idempotent admission *)

Lemma pooled_app (tx_repr : string) (pool : list value) (tx : value) :
  pooled tx_repr (pool ++ [tx]) =
  pooled tx_repr pool || String.eqb (json_dumps tx) tx_repr.
Proof.
  unfold pooled. rewrite existsb_app. cbn [existsb]. rewrite orb_false_r.
  reflexivity.
Qed.

Lemma process_new_transaction_duplicate (s : Node) (tx : value) (source_addr : addr) :
  pooled (json_dumps tx) (pending_transactions s) = true ->
  pending_transactions (snd (_process_message (NewTransaction tx) source_addr s))
  = pending_transactions s.
Proof.
  intros Hdup. cbn [_process_message].
  destruct (valid_tx_format tx); [|reflexivity].
  unfold with_lock. destruct (lock_held s); [reflexivity|].
  unfold bind at 1. unfold gets at 1. cbn [pending_transactions set_lock].
  rewrite Hdup. reflexivity.
Qed.

Lemma add_transaction_local_duplicate (s : Node) (tx : value) :
  pooled (json_dumps tx) (pending_transactions s) = true ->
  has_timestamp tx = true ->
  pending_transactions (snd (add_transaction_local tx s)) = pending_transactions s.
Proof.
  intros Hdup Hts. unfold add_transaction_local.
  destruct (valid_tx_format tx); cbn [negb]; [|reflexivity].
  destruct tx as [| | | | |kvs]; try discriminate Hts. cbn [has_timestamp] in Hts.
  rewrite Hts. unfold bind at 1.
  pose proof (sender_can_pay_state (VDict kvs) s) as Hs.
  destruct (sender_can_pay (VDict kvs) s) as [[[|]| |] s1]; cbn [snd] in Hs;
    subst s1; try reflexivity.
  unfold bind at 1. unfold ret at 1.
  unfold with_lock. destruct (lock_held s); [reflexivity|].
  unfold bind at 1. unfold gets at 1. cbn [pending_transactions set_lock].
  rewrite Hdup. reflexivity.
Qed.

(** The state after [add_transaction_local] on a free lock, for a
    candidate that has a timestamp. *)
Lemma add_transaction_local_stamped_state (s : Node) (kvs : list (string * value)) :
  lock_held s = false ->
  has_timestamp (VDict kvs) = true ->
  snd (add_transaction_local (VDict kvs) s) =
    if valid_tx_format (VDict kvs) then
      match pay_check s kvs with
      | Ret true =>
          if pooled (json_dumps (VDict kvs)) (pending_transactions s) then s
          else emit (Broadcast MSG_TYPE_NEW_TRANSACTION (PTx (VDict kvs)) None)
                 (set_pending (pending_transactions s ++ [VDict kvs]) s)
      | _ => s
      end
    else s.
Proof.
  intros Hfree Hts. unfold add_transaction_local.
  destruct (valid_tx_format (VDict kvs)) eqn:Hv; cbn [negb]; [|reflexivity].
  unfold bind at 1. rewrite sender_can_pay_free by assumption.
  fold (pay_check s kvs).
  destruct (pay_check s kvs) as [[|]| |]; try reflexivity.
  cbn [has_timestamp] in Hts. rewrite Hts.
  unfold bind at 1. unfold ret at 1. unfold with_lock. rewrite Hfree.
  unfold bind at 1. unfold gets at 1. cbn [pending_transactions set_lock].
  destruct (pooled (json_dumps (VDict kvs)) (pending_transactions s)); cbn [negb].
  - unfold ret. cbn [snd]. apply set_lock_release, Hfree.
  - unfold bind, modify, broadcast. cbn [snd].
    destruct s. cbn in *. subst. reflexivity.
Qed.

(** C8: a transaction without timestamp that a peer has sent is in the
    pool; submitted again through [add_transaction_local], it is stamped
    first, no longer matches, and is pooled a second time. *)
Lemma local_resubmission_is_stamped :
  lock_held gossiped_node = false /\
  pending_transactions gossiped_node = [unstamped] /\
  pooled (json_dumps unstamped) (pending_transactions gossiped_node) = true /\
  pending_transactions (snd (add_transaction_local unstamped gossiped_node))
  = [unstamped; stamp unstamped (demo_clock 1)].
Proof. split_and!; vm_compute; reflexivity. Qed.

(** C8 (amended): a transaction whose encoding is that of a pooled one
    leaves the pool as it is when a peer sends it, and when it is
    submitted locally with a [timestamp] field; submitting such a
    transaction locally twice in a row pools it at most once. *)
Theorem duplicate_is_dropped (s : Node) (tx : value) (source_addr : addr) :
  (pooled (json_dumps tx) (pending_transactions s) = true ->
   pending_transactions (snd (_process_message (NewTransaction tx) source_addr s))
   = pending_transactions s) /\
  (pooled (json_dumps tx) (pending_transactions s) = true ->
   has_timestamp tx = true ->
   pending_transactions (snd (add_transaction_local tx s))
   = pending_transactions s) /\
  (lock_held s = false ->
   has_timestamp tx = true ->
   let once := snd (add_transaction_local tx s) in
   pending_transactions (snd (add_transaction_local tx once))
   = pending_transactions once).
Proof.
  split_and!.
  - apply process_new_transaction_duplicate.
  - apply add_transaction_local_duplicate.
  - intros Hfree Hts. cbv zeta.
    destruct (pooled (json_dumps tx)
                (pending_transactions (snd (add_transaction_local tx s))))
      eqn:Hin; [apply add_transaction_local_duplicate; assumption|].
    assert (Hsame : snd (add_transaction_local tx s) = s).
    { destruct tx as [| | | | |kvs]; try discriminate Hts.
      rewrite add_transaction_local_stamped_state in * by assumption.
      destruct (valid_tx_format (VDict kvs)); [|reflexivity].
      destruct (pay_check s kvs) as [[|]| |]; try reflexivity.
      destruct (pooled (json_dumps (VDict kvs)) (pending_transactions s)) eqn:Hp;
        [reflexivity|].
      cbn [pending_transactions set_pending emit] in Hin.
      rewrite pooled_app, String.eqb_refl, orb_true_r in Hin. discriminate Hin. }
    rewrite !Hsame. reflexivity.
Qed.

Lemma duplicate_is_dropped_witness :
  pending_transactions
    (snd (_process_message (NewTransaction registration) peer node_with_registration))
  = [registration] /\
  pending_transactions (snd (add_transaction_local registration node_with_registration))
  = [registration] /\
  pending_transactions
    (snd (add_transaction_local registration
            (snd (add_transaction_local registration fresh_node))))
  = [registration].
Proof.
  destruct (duplicate_is_dropped node_with_registration registration peer)
    as (Hremote & Hlocal & _).
  destruct (duplicate_is_dropped fresh_node registration peer) as (_ & _ & Htwice).
  split_and!.
  - rewrite Hremote; vm_compute; reflexivity.
  - rewrite Hlocal; vm_compute; reflexivity.
  - cbv zeta in Htwice. rewrite Htwice; vm_compute; reflexivity.
Defined.

(** ** Affordability of validated chains

    What [_validate_chain_balances] does guarantee: when no transfer of the
    chain has a negative amount, the replay of every prefix of its
    transactions leaves no principal but the system account below zero. *)

Lemma balance_of_insert (b : gmap key Z) (k k' : key) (v : Z) :
  balance_of (<[k := v]> b) k' = if decide (k = k') then v else balance_of b k'.
Proof.
  unfold balance_of. rewrite lookup_insert. destruct (decide (k = k')); reflexivity.
Qed.

Lemma balance_of_init_account (b : gmap key Z) (k k' : key) :
  balance_of (init_account k b) k' = balance_of b k'.
Proof.
  unfold init_account. destruct (b !! k) eqn:Hk; [reflexivity|].
  rewrite balance_of_insert. destruct (decide (k = k')) as [<-|]; [|reflexivity].
  unfold balance_of. rewrite Hk. reflexivity.
Qed.

Lemma non_negative_initial_balances : non_negative initial_balances.
Proof.
  intros k Hk. unfold initial_balances, USERS. cbn [foldr].
  rewrite !balance_of_insert.
  repeat (destruct (decide _); [try lia; congruence|]).
  unfold balance_of. rewrite lookup_empty. cbn. lia.
Qed.

(** One affordable step of the validator and the ledger update of the same
    transaction agree, and keep users at or above zero when the amount is
    not negative. *)
Lemma spend_credit_debit (tx : value) (b b1 b' : gmap key Z) :
  spend tx b = (Ret true, b1) ->
  same_balances b b' ->
  exists b1', credit_debit tx b' = (Ret tt, b1') /\ same_balances b1 b1' /\
              (negative_amount tx = false -> non_negative b -> non_negative b1).
Proof.
  unfold spend, credit_debit, negative_amount, py_get, hashable, int_of.
  unfold bind, ret, raise, gets, modify.
  destruct tx as [| | | | |kvs]; try discriminate.
  destruct (py_eq (default VNone (dict_get kvs "type")) (VStr TX_TRANSFER_ECASH)).
  2:{ intros [= <-] Hsame. exists b'. split_and!; auto. }
  cbn [andb].
  destruct (py_eq (default VNone (dict_get kvs "from")) (VStr SYSTEM_ACCOUNT))
    eqn:Esys; cbn [negb].
  - (* the system account pays: no test *)
    destruct (hash_key (default VNone (dict_get kvs "from"))) as [ks|] eqn:Hks;
      [|discriminate].
    destruct (as_int (default (VInt 0) (dict_get kvs "amount"))) as [a|];
      [|discriminate].
    destruct (hash_key (default VNone (dict_get kvs "to"))) as [kr|];
      [|discriminate].
    intros [= <-] Hsame. eexists. split; [reflexivity|].
    apply py_eq_str in Esys. rewrite Esys in Hks. injection Hks as <-.
    split.
    + intros k. rewrite !balance_of_insert, !balance_of_init_account.
      rewrite <- !Hsame. repeat destruct (decide _); reflexivity.
    + intros Ha Hnn k Hk. rewrite !balance_of_insert.
      apply Z.ltb_ge in Ha.
      destruct (decide (kr = k)) as [->|].
      * destruct (decide _); [congruence|]. specialize (Hnn k Hk). lia.
      * destruct (decide _); [congruence|]. apply Hnn, Hk.
  - (* a user pays: the balance must cover the amount *)
    destruct (hash_key (default VNone (dict_get kvs "from"))) as [ks|] eqn:Hks;
      [|discriminate].
    destruct (as_int (default (VInt 0) (dict_get kvs "amount"))) as [a|];
      [|discriminate].
    destruct (balance_of b ks <? a) eqn:Hshort; [discriminate|].
    destruct (hash_key (default VNone (dict_get kvs "to"))) as [kr|];
      [|discriminate].
    intros [= <-] Hsame. eexists. split; [reflexivity|].
    apply Z.ltb_ge in Hshort. split.
    + intros k. rewrite !balance_of_insert, !balance_of_init_account.
      rewrite <- !Hsame. repeat destruct (decide _); reflexivity.
    + intros Ha Hnn k Hk. rewrite !balance_of_insert.
      apply Z.ltb_ge in Ha.
      destruct (decide (kr = k)) as [->|].
      * destruct (decide (ks = k)); [lia|]. specialize (Hnn k Hk). lia.
      * destruct (decide (ks = k)); [lia|]. apply Hnn, Hk.
Qed.

Lemma spend_all_cons_true (tx : value) (rest : list value) (b b2 : gmap key Z) :
  spend_all (tx :: rest) b = (Ret true, b2) ->
  exists b1, spend tx b = (Ret true, b1) /\ spend_all rest b1 = (Ret true, b2).
Proof.
  cbn [spend_all]. unfold bind.
  destruct (spend tx b) as [[[|]| |] b1]; try discriminate. eauto.
Qed.

Lemma spend_all_app_true (p q : list value) (b b2 : gmap key Z) :
  spend_all (p ++ q) b = (Ret true, b2) ->
  exists b1, spend_all p b = (Ret true, b1) /\ spend_all q b1 = (Ret true, b2).
Proof.
  revert b. induction p as [|tx p IH]; intros b Hs.
  - exists b. split; [reflexivity|exact Hs].
  - cbn [app] in Hs. apply spend_all_cons_true in Hs as (b0 & Htx & Hrest).
    apply IH in Hrest as (b1 & Hp & Hq). exists b1. split; [|exact Hq].
    cbn [spend_all]. unfold bind. rewrite Htx. exact Hp.
Qed.

(** Block by block on copies, or in one run over all transactions: the
    validator accepts the same chains. *)
Lemma validate_blocks_flat (c : list Block) (b b2 : gmap key Z) :
  validate_blocks c b = (Ret true, b2) ->
  spend_all (txs_of c) b = (Ret true, b2).
Proof.
  revert b. induction c as [|block rest IH]; intros b Hv; [exact Hv|].
  cbn [validate_blocks] in Hv. unfold bind at 1 in Hv. unfold gets at 1 in Hv.
  unfold bind at 1 in Hv. unfold local in Hv. unfold id in Hv.
  destruct (spend_all (transactions block) b) as [[[|]| |] b1] eqn:Hb;
    cbn [fst snd] in Hv; try discriminate Hv.
  unfold bind, modify in Hv. apply IH in Hv.
  unfold txs_of. cbn [map concat]. fold (txs_of rest).
  clear IH. revert b Hb. induction (transactions block) as [|tx txs IHt];
    intros b Hb.
  - injection Hb as <-. exact Hv.
  - apply spend_all_cons_true in Hb as (b0 & Htx & Hrest).
    cbn [app spend_all]. unfold bind. rewrite Htx. apply IHt, Hrest.
Qed.

Lemma spend_all_replay (p : list value) (b b1 b' : gmap key Z) :
  spend_all p b = (Ret true, b1) ->
  same_balances b b' ->
  Forall (fun tx => negative_amount tx = false) p ->
  non_negative b ->
  exists b1', for_each p credit_debit b' = (Ret tt, b1') /\
              same_balances b1 b1' /\ non_negative b1.
Proof.
  revert b b'. induction p as [|tx p IH]; intros b b' Hs Hsame Hamt Hnn.
  - injection Hs as <-. exists b'. split_and!; auto.
  - apply spend_all_cons_true in Hs as (b0 & Htx & Hrest).
    inversion Hamt as [|? ? Htxa Hpa]; subst.
    destruct (spend_credit_debit tx b b0 b' Htx Hsame) as (b0' & Hcd & Hsame0 & Hnn0).
    destruct (IH b0 b0' Hrest Hsame0 Hpa (Hnn0 Htxa Hnn)) as (b1' & Hfe & Hsame1 & Hnn1).
    exists b1'. split_and!; auto.
    cbn [for_each]. unfold bind. rewrite Hcd. exact Hfe.
Qed.

(** The loop of [_recalculate_all_balances] is one run over the
    transactions of the chain. *)
Lemma replay_chain_flat (c : list Block) (b : gmap key Z) :
  for_each c replay_block b = for_each (txs_of c) credit_debit b.
Proof.
  revert b. induction c as [|block rest IH]; intros b; [reflexivity|].
  cbn [for_each]. unfold txs_of. cbn [map concat]. fold (txs_of rest).
  unfold replay_block at 1. unfold bind.
  revert b. induction (transactions block) as [|tx txs IHt]; intros b.
  - cbn [for_each app]. unfold ret. apply IH.
  - cbn [for_each app]. unfold bind.
    destruct (credit_debit tx b) as [[[]| |] b0]; [apply IHt|reflexivity..].
Qed.

(** When [_validate_chain_balances] accepts a chain in which no transfer
    has an [int] below zero as amount, the replay of every prefix of its
    transactions by the ledger update returns and leaves no principal but
    the system account below zero. *)
Lemma replay_of_validated_chain (c : list Block) (p q : list value) :
  _validate_chain_balances c = Ret true ->
  Forall (fun tx => negative_amount tx = false) (txs_of c) ->
  txs_of c = p ++ q ->
  exists b, for_each p credit_debit initial_balances = (Ret tt, b) /\
            non_negative b.
Proof.
  unfold _validate_chain_balances. intros Hv Hamt Hpq.
  destruct (validate_blocks c initial_balances) as [r b2] eqn:Hvb.
  cbn [fst] in Hv. subst r. apply validate_blocks_flat in Hvb.
  rewrite Hpq in Hvb, Hamt. apply spend_all_app_true in Hvb as (b1 & Hp & _).
  apply Forall_app in Hamt as [Hamt _].
  destruct (spend_all_replay p initial_balances b1 initial_balances Hp
              (fun k => eq_refl) Hamt non_negative_initial_balances)
    as (b1' & Hfe & Hsame & Hnn).
  exists b1'. split; [exact Hfe|].
  intros k Hk. rewrite <- Hsame. apply Hnn, Hk.
Qed.

Lemma natural_amount_not_negative (tx : value) :
  natural_amount tx = true -> negative_amount tx = false.
Proof.
  unfold natural_amount, negative_amount. destruct tx as [| | | | |kvs]; auto.
  destruct (py_eq _ _); cbn [negb orb andb]; [|reflexivity].
  destruct (as_int _) as [a|]; [|discriminate].
  intros Ha. apply Z.leb_le in Ha. apply Z.ltb_ge. exact Ha.
Qed.

(** X3.  The invariant that the validator is there for, and the condition
    under which it holds: when [_validate_chain_balances] accepts a chain
    in which the amount of every transfer is an [int] that is not
    negative, the replay of every prefix of its transactions by the ledger
    update returns and leaves no principal but the system account below
    zero. *)
Theorem validated_replay_non_negative (c : list Block) (p q : list value) :
  _validate_chain_balances c = Ret true ->
  Forall (fun tx => natural_amount tx = true) (txs_of c) ->
  txs_of c = p ++ q ->
  exists b, for_each p credit_debit initial_balances = (Ret tt, b) /\
            non_negative b.
Proof.
  intros Hv Hamt Hpq. apply (replay_of_validated_chain c p q Hv); [|exact Hpq].
  eapply Forall_impl; [exact Hamt|].
  intros tx. apply natural_amount_not_negative.
Qed.

(** * Further properties of the chain store *)

Lemma linked_prefix (c c' : list Block) : linked (c ++ c') -> linked c.
Proof.
  intros Hl i cur prev Hc Hp.
  apply (Hl i); apply lookup_app_l_Some; assumption.
Qed.

Lemma linked_positions (c : list Block) :
  linked c ->
  (forall first, head c = Some first -> index first = 0) ->
  forall (i : nat) b, c !! i = Some b -> index b = Z.of_nat i.
Proof.
  intros Hl Hh i. induction i as [|i IH]; intros b Hb.
  - apply Hh. rewrite head_lookup. exact Hb.
  - destruct (c !! i) as [prev|] eqn:Hp.
    + destruct (Hl i b prev Hb Hp) as [_ Hi].
      rewrite Hi, (IH prev eq_refl). lia.
    + apply lookup_ge_None in Hp. apply lookup_lt_Some in Hb. lia.
Qed.

Lemma built_of_linked (c : list Block) :
  linked c ->
  (forall first, head c = Some first -> index first = 0) ->
  built c.
Proof.
  induction c as [|block c IH] using rev_ind; intros Hl Hh.
  - constructor.
  - assert (Hb : built c).
    { apply IH.
      - eapply linked_prefix. exact Hl.
      - intros first Hf. apply Hh. destruct c; [discriminate Hf | exact Hf]. }
    replace (c ++ [block]) with (snd (add_block c block)).
    { constructor. exact Hb. }
    rewrite add_block_checked; [reflexivity|].
    unfold get_latest_block. destruct (last c) as [latest|] eqn:Hlast.
    + apply last_Some in Hlast. destruct Hlast as [c0 ->].
      destruct (Hl (length c0) block latest) as [Hp Hi].
      * rewrite lookup_app_r; rewrite length_app; cbn [length]; [|lia].
        replace (S (length c0) - (length c0 + 1))%nat with 0%nat by lia.
        reflexivity.
      * rewrite lookup_app_l; [|rewrite length_app; cbn [length]; lia].
        rewrite lookup_app_r; [|lia].
        rewrite Nat.sub_diag. reflexivity.
      * rewrite Hp, Hi, String.eqb_refl, Z.eqb_refl. reflexivity.
    + apply last_None in Hlast. subst c.
      rewrite (Hh block eq_refl). reflexivity.
Qed.

(** X4.  The chains that calls of [add_block] build from the empty chain
    are exactly the chains whose first block has index 0 and in which every
    later block carries the hash of its predecessor as [previous_hash] and
    the index of its predecessor plus one. *)
Theorem built_characterisation (c : list Block) :
  built c <->
  linked c /\ (forall first, head c = Some first -> index first = 0).
Proof.
  split.
  - apply built_linked.
  - intros [Hl Hh]. apply built_of_linked; assumption.
Qed.

(** X5.  In a chain that [is_chain_valid] accepts the index of a block is
    its position, so the index that follows the last block is the length
    of the chain. *)
Theorem valid_chain_indices (c : list Block) :
  is_chain_valid c None = true ->
  (forall (i : nat) b, c !! i = Some b -> index b = Z.of_nat i) /\
  (forall tip, get_latest_block c = Some tip ->
     index tip + 1 = Z.of_nat (length c)).
Proof.
  intros Hv. apply is_chain_valid_self in Hv.
  destruct Hv as (first & rest & -> & H0 & _ & _ & Hl).
  assert (Hpos : forall (i : nat) b,
             (first :: rest) !! i = Some b -> index b = Z.of_nat i).
  { apply linked_positions; [exact Hl|].
    intros f Hf. injection Hf as <-. exact H0. }
  split; [exact Hpos|].
  intros tip Ht. unfold get_latest_block in Ht.
  rewrite last_lookup in Ht. apply Hpos in Ht. rewrite Ht.
  cbn [length Nat.pred]. lia.
Qed.

Lemma valid_chain_indices_witness :
  (forall (i : nat) b,
     [genesis_block "2024-05-01 10:00:00"; second_block] !! i = Some b ->
     index b = Z.of_nat i) /\
  (forall tip,
     get_latest_block [genesis_block "2024-05-01 10:00:00"; second_block] = Some tip ->
     index tip + 1 = 2).
Proof.
  apply (valid_chain_indices [genesis_block "2024-05-01 10:00:00"; second_block]).
  vm_compute. reflexivity.
Defined.

(** X6.  On a chain that [is_chain_valid] accepts, [add_block] takes a
    block exactly when the block names the hash of the last block and
    carries the length of the chain as index; it then appends the block,
    and the chain stays valid when the stored hash of the block is the hash
    of its contents.  A block that is refused leaves the chain as it was. *)
Theorem add_block_on_valid_chain (c : list Block) (block : Block) :
  is_chain_valid c None = true ->
  (fst (add_block c block) = true <->
   (exists tip, get_latest_block c = Some tip /\ previous_hash block = hash tip)
   /\ index block = Z.of_nat (length c)) /\
  (fst (add_block c block) = true ->
   snd (add_block c block) = c ++ [block] /\
   (sealed block -> is_chain_valid (c ++ [block]) None = true)) /\
  (fst (add_block c block) = false -> snd (add_block c block) = c).
Proof.
  intros Hv. pose proof Hv as Hs. apply is_chain_valid_self in Hs.
  destruct Hs as (first & rest & Hc & H0 & Hp0 & Hseal & Hl).
  assert (Hpos : forall (i : nat) b, c !! i = Some b -> index b = Z.of_nat i).
  { apply linked_positions; [exact Hl|].
    intros f Hf. rewrite Hc in Hf. injection Hf as <-. exact H0. }
  destruct (last c) as [tip|] eqn:Htip;
    [|apply last_None in Htip; rewrite Hc in Htip; discriminate Htip].
  assert (Hi : index tip + 1 = Z.of_nat (length c)).
  { rewrite last_lookup in Htip. apply Hpos in Htip. rewrite Htip.
    rewrite Hc. cbn [length Nat.pred]. lia. }
  unfold add_block, get_latest_block. rewrite Htip.
  destruct (String.eqb_spec (previous_hash block) (hash tip)) as [Hh|Hh];
    destruct (Z.eqb_spec (index block) (index tip + 1)) as [Hx|Hx];
    cbn [andb fst snd].
  - split_and!.
    + split; [intros _|reflexivity].
      split; [exists tip; split; [reflexivity | exact Hh] | lia].
    + intros _. split; [reflexivity|]. intros Hsb.
      apply is_chain_valid_self. exists first, (rest ++ [block]).
      split_and!.
      * rewrite Hc. reflexivity.
      * exact H0.
      * exact Hp0.
      * apply Forall_app. split; [exact Hseal|].
        apply Forall_cons_2; [exact Hsb | apply Forall_nil_2].
      * eapply linked_snoc; eauto.
    + intros Hf. discriminate Hf.
  - split_and!.
    + split; [intros Hf; discriminate Hf|]. intros [_ Hidx]. lia.
    + intros Hf. discriminate Hf.
    + reflexivity.
  - split_and!.
    + split; [intros Hf; discriminate Hf|].
      intros [(tip' & Ht' & Hp') _]. injection Ht' as <-. contradiction.
    + intros Hf. discriminate Hf.
    + reflexivity.
  - split_and!.
    + split; [intros Hf; discriminate Hf|]. intros [_ Hidx]. lia.
    + intros Hf. discriminate Hf.
    + reflexivity.
Qed.

Lemma add_block_on_valid_chain_witness :
  fst (add_block [genesis_block "2024-05-01 10:00:00"] second_block) = true /\
  is_chain_valid [genesis_block "2024-05-01 10:00:00"; second_block] None = true /\
  snd (add_block [genesis_block "2024-05-01 10:00:00"] unsealed_block)
  = [genesis_block "2024-05-01 10:00:00"].
Proof.
  assert (Hv : is_chain_valid [genesis_block "2024-05-01 10:00:00"] None = true)
    by (vm_compute; reflexivity).
  destruct (add_block_on_valid_chain _ second_block Hv) as (Hiff & Hacc & _).
  destruct (add_block_on_valid_chain _ unsealed_block Hv) as (_ & _ & Hrej).
  assert (Ht : fst (add_block [genesis_block "2024-05-01 10:00:00"] second_block)
               = true).
  { apply Hiff. split; [|reflexivity].
    exists (genesis_block "2024-05-01 10:00:00"). split; reflexivity. }
  split_and!.
  - exact Ht.
  - apply (Hacc Ht). reflexivity.
  - apply Hrej. reflexivity.
Defined.

(** * Patient history *)

Lemma get_patient_history_app (c c' : list Block) (patient_id : value) :
  get_patient_history (c ++ c') patient_id =
  get_patient_history c patient_id ++ get_patient_history c' patient_id.
Proof. unfold get_patient_history. rewrite map_app, concat_app. reflexivity. Qed.

(** X7.  [add_block] never rewrites the history of a patient: the history
    read before the call is a prefix of the history read after it, and a
    block that is taken adds its transactions of that patient, in their
    order, each with the index and timestamp of the block. *)
Theorem add_block_extends_history (c : list Block) (block : Block)
    (patient_id : value) :
  get_patient_history c patient_id
    `prefix_of` get_patient_history (snd (add_block c block)) patient_id /\
  (fst (add_block c block) = true ->
   get_patient_history (snd (add_block c block)) patient_id =
   get_patient_history c patient_id
   ++ map (history_record block)
        (List.filter (about_patient patient_id) (transactions block))).
Proof.
  assert (Happ : get_patient_history (c ++ [block]) patient_id =
                 get_patient_history c patient_id
                 ++ map (history_record block)
                      (List.filter (about_patient patient_id) (transactions block))).
  { rewrite get_patient_history_app. unfold get_patient_history at 2.
    cbn [map concat]. rewrite app_nil_r. reflexivity. }
  unfold add_block.
  destruct (get_latest_block c) as [latest|];
    [destruct (String.eqb (previous_hash block) (hash latest)
               && (index block =? index latest + 1))
    |destruct (index block =? 0)];
    cbn [fst snd]; (split; [|try discriminate; intros _; exact Happ]);
    solve [rewrite Happ; apply prefix_app_r; reflexivity | reflexivity].
Qed.

Lemma transaction_of_history_record (block : Block) (tx : value) :
  transaction_of (history_record block tx) = tx.
Proof. reflexivity. Qed.

Lemma get_history_from_copy_all (block : Block) (patient_id : value)
    (c : list Block) :
  Forall (fun b => index b <= index block) c ->
  get_history_from_copy block patient_id c =
  map transaction_of (get_patient_history c patient_id).
Proof.
  induction 1 as [|b c Hb _ IH]; [reflexivity|].
  unfold get_history_from_copy, get_patient_history in *.
  cbn [map concat]. rewrite map_app, <- IH.
  replace (index block <? index b) with false by (symmetry; apply Z.ltb_ge; exact Hb).
  f_equal. rewrite map_map.
  rewrite (map_ext _ id) by (intros tx; apply transaction_of_history_record).
  rewrite map_id. reflexivity.
Qed.

(** X8.  On a chain that [is_chain_valid] accepts, the history that reward
    synthesis collects for the last block ([get_history_from_copy]) holds
    the transactions of the records of [get_patient_history], in the same
    order: the index filter of the former drops nothing. *)
Theorem reward_history_is_patient_history (c : list Block) (tip : Block)
    (patient_id : value) :
  is_chain_valid c None = true ->
  get_latest_block c = Some tip ->
  get_history_from_copy tip patient_id c =
  map transaction_of (get_patient_history c patient_id).
Proof.
  intros Hv Htip. apply get_history_from_copy_all.
  apply is_chain_valid_self in Hv.
  destruct Hv as (first & rest & Hc & H0 & _ & _ & Hl).
  assert (Hpos : forall (i : nat) b, c !! i = Some b -> index b = Z.of_nat i).
  { apply linked_positions; [exact Hl|].
    intros f Hf. rewrite Hc in Hf. injection Hf as <-. exact H0. }
  unfold get_latest_block in Htip. rewrite last_lookup in Htip.
  apply Hpos in Htip. apply Forall_lookup_2. intros i b Hb.
  pose proof (lookup_lt_Some _ _ _ Hb) as Hlt.
  apply Hpos in Hb. rewrite Hb, Htip. lia.
Qed.

Lemma reward_history_is_patient_history_witness :
  get_history_from_copy lab_block (VStr "p-001") (chain lab_node) =
  map transaction_of (get_patient_history (chain lab_node) (VStr "p-001")).
Proof.
  apply reward_history_is_patient_history; vm_compute; reflexivity.
Defined.

(** * Further properties of the ledger *)

Lemma for_each_app {S A : Type} (l l' : list A) (body : A -> M S unit) (s : S) :
  for_each (l ++ l') body s =
  match for_each l body s with
  | (Ret _, s') => for_each l' body s'
  | (Raise e, s') => (Raise e, s')
  | (Deadlock, s') => (Deadlock, s')
  end.
Proof.
  revert s. induction l as [|x l IH]; intros s; [reflexivity|].
  cbn [app for_each]. unfold bind.
  destruct (body x s) as [[[]| |] s1]; [apply IH|reflexivity..].
Qed.

Lemma replay_block_returns (block : Block) (b : gmap key Z) :
  Forall (fun tx => well_typed tx = true) (transactions block) ->
  fst (replay_block block b) = Ret tt.
Proof.
  intros Hwt. unfold replay_block.
  apply (for_each_returns (fun tx => well_typed tx = true)); [|exact Hwt].
  intros tx b0. apply credit_debit_returns.
Qed.

(** X9.  The two ways of maintaining the ledger agree: updating the ledger
    that [_recalculate_all_balances] computed with one more block gives the
    ledger that [_recalculate_all_balances] computes on the chain extended
    by that block. *)
Theorem incremental_update_agrees_with_recomputation (s : Node) (block : Block) :
  lock_held s = false ->
  well_typed_chain (chain s ++ [block]) ->
  let incremental :=
    _update_balances_from_block block (snd (_recalculate_all_balances s)) in
  let recomputed :=
    _recalculate_all_balances (set_chain (chain s ++ [block]) s) in
  fst incremental = Ret tt /\ fst recomputed = Ret tt /\
  E_CASH_BALANCES (snd incremental) = E_CASH_BALANCES (snd recomputed).
Proof.
  intros Hfree Hwt. apply Forall_app in Hwt as [Hc Hb].
  apply Forall_cons in Hb as [Hb _].
  cbn zeta.
  rewrite !_recalculate_all_balances_free by (try exact Hfree; reflexivity).
  cbn [chain set_chain]. rewrite for_each_app.
  pose proof (replay_chain_returns (chain s) initial_balances Hc) as Hr.
  destruct (for_each (chain s) replay_block initial_balances) as [r b].
  cbn [fst] in Hr. subst r. cbn [snd for_each]. unfold bind, ret.
  pose proof (replay_block_returns block b Hb) as Hr.
  unfold _update_balances_from_block, with_lock, on_ledger.
  cbn [lock_held set_lock set_balances E_CASH_BALANCES].
  destruct (replay_block block b) as [r b1].
  cbn [fst] in Hr. subst r. cbn. split_and!; reflexivity.
Qed.

Lemma incremental_update_agrees_with_recomputation_witness :
  E_CASH_BALANCES
    (snd (_update_balances_from_block reward_block
            (snd (_recalculate_all_balances fresh_node))))
  = E_CASH_BALANCES (snd (_recalculate_all_balances paid_node)).
Proof.
  apply (incremental_update_agrees_with_recomputation fresh_node reward_block).
  - reflexivity.
  - vm_compute. repeat constructor.
Defined.

Lemma replay_up_to_unknown (c : list Block) (h : string) (b : gmap key Z) :
  Forall (fun x => hash x <> h) c ->
  replay_up_to c h b = for_each c replay_block b.
Proof.
  intros Hc. revert b. induction Hc as [|x c Hx _ IH]; intros b; [reflexivity|].
  cbn [replay_up_to for_each]. unfold bind.
  destruct (replay_block x b) as [[[]| |] b1]; [|reflexivity..].
  apply String.eqb_neq in Hx. rewrite Hx. apply IH.
Qed.

Lemma replay_up_to_first (pre post : list Block) (x : Block) (b : gmap key Z) :
  Forall (fun y => hash y <> hash x) pre ->
  replay_up_to (pre ++ x :: post) (hash x) b = for_each (pre ++ [x]) replay_block b.
Proof.
  intros Hpre. revert b. induction Hpre as [|y pre Hy _ IH]; intros b.
  - cbn [app replay_up_to for_each]. unfold bind.
    destruct (replay_block x b) as [[[]| |] b1]; [|reflexivity..].
    rewrite String.eqb_refl. reflexivity.
  - cbn [app replay_up_to for_each]. unfold bind.
    destruct (replay_block y b) as [[[]| |] b1]; [|reflexivity..].
    apply String.eqb_neq in Hy. rewrite Hy. apply IH.
Qed.

(** The parent of a block that extends the chain: no block before the last
    one carries the hash. *)
Lemma replay_up_to_tip (c : list Block) (h : string) (b : gmap key Z) :
  Forall (fun x => hash x <> h) (removelast c) ->
  replay_up_to c h b = for_each c replay_block b.
Proof.
  revert b. induction c as [|x c IH]; intros b Hc; [reflexivity|].
  cbn [replay_up_to for_each]. unfold bind.
  destruct (replay_block x b) as [[[]| |] b1]; [|reflexivity..].
  destruct c as [|y c].
  - cbn [replay_up_to for_each]. destruct (String.eqb (hash x) h); reflexivity.
  - cbn [removelast] in Hc. fold (removelast (y :: c)) in Hc.
    apply Forall_cons in Hc as [Hx Hc].
    apply String.eqb_neq in Hx. rewrite Hx. apply IH, Hc.
Qed.

Lemma get_balances_up_to_block_free (h : string) (s : Node) :
  lock_held s = false ->
  get_balances_up_to_block h s =
    match replay_up_to (chain s) h initial_balances with
    | (Ret _, b) => (Ret b, s)
    | (Raise e, _) => (Raise e, s)
    | (Deadlock, _) => (Deadlock, set_lock true s)
    end.
Proof.
  intros Hfree. unfold get_balances_up_to_block, with_lock, bind, gets, local, ret.
  rewrite Hfree. cbn [chain set_lock].
  destruct (replay_up_to (chain s) h initial_balances) as [[[]| |] b];
    cbn [snd]; rewrite ?set_lock_release by exact Hfree; reflexivity.
Qed.

Lemma _get_balances_from_chain_free (s : Node) :
  lock_held s = false ->
  _get_balances_from_chain s =
    match for_each (chain s) replay_block initial_balances with
    | (Ret _, b) => (Ret b, s)
    | (Raise e, _) => (Raise e, s)
    | (Deadlock, _) => (Deadlock, set_lock true s)
    end.
Proof.
  intros Hfree. unfold _get_balances_from_chain, with_lock, bind, gets, local, ret.
  rewrite Hfree. cbn [chain set_lock].
  destruct (for_each (chain s) replay_block initial_balances) as [[[]| |] b];
    cbn [snd]; rewrite ?set_lock_release by exact Hfree; reflexivity.
Qed.

(** X10.  [get_balances_up_to_block] returns the balances after the first
    block that carries the given hash: what [_get_balances_from_chain]
    returns on the chain cut after that block.  For a hash that no block of
    the chain carries it returns the balances of the whole chain. *)
Theorem get_balances_up_to_block_snapshot (s : Node) :
  lock_held s = false ->
  (forall pre block post,
     chain s = pre ++ block :: post ->
     Forall (fun x => hash x <> hash block) pre ->
     fst (get_balances_up_to_block (hash block) s) =
     fst (_get_balances_from_chain (set_chain (pre ++ [block]) s))) /\
  (forall h,
     Forall (fun x => hash x <> h) (chain s) ->
     get_balances_up_to_block h s = _get_balances_from_chain s).
Proof.
  intros Hfree. split.
  - intros pre block post Hc Hpre.
    rewrite get_balances_up_to_block_free by exact Hfree.
    rewrite _get_balances_from_chain_free by exact Hfree.
    cbn [chain set_chain]. rewrite Hc, replay_up_to_first by exact Hpre.
    destruct (for_each (pre ++ [block]) replay_block initial_balances)
      as [[[]| |] b]; reflexivity.
  - intros h Hc.
    rewrite get_balances_up_to_block_free by exact Hfree.
    rewrite _get_balances_from_chain_free by exact Hfree.
    rewrite replay_up_to_unknown by exact Hc. reflexivity.
Qed.

Lemma get_balances_up_to_block_snapshot_witness :
  fst (get_balances_up_to_block (hash (genesis_block (demo_clock 0))) paid_node)
  = fst (_get_balances_from_chain fresh_node) /\
  get_balances_up_to_block "0000" paid_node = _get_balances_from_chain paid_node.
Proof.
  destruct (get_balances_up_to_block_snapshot paid_node eq_refl) as [Hcut Hall].
  split.
  - apply (Hcut [] (genesis_block (demo_clock 0)) [reward_block]).
    + reflexivity.
    + apply Forall_nil_2.
  - apply Hall. vm_compute.
    repeat (apply Forall_cons_2; [intros H; discriminate H|]). apply Forall_nil_2.
Defined.

(** X11.  After [_recalculate_all_balances] has returned, the module-level
    ledger holds for every principal the balance that
    [get_current_balance] computes from the chain. *)
Theorem ledger_agrees_with_get_current_balance (s s' : Node) (username : value) :
  _recalculate_all_balances s = (Ret tt, s') ->
  fst (get_current_balance username s') =
    match hash_key username with
    | Some k => Ret (balance_of (E_CASH_BALANCES s') k)
    | None => Raise TypeError
    end.
Proof.
  intros Hr. destruct (lock_held s) eqn:Hl.
  { rewrite _recalculate_all_balances_held in Hr by exact Hl. discriminate Hr. }
  rewrite _recalculate_all_balances_free in Hr by exact Hl.
  destruct (for_each (chain s) replay_block initial_balances) as [[[]| |] b] eqn:Hb;
    try discriminate Hr.
  injection Hr as <-.
  rewrite get_current_balance_free by reflexivity.
  cbn [fst]. unfold chain_balance. cbn [chain set_lock set_balances E_CASH_BALANCES].
  rewrite Hb. reflexivity.
Qed.

Lemma ledger_agrees_with_get_current_balance_witness :
  fst (get_current_balance (VStr "dr_alice") (snd (_recalculate_all_balances paid_node)))
  = Ret (balance_of (E_CASH_BALANCES (snd (_recalculate_all_balances paid_node)))
           (KStr "dr_alice")).
Proof.
  apply (ledger_agrees_with_get_current_balance paid_node _ (VStr "dr_alice")).
  rewrite _recalculate_all_balances_free by reflexivity.
  destruct (for_each (chain paid_node) replay_block initial_balances)
    as [r b] eqn:Hb.
  assert (Hr : r = Ret tt).
  { change r with (fst (r, b)). rewrite <- Hb. vm_compute. reflexivity. }
  rewrite Hr. reflexivity.
Defined.

(** * Affordability, block by block *)

Lemma same_balances_sym (b b' : gmap key Z) :
  same_balances b b' -> same_balances b' b.
Proof. intros H k. symmetry. apply H. Qed.

(** The affordability step reads balances only: on two dicts that give
    every principal the same balance it takes the same decision. *)
Lemma spend_same (tx : value) (b b' b1 : gmap key Z) (r : result bool) :
  spend tx b = (r, b1) ->
  same_balances b b' ->
  exists b1', spend tx b' = (r, b1') /\ same_balances b1 b1'.
Proof.
  unfold spend, py_get, hashable, int_of.
  unfold bind, ret, raise, gets, modify.
  intros Hs Hsame.
  destruct tx as [| | | | |kvs];
    try (injection Hs as <- <-; eexists; split; [reflexivity | exact Hsame]).
  destruct (py_eq (default VNone (dict_get kvs "type")) (VStr TX_TRANSFER_ECASH));
    [|injection Hs as <- <-; eexists; split; [reflexivity | exact Hsame]].
  destruct (py_eq (default VNone (dict_get kvs "from")) (VStr SYSTEM_ACCOUNT));
    cbn [negb] in *.
  - destruct (hash_key (default VNone (dict_get kvs "from"))) as [ks|];
      [|injection Hs as <- <-; eexists; split; [reflexivity | exact Hsame]].
    destruct (as_int (default (VInt 0) (dict_get kvs "amount"))) as [a|];
      [|injection Hs as <- <-; eexists; split; [reflexivity | exact Hsame]].
    rewrite <- (Hsame ks).
    destruct (hash_key (default VNone (dict_get kvs "to"))) as [kr|];
      injection Hs as <- <-; eexists; (split; [reflexivity|]).
    + intros k. rewrite !balance_of_insert. rewrite <- ?Hsame.
      repeat destruct (decide _); reflexivity.
    + intros k. rewrite !balance_of_insert. rewrite <- ?Hsame.
      repeat destruct (decide _); reflexivity.
  - destruct (hash_key (default VNone (dict_get kvs "from"))) as [ks|];
      [|injection Hs as <- <-; eexists; split; [reflexivity | exact Hsame]].
    destruct (as_int (default (VInt 0) (dict_get kvs "amount"))) as [a|];
      [|injection Hs as <- <-; eexists; split; [reflexivity | exact Hsame]].
    rewrite <- (Hsame ks).
    destruct (balance_of b ks <? a);
      [injection Hs as <- <-; eexists; split; [reflexivity | exact Hsame]|].
    destruct (hash_key (default VNone (dict_get kvs "to"))) as [kr|];
      injection Hs as <- <-; eexists; (split; [reflexivity|]).
    + intros k. rewrite !balance_of_insert. rewrite <- ?Hsame.
      repeat destruct (decide _); reflexivity.
    + intros k. rewrite !balance_of_insert. rewrite <- ?Hsame.
      repeat destruct (decide _); reflexivity.
Qed.

Lemma spend_all_same (p : list value) (b b' b1 : gmap key Z) (r : result bool) :
  spend_all p b = (r, b1) ->
  same_balances b b' ->
  exists b1', spend_all p b' = (r, b1') /\ same_balances b1 b1'.
Proof.
  revert b b'. induction p as [|tx p IH]; intros b b' Hs Hsame.
  - injection Hs as <- <-. exists b'. split; [reflexivity | exact Hsame].
  - cbn [spend_all] in *. unfold bind in *.
    destruct (spend tx b) as [r0 b0] eqn:Htx.
    destruct (spend_same tx b b' b0 r0 Htx Hsame) as (b0' & Htx' & Hsame0).
    rewrite Htx'.
    destruct r0 as [[|]| |];
      try (injection Hs as <- <-; exists b0'; split; [reflexivity | exact Hsame0]).
    eapply IH; eassumption.
Qed.

Lemma spend_all_credit_debit (p : list value) (b b1 b' : gmap key Z) :
  spend_all p b = (Ret true, b1) ->
  same_balances b b' ->
  exists b1', for_each p credit_debit b' = (Ret tt, b1') /\ same_balances b1 b1'.
Proof.
  revert b b'. induction p as [|tx p IH]; intros b b' Hs Hsame.
  - injection Hs as <-. exists b'. split; [reflexivity | exact Hsame].
  - apply spend_all_cons_true in Hs as (b0 & Htx & Hrest).
    destruct (spend_credit_debit tx b b0 b' Htx Hsame) as (b0' & Hcd & Hsame0 & _).
    destruct (IH b0 b0' Hrest Hsame0) as (b1' & Hfe & Hsame1).
    exists b1'. split; [|exact Hsame1].
    cbn [for_each]. unfold bind. rewrite Hcd. exact Hfe.
Qed.

Lemma validate_blocks_app (c c' : list Block) (b b2 : gmap key Z) :
  validate_blocks c b = (Ret true, b2) ->
  validate_blocks (c ++ c') b = validate_blocks c' b2.
Proof.
  revert b. induction c as [|block c IH]; intros b Hv.
  - injection Hv as <-. reflexivity.
  - cbn [app validate_blocks] in *.
    unfold bind at 1 in Hv. unfold gets at 1 in Hv. unfold bind at 1 in Hv.
    unfold bind at 1. unfold gets at 1. unfold bind at 1.
    unfold local in *. unfold id in *.
    destruct (spend_all (transactions block) b) as [[[|]| |] b1];
      cbn [fst snd] in *; try discriminate Hv.
    unfold bind, modify in *. apply IH, Hv.
Qed.

(** X12.  The check that admits a received block keeps the chain acceptable
    to [_validate_chain_balances]: when the chain passes that validation,
    the hash that the block names as its parent is carried by no block
    before the last one, and the replay of the block on the balances at its
    parent finds every transfer affordable, then the chain extended by the
    block passes the validation too. *)
Theorem accepted_block_keeps_chain_affordable (s : Node) (data : Block) :
  _validate_chain_balances (chain s) = Ret true ->
  Forall (fun b => hash b <> previous_hash data) (removelast (chain s)) ->
  fst (parent_replay data s) = Ret true ->
  _validate_chain_balances (chain s ++ [data]) = Ret true.
Proof.
  unfold _validate_chain_balances. intros Hv Huniq Hp.
  destruct (validate_blocks (chain s) initial_balances) as [r b2] eqn:Hvb.
  cbn [fst] in Hv. subst r.
  rewrite (validate_blocks_app _ _ _ _ Hvb).
  apply parent_replay_state in Hp as [Hp Hfree].
  unfold parent_replay in Hp. unfold bind at 1 in Hp.
  rewrite get_balances_up_to_block_free in Hp by exact Hfree.
  rewrite replay_up_to_tip in Hp by exact Huniq.
  rewrite replay_chain_flat in Hp.
  apply validate_blocks_flat in Hvb.
  destruct (spend_all_credit_debit _ _ _ initial_balances Hvb (fun k => eq_refl))
    as (bal & Hfe & Hsame).
  rewrite Hfe in Hp. unfold bind, local, ret in Hp.
  destruct (spend_all (transactions data) bal) as [r b3] eqn:Hsp.
  destruct (spend_all_same _ _ b2 _ _ Hsp (same_balances_sym _ _ Hsame))
    as (b3' & Hsp' & _).
  cbn [validate_blocks]. unfold bind, gets, local, modify, ret, id.
  rewrite Hsp'.
  destruct r as [[|]| |]; cbn [fst snd] in *; try discriminate Hp. reflexivity.
Qed.

Lemma accepted_block_keeps_chain_affordable_witness :
  _validate_chain_balances (chain fresh_node ++ [reward_block]) = Ret true.
Proof.
  apply (accepted_block_keeps_chain_affordable fresh_node reward_block).
  - vm_compute. reflexivity.
  - vm_compute. apply Forall_nil_2.
  - vm_compute. reflexivity.
Defined.

(** A transfer that the affordability step refuses comes from a user, and
    the step leaves the balances as they were. *)
Lemma spend_false (tx : value) (b b1 : gmap key Z) :
  spend tx b = (Ret false, b1) -> b1 = b /\ is_user_transfer tx = true.
Proof.
  unfold spend, is_user_transfer, py_get, hashable, int_of.
  unfold bind, ret, raise, gets, modify.
  destruct tx as [| | | | |kvs]; try discriminate.
  destruct (py_eq (default VNone (dict_get kvs "type")) (VStr TX_TRANSFER_ECASH));
    [|discriminate].
  destruct (py_eq (default VNone (dict_get kvs "from")) (VStr SYSTEM_ACCOUNT));
    cbn [negb andb];
    destruct (hash_key (default VNone (dict_get kvs "from"))) as [ks|];
    try discriminate;
    destruct (as_int (default (VInt 0) (dict_get kvs "amount"))) as [a|];
    try discriminate;
    try destruct (balance_of b ks <? a);
    try (destruct (hash_key (default VNone (dict_get kvs "to"))); discriminate).
  intros [= <-]. split; reflexivity.
Qed.

Lemma select_affordable_spec (txs sel : list value) (b b' : gmap key Z) :
  select_affordable txs b = (Ret sel, b') ->
  spend_all sel b = (Ret true, b') /\ sublist sel txs /\
  (forall tx, In tx txs -> is_user_transfer tx = false -> In tx sel).
Proof.
  revert sel b b'. induction txs as [|tx txs IH]; intros sel b b' Hs.
  - injection Hs as <- <-. split_and!; [reflexivity | constructor | intros ? []].
  - cbn [select_affordable] in Hs. unfold bind at 1 in Hs.
    destruct (spend tx b) as [[ok| |] b1] eqn:Htx; try discriminate Hs.
    unfold bind, ret in Hs.
    destruct (select_affordable txs b1) as [[kept| |] b2] eqn:Hrest;
      try discriminate Hs.
    injection Hs as <- <-.
    destruct (IH kept b1 b2 Hrest) as (Hall & Hsub & Hin).
    destruct ok.
    + split_and!.
      * cbn [spend_all]. unfold bind. rewrite Htx. exact Hall.
      * constructor. exact Hsub.
      * intros t [<-|Ht] Hu; [left; reflexivity | right; apply Hin; assumption].
    + apply spend_false in Htx as [-> Hu]. split_and!.
      * exact Hall.
      * constructor. exact Hsub.
      * intros t [<-|Ht] Hu'; [congruence | apply Hin; assumption].
Qed.

Lemma validated_replay_non_negative_witness :
  exists b, for_each (txs_of (chain paid_node)) credit_debit initial_balances
            = (Ret tt, b) /\ non_negative b.
Proof.
  apply (validated_replay_non_negative (chain paid_node) (txs_of (chain paid_node)) []).
  - vm_compute. reflexivity.
  - vm_compute. repeat constructor.
  - symmetry. apply app_nil_r.
Defined.

(** * Frames of the node operations *)

Section Frames.
Context {X : Type} (f : Node -> X).

Lemma preserves_ret {A : Type} (a : A) : preserves f (ret a).
Proof. intros s. reflexivity. Qed.

Lemma preserves_raise {A : Type} (e : exn) : preserves f (@raise Node A e).
Proof. intros s. reflexivity. Qed.

Lemma preserves_gets {A : Type} (g : Node -> A) : preserves f (gets g).
Proof. intros s. reflexivity. Qed.

Lemma preserves_lift {A : Type} (r : result A) : preserves f (lift r).
Proof. intros s. reflexivity. Qed.

Lemma preserves_local {L A : Type} (m : M L A) (init : L) :
  preserves f (local m init).
Proof. intros s. unfold local. destruct (m init) as [[]]; reflexivity. Qed.

Lemma preserves_modify (g : Node -> Node) :
  (forall s, f (g s) = f s) -> preserves f (modify g).
Proof. intros Hg s. apply Hg. Qed.

Lemma preserves_bind {A B : Type} (m : M Node A) (k : A -> M Node B) :
  preserves f m -> (forall a, preserves f (k a)) -> preserves f (bind m k).
Proof.
  intros Hm Hk s. unfold bind. specialize (Hm s).
  destruct (m s) as [[a| |] s1]; cbn [snd] in *; [|exact Hm..].
  rewrite Hk. exact Hm.
Qed.

Lemma preserves_for_each {A : Type} (l : list A) (body : A -> M Node unit) :
  (forall x, preserves f (body x)) -> preserves f (for_each l body).
Proof.
  intros Hb. induction l as [|x l IH]; [apply preserves_ret|].
  cbn [for_each]. apply preserves_bind; [apply Hb | intros _; exact IH].
Qed.

Hypothesis Hf : lock_free_component f.

Lemma preserves_with_lock {A : Type} (body : M Node A) :
  preserves f body -> preserves f (with_lock body).
Proof.
  destruct Hf as (Hl & _ & _).
  intros Hb s. unfold with_lock. destruct (lock_held s); [reflexivity|].
  specialize (Hb (set_lock true s)).
  destruct (body (set_lock true s)) as [[]]; cbn [snd] in *;
    rewrite ?Hl; rewrite Hb; apply Hl.
Qed.

Lemma preserves_datetime_now : preserves f datetime_now.
Proof. destruct Hf as (_ & _ & Ht). intros s. apply Ht. Qed.

Lemma preserves_broadcast (msg_type : Z) (data : payload) (ex : option addr) :
  preserves f (broadcast msg_type data ex).
Proof. destruct Hf as (_ & He & _). intros s. apply He. Qed.

Lemma preserves_send_message (sock : addr) (msg_type : Z) (data : payload) :
  preserves f (send_message sock msg_type data).
Proof. destruct Hf as (_ & He & _). intros s. apply He. Qed.

Lemma preserves_sender_can_pay (tx : value) : preserves f (sender_can_pay tx).
Proof. intros s. rewrite sender_can_pay_state. reflexivity. Qed.

Lemma preserves_get_balances_up_to_block (h : string) :
  preserves f (get_balances_up_to_block h).
Proof.
  unfold get_balances_up_to_block.
  apply preserves_bind; [|intros; apply preserves_ret].
  apply preserves_with_lock.
  apply preserves_bind; [apply preserves_gets | intros; apply preserves_local].
Qed.

Lemma preserves_new_block_valid (data : Block) : preserves f (new_block_valid data).
Proof.
  unfold new_block_valid, request_chain_from_peers.
  apply preserves_bind; [apply preserves_gets|]. intros c.
  repeat match goal with
         | |- preserves f (if ?b then _ else _) => destruct b
         | |- preserves f (ret _) => apply preserves_ret
         | |- preserves f (bind _ _) => apply preserves_bind; [|intros]
         | |- preserves f (broadcast _ _ _) => apply preserves_broadcast
         | |- preserves f (get_balances_up_to_block _) =>
             apply preserves_get_balances_up_to_block
         | |- preserves f (local _ _) => apply preserves_local
         end.
Qed.
End Frames.

Ltac step_bind :=
  match goal with
  | |- context [bind ?m ?k ?s] =>
      change (bind m k s) with
        (match m s with
         | (Ret a, s') => k a s'
         | (Raise e, s') => (Raise e, s')
         | (Deadlock, s') => (Deadlock, s')
         end);
      cbv beta
  end.

Lemma chain_lock_free : lock_free_component chain.
Proof. split_and!; reflexivity. Qed.

Lemma pending_lock_free : lock_free_component pending_transactions.
Proof. split_and!; reflexivity. Qed.

(** The pool after the [NewTransaction] branch: as it was, or with the
    transaction appended, and then no pooled transaction had its encoding. *)
Lemma process_new_transaction_cases (tx : value) (source_addr : addr) (s : Node) :
  let s' := snd (_process_message (NewTransaction tx) source_addr s) in
  chain s' = chain s /\
  (pending_transactions s' = pending_transactions s \/
   (pooled (json_dumps tx) (pending_transactions s) = false /\
    pending_transactions s' = pending_transactions s ++ [tx])).
Proof.
  cbn zeta. cbn [_process_message].
  destruct (valid_tx_format tx); [|split; [reflexivity | left; reflexivity]].
  unfold with_lock. destruct (lock_held s); [split; [reflexivity | left; reflexivity]|].
  cbv beta iota zeta delta [bind gets].
  cbn [pending_transactions set_lock].
  destruct (pooled (json_dumps tx) (pending_transactions s)) eqn:Hp; cbn [negb].
  { split; [reflexivity | left; reflexivity]. }
  pose proof (sender_can_pay_state tx (set_lock true s)) as Hst.
  destruct (sender_can_pay tx (set_lock true s)) as [r s1].
  cbn [snd] in Hst. subst s1.
  destruct r as [[|]| |]; cbn; (split; [reflexivity|]); auto.
Qed.

(** The same for [add_transaction_local], for the transaction as pooled. *)
Lemma add_transaction_local_cases (tx : value) (s : Node) :
  let s' := snd (add_transaction_local tx s) in
  chain s' = chain s /\
  (pending_transactions s' = pending_transactions s \/
   exists tx',
     pooled (json_dumps tx') (pending_transactions s) = false /\
     pending_transactions s' = pending_transactions s ++ [tx']).
Proof.
  cbn zeta. unfold add_transaction_local.
  destruct (valid_tx_format tx); cbn [negb]; [|split; [reflexivity | left; reflexivity]].
  step_bind.
  pose proof (sender_can_pay_state tx s) as Hst.
  destruct (sender_can_pay tx s) as [r s1]. cbn [snd] in Hst. subst s1.
  destruct r as [[|]| |]; try (split; [reflexivity | left; reflexivity]).
  assert (Hlock : forall (tx' : value) (s1 : Node),
             chain s1 = chain s ->
             pending_transactions s1 = pending_transactions s ->
             let s' :=
               snd (with_lock
                      (let tx_repr := json_dumps tx' in
                       let* pend := gets pending_transactions in
                       if negb (pooled tx_repr pend) then
                         let* _ := modify (set_pending (pend ++ [tx'])) in
                         broadcast MSG_TYPE_NEW_TRANSACTION (PTx tx') None
                       else ret tt) s1) in
             chain s' = chain s /\
             (pending_transactions s' = pending_transactions s \/
              exists tx',
                pooled (json_dumps tx') (pending_transactions s) = false /\
                pending_transactions s' = pending_transactions s ++ [tx'])).
  { intros tx' s1 Hc Hp. cbn zeta. unfold with_lock.
    destruct (lock_held s1); [split; [exact Hc | left; exact Hp]|].
    cbv beta iota zeta delta [bind gets]. cbn [pending_transactions set_lock].
    rewrite Hp.
    destruct (pooled (json_dumps tx') (pending_transactions s)) eqn:Hpool; cbn.
    - split; [exact Hc | left; exact Hp].
    - split; [exact Hc | right; exists tx'; split; [exact Hpool | reflexivity]]. }
  destruct tx as [| | | | |kvs]; try (step_bind; apply Hlock; reflexivity).
  destruct (dict_has kvs "timestamp"); [step_bind; apply Hlock; reflexivity|].
  step_bind. step_bind. apply Hlock; reflexivity.
Qed.

(** The node after the [NewBlock] branch. *)
Lemma process_new_block_cases (data : Block) (source_addr : addr) (s : Node) :
  let s' := snd (_process_message (NewBlock data) source_addr s) in
  (chain s' = chain s /\ pending_transactions s' = pending_transactions s) \/
  (fst (new_block_valid data s) = Ret true /\
   chain s' = chain s ++ [data] /\
   pending_transactions s' = purge (transactions data) (pending_transactions s)).
Proof.
  cbn zeta.
  destruct (new_block_valid data s) as [r s1] eqn:Hv.
  destruct r as [[|]| |].
  - right. split; [reflexivity|].
    rewrite process_new_block_accepted by (rewrite Hv; reflexivity).
    split; reflexivity.
  - left. rewrite (process_new_block_rejected _ _ _ _ Hv). cbn [snd].
    pose proof (preserves_new_block_valid chain chain_lock_free data s) as Hc.
    pose proof (preserves_new_block_valid pending_transactions pending_lock_free data s)
      as Hp.
    rewrite Hv in Hc, Hp. split; assumption.
  - left. cbn [_process_message]. unfold bind. rewrite Hv. cbn [snd].
    pose proof (preserves_new_block_valid chain chain_lock_free data s) as Hc.
    pose proof (preserves_new_block_valid pending_transactions pending_lock_free data s)
      as Hp.
    rewrite Hv in Hc, Hp. split; assumption.
  - left. cbn [_process_message]. unfold bind. rewrite Hv. cbn [snd].
    pose proof (preserves_new_block_valid chain chain_lock_free data s) as Hc.
    pose proof (preserves_new_block_valid pending_transactions pending_lock_free data s)
      as Hp.
    rewrite Hv in Hc, Hp. split; assumption.
Qed.

(** What a block that passes the checks of the [NewBlock] branch carries. *)
Lemma new_block_valid_true (data : Block) (s : Node) (latest : Block) :
  get_latest_block (chain s) = Some latest ->
  fst (new_block_valid data s) = Ret true ->
  index data = index latest + 1 /\ previous_hash data = hash latest /\ sealed data.
Proof.
  intros Hl Hv. rewrite new_block_valid_eq, Hl in Hv.
  destruct (Z.eqb_spec (index data) (index latest + 1)) as [Hi|];
    cbn [negb] in Hv; [|discriminate Hv].
  destruct (String.eqb_spec (previous_hash data) (hash latest)) as [Hp|];
    cbn [negb] in Hv; [|discriminate Hv].
  destruct (String.eqb_spec (hash data) (calculate_hash data)) as [Hh|];
    cbn [negb] in Hv; [|discriminate Hv].
  split_and!; assumption.
Qed.

Lemma process_send_chain_state (data : list Block) (source_addr : addr) (s : Node) :
  snd (_process_message (SendChain data) source_addr s)
  = snd (resolve_conflicts data s).
Proof.
  cbn [_process_message]. unfold bind.
  destruct (resolve_conflicts data s) as [[]]; reflexivity.
Qed.

Lemma process_request_chain_state (source_addr : addr) (s : Node) :
  chain (snd (_process_message RequestChain source_addr s)) = chain s /\
  pending_transactions (snd (_process_message RequestChain source_addr s))
  = pending_transactions s.
Proof.
  split.
  - apply (preserves_with_lock chain chain_lock_free).
    apply preserves_bind; [apply preserves_gets|]. intros c.
    apply preserves_send_message, chain_lock_free.
  - apply (preserves_with_lock pending_transactions pending_lock_free).
    apply preserves_bind; [apply preserves_gets|]. intros c.
    apply preserves_send_message, pending_lock_free.
Qed.

(** X13.  No message makes the chain of a node invalid or shorter: when
    [is_chain_valid] accepts the chain before [_process_message], it
    accepts the chain afterwards, whatever the message and whatever the
    outcome of the call, and the chain has not lost length.
    [add_transaction_local] leaves the chain alone. *)
Theorem process_message_keeps_chain_valid (msg : message) (source_addr : addr)
    (tx : value) (s : Node) :
  is_chain_valid (chain s) None = true ->
  is_chain_valid (chain (snd (_process_message msg source_addr s))) None = true /\
  (length (chain s) <= length (chain (snd (_process_message msg source_addr s))))%nat /\
  chain (snd (add_transaction_local tx s)) = chain s.
Proof.
  intros Hv. split_and!; [| |apply add_transaction_local_cases].
  - destruct msg as [data|data| |data].
    + destruct (process_new_transaction_cases data source_addr s) as [-> _]. exact Hv.
    + destruct (process_new_block_cases data source_addr s)
        as [[-> _]|(Hok & -> & _)]; [exact Hv|].
      pose proof Hv as Hs. apply is_chain_valid_self in Hs.
      destruct Hs as (first & rest & Hc & H0 & Hp0 & Hseal & Hl).
      destruct (get_latest_block (chain s)) as [latest|] eqn:Hlast;
        [|apply last_None in Hlast; rewrite Hc in Hlast; discriminate Hlast].
      destruct (new_block_valid_true data s latest Hlast Hok) as (Hi & Hp & Hsd).
      apply is_chain_valid_self. exists first, (rest ++ [data]). split_and!.
      * rewrite Hc. reflexivity.
      * exact H0.
      * exact Hp0.
      * apply Forall_app. split; [exact Hseal|].
        apply Forall_cons_2; [exact Hsd | apply Forall_nil_2].
      * eapply linked_snoc; eauto.
    + destruct (process_request_chain_state source_addr s) as [-> _]. exact Hv.
    + rewrite process_send_chain_state.
      destruct (lock_held s) eqn:Hlock.
      { unfold resolve_conflicts. rewrite with_lock_held by exact Hlock. exact Hv. }
      destruct (resolve_conflicts_replaces data s Hlock) as (-> & _ & _).
      unfold replaces.
      destruct (length (chain s) <? length data)%nat; [|exact Hv].
      destruct (is_chain_valid data None) eqn:Hd; [|exact Hv].
      destruct (_validate_chain_balances data) as [[|]| |]; cbn [andb];
        [exact Hd | exact Hv..].
  - destruct msg as [data|data| |data].
    + destruct (process_new_transaction_cases data source_addr s) as [-> _]. lia.
    + destruct (process_new_block_cases data source_addr s)
        as [[-> _]|(_ & -> & _)]; [lia|].
      rewrite length_app. lia.
    + destruct (process_request_chain_state source_addr s) as [-> _]. lia.
    + rewrite process_send_chain_state.
      destruct (lock_held s) eqn:Hlock.
      { unfold resolve_conflicts. rewrite with_lock_held by exact Hlock. cbn [snd]. lia. }
      destruct (resolve_conflicts_replaces data s Hlock) as (-> & _ & _).
      unfold replaces.
      destruct (Nat.ltb_spec (length (chain s)) (length data)); cbn [andb]; [|lia].
      destruct (is_chain_valid data None); cbn [andb]; [|lia].
      destruct (_validate_chain_balances data) as [[|]| |]; lia.
Qed.

Lemma process_message_keeps_chain_valid_witness :
  is_chain_valid
    (chain (snd (_process_message (NewBlock reward_block) peer fresh_node))) None
  = true /\
  (length (chain fresh_node)
   <= length (chain (snd (_process_message (NewBlock reward_block) peer fresh_node))))%nat
  /\ chain (snd (add_transaction_local registration fresh_node)) = chain fresh_node.
Proof.
  apply (process_message_keeps_chain_valid (NewBlock reward_block) peer registration
           fresh_node).
  vm_compute. reflexivity.
Defined.

Lemma pooled_false (tx_repr : string) (pool : list value) :
  pooled tx_repr pool = false -> tx_repr ∉ map json_dumps pool.
Proof.
  intros Hp Hin. apply list_elem_of_In, in_map_iff in Hin.
  destruct Hin as (tx & Heq & Hin).
  assert (Ht : pooled tx_repr pool = true); [|congruence].
  unfold pooled. apply existsb_exists. exists tx. split; [exact Hin|].
  apply String.eqb_eq, Heq.
Qed.

Lemma NoDup_map_filter {A B : Type} (f : A -> B) (p : A -> bool) (l : list A) :
  NoDup (map f l) -> NoDup (map f (List.filter p l)).
Proof.
  induction l as [|x l IH]; intros Hn; [exact Hn|].
  cbn [map] in Hn. apply NoDup_cons in Hn as [Hx Hn].
  cbn [List.filter]. destruct (p x); [|apply IH, Hn].
  cbn [map]. apply NoDup_cons. split; [|apply IH, Hn].
  intros Hin. apply Hx.
  apply list_elem_of_In, in_map_iff in Hin. destruct Hin as (y & Hy & Hin).
  apply filter_In in Hin as [Hin _].
  apply list_elem_of_In, in_map_iff. exists y. split; assumption.
Qed.

Lemma NoDup_map_snoc (pool : list value) (tx : value) :
  NoDup (map json_dumps pool) ->
  pooled (json_dumps tx) pool = false ->
  NoDup (map json_dumps (pool ++ [tx])).
Proof.
  intros Hn Hp. rewrite map_app. apply NoDup_app. split_and!.
  - exact Hn.
  - intros x Hx Hin. cbn [map] in Hin. apply list_elem_of_singleton in Hin. subst x.
    apply (pooled_false _ _ Hp Hx).
  - cbn [map]. apply NoDup_singleton.
Qed.

(** X14.  The pending pool never comes to hold two transactions of the same
    canonical encoding: a pool without duplicates is without duplicates
    after [_process_message], whatever the message, and after
    [add_transaction_local], whatever the outcome of the call. *)
Theorem pool_stays_duplicate_free (msg : message) (source_addr : addr)
    (tx : value) (s : Node) :
  NoDup (map json_dumps (pending_transactions s)) ->
  NoDup (map json_dumps
           (pending_transactions (snd (_process_message msg source_addr s)))) /\
  NoDup (map json_dumps (pending_transactions (snd (add_transaction_local tx s)))).
Proof.
  intros Hn. split.
  - destruct msg as [data|data| |data].
    + destruct (process_new_transaction_cases data source_addr s)
        as [_ [->|[Hp ->]]]; [exact Hn | apply NoDup_map_snoc; assumption].
    + destruct (process_new_block_cases data source_addr s)
        as [[_ ->]|(_ & _ & ->)]; [exact Hn|].
      unfold purge. apply NoDup_map_filter, Hn.
    + destruct (process_request_chain_state source_addr s) as [_ ->]. exact Hn.
    + rewrite process_send_chain_state.
      destruct (lock_held s) eqn:Hlock.
      { unfold resolve_conflicts. rewrite with_lock_held by exact Hlock. exact Hn. }
      destruct (resolve_conflicts_replaces data s Hlock) as (_ & -> & _).
      destruct (replaces data s); [apply NoDup_map_filter, Hn | exact Hn].
  - destruct (add_transaction_local_cases tx s) as [_ [->|(tx' & Hp & ->)]];
      [exact Hn | apply NoDup_map_snoc; assumption].
Qed.

Lemma pool_stays_duplicate_free_witness :
  NoDup (map json_dumps
           (pending_transactions
              (snd (_process_message (NewTransaction registration) peer
                      node_with_registration)))) /\
  NoDup (map json_dumps
           (pending_transactions
              (snd (add_transaction_local unknown_kind node_with_registration)))).
Proof.
  apply (pool_stays_duplicate_free (NewTransaction registration) peer unknown_kind
           node_with_registration).
  vm_compute. apply NoDup_singleton.
Defined.

(** * The canonical encoding and the order of fields *)

Lemma string_leb_trans (s t u : string) :
  String.leb s t = true -> String.leb t u = true -> String.leb s u = true.
Proof.
  unfold String.leb. revert t u.
  induction s as [|a s IH]; intros [|b t] [|c u]; cbn [String.compare];
    try congruence.
  unfold Ascii.compare.
  destruct (N.compare_spec (N_of_ascii a) (N_of_ascii b)) as [Hab|Hab|Hab];
    destruct (N.compare_spec (N_of_ascii b) (N_of_ascii c)) as [Hbc|Hbc|Hbc];
    destruct (N.compare_spec (N_of_ascii a) (N_of_ascii c)) as [Hac|Hac|Hac];
    try congruence; try lia.
  apply IH.
Qed.

Lemma insert_item_perm (x : string * string) (l : list (string * string)) :
  insert_item x l ≡ₚ x :: l.
Proof.
  induction l as [|y l IH]; [reflexivity|].
  cbn [insert_item]. destruct (key_le x y); [reflexivity|].
  rewrite IH. apply Permutation_swap.
Qed.

Lemma sort_items_perm (l : list (string * string)) : sort_items l ≡ₚ l.
Proof.
  induction l as [|x l IH]; [reflexivity|].
  unfold sort_items in *. cbn [foldr]. rewrite insert_item_perm, IH. reflexivity.
Qed.

Lemma insert_item_sorted (x : string * string) (l : list (string * string)) :
  StronglySorted (fun a b => key_le a b = true) l ->
  StronglySorted (fun a b => key_le a b = true) (insert_item x l).
Proof.
  induction 1 as [|y l Hl IH Hy]; [repeat constructor|].
  cbn [insert_item]. destruct (key_le x y) eqn:Hxy.
  - constructor; [constructor; assumption|].
    constructor; [exact Hxy|].
    eapply Forall_impl; [exact Hy|]. intros z Hz. cbn beta in *.
    unfold key_le in *. eapply string_leb_trans; eassumption.
  - constructor; [exact IH|].
    rewrite insert_item_perm. constructor; [|exact Hy].
    unfold key_le in *. destruct (String.leb_total (fst x) (fst y)); congruence.
Qed.

Lemma sort_items_sorted (l : list (string * string)) :
  StronglySorted (fun a b => key_le a b = true) (sort_items l).
Proof.
  induction l as [|x l IH]; [constructor|].
  unfold sort_items in *. cbn [foldr]. apply insert_item_sorted, IH.
Qed.

Lemma NoDup_fst_inj {A B : Type} (l : list (A * B)) (x y : A * B) :
  NoDup (map fst l) -> x ∈ l -> y ∈ l -> fst x = fst y -> x = y.
Proof.
  induction l as [|z l IH]; intros Hn Hx Hy Hxy; [inversion Hx|].
  cbn [map] in Hn. apply NoDup_cons in Hn as [Hz Hn].
  apply elem_of_cons in Hx as [->|Hx]; apply elem_of_cons in Hy as [->|Hy].
  - reflexivity.
  - exfalso. apply Hz. rewrite Hxy. apply list_elem_of_In, in_map, list_elem_of_In, Hy.
  - exfalso. apply Hz. rewrite <- Hxy. apply list_elem_of_In, in_map, list_elem_of_In, Hx.
  - apply IH; assumption.
Qed.

Lemma sort_items_permutation (l l' : list (string * string)) :
  l ≡ₚ l' -> NoDup (map fst l) -> sort_items l = sort_items l'.
Proof.
  intros Hp Hn.
  apply (StronglySorted_unique_strong (fun a b => key_le a b = true)).
  - intros x y Hx Hy Hxy Hyx.
    rewrite sort_items_perm in Hx. rewrite sort_items_perm, <- Hp in Hy.
    apply (NoDup_fst_inj l); try assumption.
    unfold key_le in *. apply String.leb_antisym; assumption.
  - apply sort_items_sorted.
  - apply sort_items_sorted.
  - rewrite !sort_items_perm. exact Hp.
Qed.

Lemma json_dumps_field_order (kvs kvs' : list (string * value)) :
  kvs ≡ₚ kvs' -> NoDup (map fst kvs) ->
  json_dumps (VDict kvs) = json_dumps (VDict kvs').
Proof.
  intros Hp Hn.
  change (json_dumps (VDict kvs)) with
    ("{" +:+
     join ", "
       (map (fun kv => json_str (fst kv) +:+ ": " +:+ snd kv)
          (sort_items (map (fun kv => (fst kv, json_dumps (snd kv))) kvs)))
     +:+ "}").
  change (json_dumps (VDict kvs')) with
    ("{" +:+
     join ", "
       (map (fun kv => json_str (fst kv) +:+ ": " +:+ snd kv)
          (sort_items (map (fun kv => (fst kv, json_dumps (snd kv))) kvs')))
     +:+ "}").
  rewrite (sort_items_permutation _
             (map (fun kv => (fst kv, json_dumps (snd kv))) kvs')).
  - reflexivity.
  - apply Permutation_map, Hp.
  - rewrite map_map. cbn [fst]. exact Hn.
Qed.

(** X15.  The duplicate test does not see the order of the fields: two
    dicts with the same items in a different order have the same canonical
    encoding, so when one is in the pool the other is dropped, whether it
    comes from a peer or, carrying a timestamp, from the local user. *)
Theorem duplicate_test_ignores_field_order (kvs kvs' : list (string * value))
    (source_addr : addr) (s : Node) :
  kvs ≡ₚ kvs' ->
  NoDup (map fst kvs) ->
  In (VDict kvs) (pending_transactions s) ->
  json_dumps (VDict kvs') = json_dumps (VDict kvs) /\
  pending_transactions (snd (_process_message (NewTransaction (VDict kvs')) source_addr s))
  = pending_transactions s /\
  (dict_has kvs' "timestamp" = true ->
   pending_transactions (snd (add_transaction_local (VDict kvs') s))
   = pending_transactions s).
Proof.
  intros Hp Hn Hin.
  assert (He : json_dumps (VDict kvs') = json_dumps (VDict kvs))
    by (symmetry; apply json_dumps_field_order; assumption).
  assert (Hpool : pooled (json_dumps (VDict kvs')) (pending_transactions s) = true).
  { unfold pooled. apply existsb_exists. exists (VDict kvs).
    split; [exact Hin|]. apply String.eqb_eq. symmetry. exact He. }
  split_and!.
  - exact He.
  - apply process_new_transaction_duplicate, Hpool.
  - intros Hts. apply add_transaction_local_duplicate; assumption.
Qed.

Lemma duplicate_test_ignores_field_order_witness :
  json_dumps reordered_registration = json_dumps registration /\
  pending_transactions
    (snd (_process_message (NewTransaction reordered_registration) peer
            node_with_registration))
  = pending_transactions node_with_registration /\
  (dict_has
     [("timestamp", VStr "2024-05-01 10:02:00.000000");
      ("registered_by", VStr "dr_alice"); ("patient_name", VStr "Dana");
      ("type", VStr "PATIENT_REGISTRATION"); ("patient_id", VStr "p-001")]
     "timestamp" = true ->
   pending_transactions (snd (add_transaction_local reordered_registration
                                node_with_registration))
   = pending_transactions node_with_registration).
Proof.
  apply (duplicate_test_ignores_field_order
           [("type", VStr "PATIENT_REGISTRATION"); ("patient_id", VStr "p-001");
            ("patient_name", VStr "Dana"); ("registered_by", VStr "dr_alice");
            ("timestamp", VStr "2024-05-01 10:02:00.000000")]).
  - apply NoDup_Permutation.
    + apply NoDup_ListNoDup. vm_compute.
      repeat (constructor; [intros H; repeat destruct H as [H|H]; try discriminate H; exact H|]).
      constructor.
    + apply NoDup_ListNoDup. vm_compute.
      repeat (constructor; [intros H; repeat destruct H as [H|H]; try discriminate H; exact H|]).
      constructor.
    + intros x. rewrite !list_elem_of_In. cbn [In]. tauto.
  - apply NoDup_ListNoDup. vm_compute.
    repeat (constructor; [intros H; repeat destruct H as [H|H]; try discriminate H; exact H|]).
    constructor.
  - vm_compute. left. reflexivity.
Defined.

(** * What admission does not check *)

(** X16.  Admission compares a transfer with the balance that the chain
    confirms and never with the transfers that wait in the pool: when two
    transactions with different encodings are each admissible on the state
    of the node, submitting one and then the other pools both, also when
    their amounts together exceed the balance of the sender. *)
Theorem pending_spends_are_not_counted (s : Node) (kvs1 kvs2 : list (string * value)) :
  lock_held s = false ->
  has_timestamp (VDict kvs1) = true ->
  has_timestamp (VDict kvs2) = true ->
  admissible s (VDict kvs1) ->
  admissible s (VDict kvs2) ->
  pooled (json_dumps (VDict kvs1)) (pending_transactions s) = false ->
  pooled (json_dumps (VDict kvs2)) (pending_transactions s) = false ->
  json_dumps (VDict kvs1) <> json_dumps (VDict kvs2) ->
  pending_transactions
    (snd (add_transaction_local (VDict kvs2)
            (snd (add_transaction_local (VDict kvs1) s))))
  = pending_transactions s ++ [VDict kvs1; VDict kvs2].
Proof.
  intros Hfree Ht1 Ht2 Ha1 Ha2 Hp1 Hp2 Hne.
  apply admissible_iff in Ha1 as [Hv1 Hc1]. apply admissible_iff in Ha2 as [Hv2 Hc2].
  rewrite (add_transaction_local_stamped_state s kvs1 Hfree Ht1).
  rewrite Hv1, Hc1, Hp1.
  rewrite add_transaction_local_pool by exact Hfree.
  rewrite Hv2.
  replace (pay_check _ kvs2) with (pay_check s kvs2) by reflexivity.
  rewrite Hc2. unfold stamped. rewrite Ht2.
  cbn [pending_transactions emit set_pending].
  rewrite pooled_app, Hp2. cbn [orb].
  apply String.eqb_neq in Hne. rewrite Hne.
  rewrite <- app_assoc. reflexivity.
Qed.

Lemma pending_spends_are_not_counted_witness :
  chain_balance paid_node (VStr "dr_alice") = Ret 500 /\
  pending_transactions
    (snd (add_transaction_local second_payment
            (snd (add_transaction_local first_payment paid_node))))
  = pending_transactions paid_node ++ [first_payment; second_payment].
Proof.
  split; [vm_compute; reflexivity|].
  apply (pending_spends_are_not_counted paid_node).
  - reflexivity.
  - reflexivity.
  - reflexivity.
  - apply admissible_iff. split; vm_compute; reflexivity.
  - apply admissible_iff. split; vm_compute; reflexivity.
  - reflexivity.
  - reflexivity.
  - vm_compute. intros H. discriminate H.
Defined.

(** X17.  A transfer that names the system account as its sender is
    admitted from any peer without any test of funds or of origin, whatever
    its amount, and the replay that validates blocks and chains never
    refuses it: it debits the system account, below zero if need be. *)
Theorem system_transfer_needs_no_funds (s : Node) (kvs : list (string * value))
    (recipient : value) (kr : key) (a : Z) (source_addr : addr) (b : gmap key Z) :
  lock_held s = false ->
  dict_get kvs "type" = Some (VStr TX_TRANSFER_ECASH) ->
  dict_get kvs "from" = Some (VStr SYSTEM_ACCOUNT) ->
  dict_get kvs "to" = Some recipient ->
  dict_get kvs "amount" = Some (VInt a) ->
  0 < a ->
  pooled (json_dumps (VDict kvs)) (pending_transactions s) = false ->
  hash_key recipient = Some kr ->
  kr <> KStr SYSTEM_ACCOUNT ->
  pending_transactions
    (snd (_process_message (NewTransaction (VDict kvs)) source_addr s))
  = pending_transactions s ++ [VDict kvs] /\
  fst (spend (VDict kvs) b) = Ret true /\
  balance_of (snd (spend (VDict kvs) b)) (KStr SYSTEM_ACCOUNT)
  = balance_of b (KStr SYSTEM_ACCOUNT) - a.
Proof.
  intros Hfree Hty Hfrom Hto Hamt Ha Hp Hkr Hne. split.
  - rewrite process_new_transaction_pool.
    + unfold valid_tx_format, dict_has. rewrite Hty, Hp. cbn [py_eq].
      rewrite String.eqb_refl. cbn [forallb]. rewrite Hfrom, Hto, Hamt.
      cbn [as_int andb negb]. replace (0 <? a) with true by (symmetry; lia).
      reflexivity.
    + exact Hfree.
    + unfold is_user_transfer. rewrite Hty, Hfrom. simpl_default.
      cbn [py_eq]. rewrite !String.eqb_refl. reflexivity.
  - unfold spend, py_get, hashable, int_of.
    cbv beta iota zeta delta [bind ret gets modify raise].
    rewrite Hty, Hfrom, Hamt, Hto. simpl_default.
    cbn [py_eq]. rewrite !String.eqb_refl. cbn [negb hash_key as_int].
    rewrite Hkr. cbn [fst snd]. split; [reflexivity|].
    rewrite !balance_of_insert.
    destruct (decide (kr = KStr SYSTEM_ACCOUNT)); [contradiction|].
    destruct (decide (KStr SYSTEM_ACCOUNT = KStr SYSTEM_ACCOUNT)); [reflexivity|].
    contradiction.
Qed.

Lemma system_transfer_needs_no_funds_witness :
  pending_transactions (snd (_process_message (NewTransaction minting) peer fresh_node))
  = pending_transactions fresh_node ++ [minting] /\
  fst (spend minting initial_balances) = Ret true /\
  balance_of (snd (spend minting initial_balances)) (KStr SYSTEM_ACCOUNT)
  = balance_of initial_balances (KStr SYSTEM_ACCOUNT) - 2000000.
Proof.
  apply (system_transfer_needs_no_funds fresh_node _ (VStr "pharm_charlie")
           (KStr "pharm_charlie")).
  - reflexivity.
  - reflexivity.
  - reflexivity.
  - reflexivity.
  - reflexivity.
  - lia.
  - reflexivity.
  - reflexivity.
  - intros H. discriminate H.
Defined.

(** * The selection loop of the miner *)

Lemma consider_spend (tx : value) (b b1 : gmap key Z) (ok : bool) :
  consider tx b = (Ret ok, b1) -> spend tx b = (Ret ok, b1).
Proof.
  unfold consider. step_bind.
  destruct (spend tx b) as [[[|]| |] b0]; try discriminate.
  - intros H. exact H.
  - step_bind. unfold py_item.
    destruct tx as [| | | | |kvs]; try discriminate.
    destruct (dict_get kvs "from"); [|discriminate].
    intros H. exact H.
Qed.

Lemma select_for_block_select_affordable (txs sel : list value) (b b' : gmap key Z) :
  select_for_block txs b = (Ret sel, b') -> select_affordable txs b = (Ret sel, b').
Proof.
  revert sel b b'. induction txs as [|tx txs IH]; intros sel b b' Hs; [exact Hs|].
  cbn [select_for_block select_affordable] in *.
  step_bind. revert Hs. step_bind.
  destruct (consider tx b) as [[ok| |] b1] eqn:Hc; try discriminate.
  apply consider_spend in Hc. rewrite Hc.
  step_bind. intros Hs. revert Hs. step_bind.
  destruct (select_for_block txs b1) as [[kept| |] b2] eqn:Hrest; try discriminate.
  rewrite (IH kept b1 b2 Hrest). intros H. exact H.
Qed.

(** X18.  The transactions that the selection loop of [mine_block_local]
    keeps pass, in their order and from the same balances, the replay that
    validates a block ([spend_all]) and leave the same balances; they are
    taken from the candidates in the candidates' order, and nothing but a
    transfer from a user is ever left out. *)
Theorem selected_batch_is_affordable (txs sel : list value) (b : gmap key Z) :
  fst (select_for_block txs b) = Ret sel ->
  spend_all sel b = (Ret true, snd (select_for_block txs b)) /\
  sublist sel txs /\
  (forall tx, In tx txs -> is_user_transfer tx = false -> In tx sel).
Proof.
  intros Hs. apply select_affordable_spec, select_for_block_select_affordable.
  destruct (select_for_block txs b) as [r b']. cbn [fst] in Hs. subst r.
  reflexivity.
Qed.

Lemma selected_batch_is_affordable_witness :
  spend_all [registration] initial_balances
  = (Ret true, snd (select_for_block [lab_payment; registration] initial_balances))
  /\ sublist [registration] [lab_payment; registration]
  /\ (forall tx, In tx [lab_payment; registration] ->
        is_user_transfer tx = false -> In tx [registration]).
Proof.
  apply (selected_batch_is_affordable [lab_payment; registration] [registration]).
  vm_compute. reflexivity.
Defined.

(** * Sessions *)

Lemma login_logged_in (username password : string) (current_user : value)
    (u r : string) :
  session_of current_user u r ->
  login username password current_user = (Ret current_user, current_user).
Proof.
  intros (kvs & name & -> & _ & _ & Hname).
  unfold login. step_bind. unfold gets, id.
  assert (Ht : truthy (VDict kvs) = true) by (destruct kvs; [discriminate Hname | reflexivity]).
  rewrite Ht. step_bind. unfold py_item. rewrite Hname. reflexivity.
Qed.

Lemma login_logged_out (username password : string) (current_user : value) :
  truthy current_user = false ->
  login username password current_user =
    match dict_get USER_TABLE username with
    | Some user_info =>
        if py_eq (default VNone (dict_get
                                   (match user_info with VDict kvs => kvs | _ => [] end)
                                   "password")) (VStr password)
        then
          let session :=
            VDict (dict_update [("username", VStr username)]
                     (match user_info with VDict kvs => kvs | _ => [] end)) in
          (Ret session, session)
        else (Ret VNone, VNone)
    | None => (Ret VNone, VNone)
    end.
Proof.
  intros Ht. unfold login. step_bind. unfold gets, id. rewrite Ht.
  unfold USER_TABLE. cbn [dict_get].
  repeat match goal with
         | |- context [String.eqb ?a username] => destruct (String.eqb a username)
         end;
    simpl_default; cbn [truthy]; try reflexivity;
    cbn [py_item dict_get String.eqb Ascii.eqb Bool.eqb];
    cbv beta iota zeta delta [bind ret unpack modify gets id];
    simpl_default;
    match goal with
    | |- context [py_eq ?a ?b] => destruct (py_eq a b)
    end; reflexivity.
Qed.

(** X19.  [login] never replaces the user who is logged in: with a session
    open it returns that session, whatever the name and the password
    given.  With no session open it opens one exactly for the three pairs
    of name and password of [USERS], for the user named and with the role
    that [USERS] gives; for any other pair it returns [None] and no
    session is open. *)
Theorem login_outcome (username password : string) (current_user : value) :
  (forall u r, session_of current_user u r ->
     login username password current_user = (Ret current_user, current_user)) /\
  (truthy current_user = false ->
   (forall role, In (username, password, role) credentials ->
      fst (login username password current_user)
      = Ret (snd (login username password current_user)) /\
      session_of (snd (login username password current_user)) username role) /\
   ((forall role, ~ In (username, password, role) credentials) ->
    login username password current_user = (Ret VNone, VNone))).
Proof.
  split; [intros u r; apply login_logged_in|].
  intros Ht. rewrite (login_logged_out _ _ _ Ht).
  unfold USER_TABLE, credentials. cbn [dict_get In].
  destruct (String.eqb_spec "dr_alice" username) as [<-|Ha].
  { simpl_default. cbn [dict_get String.eqb Ascii.eqb Bool.eqb py_eq].
    simpl_default. cbn [py_eq].
    destruct (String.eqb_spec "password123" password) as [<-|Hp]; split.
    - intros role [H|[H|[H|[]]]]; inversion H; subst.
      split; [reflexivity|]. eexists _, _. split_and!; reflexivity.
    - intros Hn. exfalso. apply (Hn "doctor"). left. reflexivity.
    - intros role [H|[H|[H|[]]]]; inversion H; subst. contradiction.
    - reflexivity. }
  destruct (String.eqb_spec "lab_tech_bob" username) as [<-|Hb].
  { simpl_default. cbn [dict_get String.eqb Ascii.eqb Bool.eqb py_eq].
    simpl_default. cbn [py_eq].
    destruct (String.eqb_spec "labpass" password) as [<-|Hp]; split.
    - intros role [H|[H|[H|[]]]]; inversion H; subst.
      split; [reflexivity|]. eexists _, _. split_and!; reflexivity.
    - intros Hn. exfalso. apply (Hn "lab"). right. left. reflexivity.
    - intros role [H|[H|[H|[]]]]; inversion H; subst. contradiction.
    - reflexivity. }
  destruct (String.eqb_spec "pharm_charlie" username) as [<-|Hc].
  { simpl_default. cbn [dict_get String.eqb Ascii.eqb Bool.eqb py_eq].
    simpl_default. cbn [py_eq].
    destruct (String.eqb_spec "pharmpass" password) as [<-|Hp]; split.
    - intros role [H|[H|[H|[]]]]; inversion H; subst.
      split; [reflexivity|]. eexists _, _. split_and!; reflexivity.
    - intros Hn. exfalso. apply (Hn "pharmacy"). right. right. left. reflexivity.
    - intros role [H|[H|[H|[]]]]; inversion H; subst. contradiction.
    - reflexivity. }
  split; [|reflexivity].
  intros role [H|[H|[H|[]]]]; inversion H; subst; contradiction.
Qed.

Lemma login_outcome_witness :
  login "lab_tech_bob" "labpass" alice_session = (Ret alice_session, alice_session) /\
  login "dr_alice" "password123" VNone = (Ret alice_session, alice_session) /\
  login "dr_alice" "labpass" VNone = (Ret VNone, VNone).
Proof.
  split_and!.
  - apply (login_outcome "lab_tech_bob" "labpass" alice_session) with (u := "dr_alice") (r := "doctor").
    eexists _, _. split_and!; reflexivity.
  - destruct (login_outcome "dr_alice" "password123" VNone) as [_ H].
    destruct (H eq_refl) as [Hin _].
    destruct (Hin "doctor") as [Hf _]; [left; reflexivity|].
    destruct (login "dr_alice" "password123" VNone) as [r cu] eqn:E.
    cbn [fst snd] in Hf. subst r. f_equal.
    + f_equal. apply (f_equal snd) in E. cbn [snd] in E. rewrite <- E. reflexivity.
    + apply (f_equal snd) in E. cbn [snd] in E. rewrite <- E. reflexivity.
  - apply (login_outcome "dr_alice" "labpass" VNone); [reflexivity|].
    intros role [H|[H|[H|[]]]]; discriminate H.
Defined.

Ltac login_command_steps :=
  simpl_default; cbn [dict_get String.eqb Ascii.eqb Bool.eqb]; simpl_default;
  cbn [py_eq];
  match goal with
  | |- context [String.eqb ?stored ?password] =>
      destruct (String.eqb_spec stored password) as [<-|?]
  end;
  cbv zeta;
  cbn [dict_update fold_left dict_set fst snd String.eqb Ascii.eqb Bool.eqb];
  repeat step_bind; cbn [truthy];
  repeat step_bind; cbn [py_item dict_get String.eqb Ascii.eqb Bool.eqb];
  cbn [ret py_eq];
  try match goal with
      | |- context [String.eqb ?r ?role] =>
          destruct (String.eqb_spec r role) as [<-|?]
      end;
  cbn [negb];
  cbv beta iota zeta delta [logout bind gets id ret modify py_item];
  cbn [truthy dict_get String.eqb Ascii.eqb Bool.eqb fst snd].

Lemma login_command_logged_out (role username password : string) :
  exists current_user,
    login_command role username password VNone = (Ret tt, current_user) /\
    serves role current_user /\
    (current_user <> VNone <-> In (username, password, role) credentials).
Proof.
  unfold login_command. step_bind. unfold gets at 1, id. cbn [truthy negb].
  step_bind. rewrite login_logged_out by reflexivity.
  unfold USER_TABLE, credentials, serves. cbn [dict_get In].
  destruct (String.eqb_spec "dr_alice" username) as [<-|Ha];
    [|destruct (String.eqb_spec "lab_tech_bob" username) as [<-|Hb];
      [|destruct (String.eqb_spec "pharm_charlie" username) as [<-|Hc]]].
  - login_command_steps; eexists; (split; [reflexivity|]); split.
    + right. eexists _, _, _. split_and!; reflexivity.
    + split; [intros _; left; reflexivity | intros _ H; discriminate H].
    + left; reflexivity.
    + split; [intros H; contradiction|].
      intros [H|[H|[H|[]]]]; inversion H; subst; contradiction.
    + left; reflexivity.
    + split; [intros H; contradiction|].
      intros [H|[H|[H|[]]]]; inversion H; subst; contradiction.
  - login_command_steps; eexists; (split; [reflexivity|]); split.
    + right. eexists _, _, _. split_and!; reflexivity.
    + split; [intros _; right; left; reflexivity | intros _ H; discriminate H].
    + left; reflexivity.
    + split; [intros H; contradiction|].
      intros [H|[H|[H|[]]]]; inversion H; subst; contradiction.
    + left; reflexivity.
    + split; [intros H; contradiction|].
      intros [H|[H|[H|[]]]]; inversion H; subst; contradiction.
  - login_command_steps; eexists; (split; [reflexivity|]); split.
    + right. eexists _, _, _. split_and!; reflexivity.
    + split; [intros _; right; right; left; reflexivity | intros _ H; discriminate H].
    + left; reflexivity.
    + split; [intros H; contradiction|].
      intros [H|[H|[H|[]]]]; inversion H; subst; contradiction.
    + left; reflexivity.
    + split; [intros H; contradiction|].
      intros [H|[H|[H|[]]]]; inversion H; subst; contradiction.
  - cbv beta iota zeta delta [bind gets id ret]. cbn [truthy].
    eexists; (split; [reflexivity|]); split.
    + left; reflexivity.
    + split; [intros H; contradiction|].
      intros [H|[H|[H|[]]]]; inversion H; subst; contradiction.
Qed.

(** X20.  The [login] command of a shell only ever leaves a session open
    for a user of the role that the shell serves: when nobody or such a
    user is logged in before the command, nobody or such a user is logged
    in after it.  From no session it opens one exactly for a name and
    password of [USERS] whose role is the role of the shell; a user of
    another role is logged in by [login] and logged out at once. *)
Theorem login_command_serves_role (role username password : string)
    (current_user : value) :
  serves role current_user ->
  fst (login_command role username password current_user) = Ret tt /\
  serves role (snd (login_command role username password current_user)) /\
  (current_user = VNone ->
   (snd (login_command role username password current_user) <> VNone <->
    In (username, password, role) credentials)).
Proof.
  intros [->|(u & kvs & name & -> & Hu & Hr & Hn)].
  - destruct (login_command_logged_out role username password)
      as (cu & -> & Hs & Hiff).
    cbn [fst snd]. split_and!; [reflexivity | exact Hs | intros _; exact Hiff].
  - assert (E : login_command role username password (VDict kvs)
                = (Ret tt, VDict kvs)).
    { unfold login_command. step_bind. unfold gets at 1, id.
      assert (Ht : truthy (VDict kvs) = true)
        by (destruct kvs; [discriminate Hn | reflexivity]).
      rewrite Ht. reflexivity. }
    rewrite E. cbn [fst snd]. split_and!.
    + reflexivity.
    + right. exists u, kvs, name. split_and!; [reflexivity|assumption..].
    + intros H. discriminate H.
Qed.

Lemma login_command_serves_role_witness :
  snd (login_command "doctor" "dr_alice" "password123" VNone) <> VNone /\
  snd (login_command "doctor" "lab_tech_bob" "labpass" VNone) = VNone /\
  serves "lab" (snd (login_command "lab" "dr_alice" "password123" bob_session)).
Proof.
  split_and!.
  - destruct (login_command_serves_role "doctor" "dr_alice" "password123" VNone)
      as (_ & _ & H); [left; reflexivity|].
    apply (H eq_refl). left. reflexivity.
  - destruct (login_command_serves_role "doctor" "lab_tech_bob" "labpass" VNone)
      as (_ & _ & H); [left; reflexivity|].
    destruct (H eq_refl) as [H1 _].
    destruct (snd (login_command "doctor" "lab_tech_bob" "labpass" VNone)) eqn:E;
      try reflexivity;
      exfalso;
      (assert (Hin : In ("lab_tech_bob", "labpass", "doctor") credentials)
         by (apply H1; intros Hd; discriminate Hd));
      destruct Hin as [Hin|[Hin|[Hin|[]]]]; discriminate Hin.
  - apply (login_command_serves_role "lab" "dr_alice" "password123" bob_session).
    right. eexists _, _, _. split_and!; reflexivity.
Defined.

(** * Workflow actions *)

Lemma lacks_role_without {S : Type} (role : string) (current_user : value) (s : S) :
  without_role role current_user -> lacks_role current_user role s = (Ret true, s).
Proof.
  intros [Ht|(kvs & r & -> & Hr & Hne)]; unfold lacks_role.
  - rewrite Ht. reflexivity.
  - assert (Ht : truthy (VDict kvs) = true)
      by (destruct kvs; [discriminate Hr | reflexivity]).
    rewrite Ht. cbn [negb]. step_bind. unfold py_item. rewrite Hr.
    cbn [ret]. apply py_eq_str_false in Hne. rewrite Hne. reflexivity.
Qed.

Lemma lacks_role_with {S : Type} (role : string) (kvs : list (string * value)) (s : S) :
  dict_get kvs "role" = Some (VStr role) ->
  lacks_role (VDict kvs) role s = (Ret false, s).
Proof.
  intros Hr. unfold lacks_role.
  assert (Ht : truthy (VDict kvs) = true)
    by (destruct kvs; [discriminate Hr | reflexivity]).
  rewrite Ht. cbn [negb]. step_bind. unfold py_item. rewrite Hr.
  cbn [ret py_eq]. rewrite String.eqb_refl. reflexivity.
Qed.

(** X21.  No workflow action acts for a user who lacks its role: when
    nobody is logged in, or the user logged in has another role, each
    action returns its refusal and leaves the node, and for a registration
    the registry file and the UUID source, exactly as they were. *)
Theorem workflow_actions_need_role (current_user : value) (s : Node) (w : World) :
  (without_role "doctor" current_user ->
   (forall patient_id notes order_test_flag,
      doctor_consultation current_user patient_id notes order_test_flag s
      = (Ret "Permission denied.", s)) /\
   (forall patient_id prescription_details reviewed_lab_user,
      doctor_review_results_and_prescribe current_user patient_id
        prescription_details reviewed_lab_user s
      = (Ret "Permission denied.", s)) /\
   (forall patient_name,
      register_new_patient current_user patient_name w
      = (Ret (None, "Permission denied."), w))) /\
  (without_role "lab" current_user ->
   forall patient_id results_dict,
     perform_blood_test current_user patient_id results_dict s
     = (Ret "Permission denied.", s)) /\
  (without_role "pharmacy" current_user ->
   forall patient_id prescription_timestamp,
     pharmacy_fill_prescription current_user patient_id prescription_timestamp s
     = (Ret "Permission denied.", s)).
Proof.
  split_and!.
  - intros Hw. split_and!; intros.
    + unfold doctor_consultation. step_bind.
      rewrite lacks_role_without by exact Hw. reflexivity.
    + unfold doctor_review_results_and_prescribe. step_bind.
      rewrite lacks_role_without by exact Hw. reflexivity.
    + unfold register_new_patient. step_bind.
      rewrite lacks_role_without by exact Hw. reflexivity.
  - intros Hw patient_id results_dict.
    unfold perform_blood_test. step_bind.
    rewrite lacks_role_without by exact Hw. reflexivity.
  - intros Hw patient_id prescription_timestamp.
    unfold pharmacy_fill_prescription. step_bind.
    rewrite lacks_role_without by exact Hw. reflexivity.
Qed.

Lemma workflow_actions_need_role_witness :
  doctor_consultation bob_session (VStr "p-001") (VStr "fatigue") (VBool true) fresh_node
  = (Ret "Permission denied.", fresh_node) /\
  register_new_patient VNone "Dana" fresh_world
  = (Ret (None, "Permission denied."), fresh_world) /\
  pharmacy_fill_prescription alice_session (VStr "p-001") (VStr "2024-05-01") fresh_node
  = (Ret "Permission denied.", fresh_node).
Proof.
  split_and!.
  - apply (workflow_actions_need_role bob_session fresh_node fresh_world).
    right. eexists _, _. split_and!; [reflexivity | reflexivity | discriminate].
  - apply (workflow_actions_need_role VNone fresh_node fresh_world).
    left. reflexivity.
  - apply (workflow_actions_need_role alice_session fresh_node fresh_world).
    right. eexists _, _. split_and!; [reflexivity | reflexivity | discriminate].
Defined.

Lemma submit_frame (tx : value) (s : Node) :
  chain (submit tx s) = chain s /\ lock_held (submit tx s) = lock_held s /\
  clock (submit tx s) = clock s /\ ticks (submit tx s) = ticks s /\
  E_CASH_BALANCES (submit tx s) = E_CASH_BALANCES s /\
  pending_transactions (submit tx s) = pool_add (pending_transactions s) tx.
Proof.
  unfold submit, pool_add.
  destruct (pooled (json_dumps tx) (pending_transactions s)); split_and!; reflexivity.
Qed.

(** A local submission that carries a timestamp and is admissible. *)
Lemma add_transaction_local_submit (s : Node) (kvs : list (string * value)) :
  lock_held s = false ->
  has_timestamp (VDict kvs) = true ->
  valid_tx_format (VDict kvs) = true ->
  pay_check s kvs = Ret true ->
  add_transaction_local (VDict kvs) s = (Ret tt, submit (VDict kvs) s).
Proof.
  intros Hfree Hts Hv Hpay. unfold add_transaction_local, submit.
  rewrite Hv. cbn [negb].
  unfold bind at 1. rewrite sender_can_pay_free by assumption.
  fold (pay_check s kvs). rewrite Hpay.
  cbn [has_timestamp] in Hts. rewrite Hts.
  unfold bind at 1. unfold ret at 1. unfold with_lock. rewrite Hfree.
  unfold bind at 1. unfold gets at 1. cbn [pending_transactions set_lock].
  destruct (pooled (json_dumps (VDict kvs)) (pending_transactions s)); cbn [negb].
  - unfold ret. f_equal. apply set_lock_release, Hfree.
  - unfold bind, modify, broadcast. f_equal.
    destruct s. cbn in *. subst. reflexivity.
Qed.

Lemma chain_balance_chain (s s' : Node) (username : value) :
  chain s' = chain s -> chain_balance s' username = chain_balance s username.
Proof. intros Hc. unfold chain_balance. rewrite Hc. reflexivity. Qed.

Lemma dict_get_dict_set (d : list (string * value)) (k k' : string) (v : value) :
  dict_get (dict_set d k v) k' = if String.eqb k k' then Some v else dict_get d k'.
Proof.
  induction d as [|[k0 v0] d IH]; cbn [dict_set dict_get].
  - destruct (String.eqb k k'); reflexivity.
  - destruct (String.eqb_spec k0 k) as [->|Hk]; cbn [dict_get].
    + destruct (String.eqb k k'); reflexivity.
    + rewrite IH. destruct (String.eqb_spec k0 k') as [->|Hk'];
        [|reflexivity].
      apply String.eqb_neq in Hk. rewrite String.eqb_sym in Hk.
      rewrite Hk. reflexivity.
Qed.

Lemma dict_get_dict_update (d more : list (string * value)) (k : string) :
  dict_has more k = false -> dict_get (dict_update d more) k = dict_get d k.
Proof.
  unfold dict_update, dict_has. revert d.
  induction more as [|[k0 v0] more IH]; intros d Hk; [reflexivity|].
  cbn [fold_left fst snd]. cbn [dict_get] in Hk.
  destruct (String.eqb k0 k) eqn:Hk0; [discriminate Hk|].
  rewrite IH by exact Hk. rewrite dict_get_dict_set, Hk0. reflexivity.
Qed.

Lemma dict_update_app (d more more' : list (string * value)) :
  dict_update d (more ++ more') = dict_update (dict_update d more) more'.
Proof. unfold dict_update. apply fold_left_app. Qed.

Lemma doctor_review_results_and_prescribe_outcome (s : Node) (ckvs dkvs : list (string * value))
    (u : string) (patient_id reviewed_lab_user : value) (balance : Z) :
  lock_held s = false ->
  dict_get ckvs "role" = Some (VStr "doctor") ->
  dict_get ckvs "username" = Some (VStr u) ->
  truthy patient_id = true ->
  dict_has dkvs "type" = false ->
  chain_balance s (VStr u) = Ret balance ->
  let presc_tx :=
    VDict (dict_update
             [("type", VStr "PRESCRIPTION"); ("patient_id", patient_id);
              ("prescribed_by", VStr u)]
             (dkvs ++ [("based_on_review_of_test_by", reviewed_lab_user);
                       ("timestamp", VStr (clock s (ticks s)))])) in
  let transfer_tx :=
    VDict [("type", VStr TX_TRANSFER_ECASH); ("from", VStr u);
           ("to", reviewed_lab_user); ("amount", VInt 100);
           ("reason", VStr "Payment for Lab Report Access");
           ("timestamp", VStr (clock s (S (ticks s))))] in
  let s1 := submit presc_tx (tick s) in
  doctor_review_results_and_prescribe (VDict ckvs) patient_id (VDict dkvs)
    reviewed_lab_user s =
    if (100 <=? balance) && truthy reviewed_lab_user then
      (Ret ("Prescription transaction created. " +:+ "Payment transaction ("
            +:+ pretty 100 +:+ " units to " +:+ py_str reviewed_lab_user
            +:+ ") created."),
       submit transfer_tx (tick s1))
    else
      (Ret (if negb (truthy reviewed_lab_user)
            then "Prescription transaction created. "
                 +:+ "(Could not identify lab user for payment)."
            else "Prescription transaction created. "
                 +:+ "(Payment skipped due to insufficient funds)."),
       s1).
Proof.
  intros Hfree Hrole Huser Hpid Hty Hbal. cbv zeta.
  unfold doctor_review_results_and_prescribe.
  step_bind. rewrite lacks_role_with by exact Hrole.
  rewrite Hpid. cbn [negb].
  step_bind. unfold py_item at 1. rewrite Huser. cbn [ret].
  step_bind. rewrite get_current_balance_free by exact Hfree. rewrite Hbal.
  step_bind. cbn [unpack ret].
  step_bind. unfold datetime_now at 1.
  step_bind.
  rewrite add_transaction_local_submit.
  - set (s1 := submit _ (tick s)).
    destruct (submit_frame
                (VDict (dict_update
                          [("type", VStr "PRESCRIPTION"); ("patient_id", patient_id);
                           ("prescribed_by", VStr u)]
                          (dkvs ++ [("based_on_review_of_test_by", reviewed_lab_user);
                                    ("timestamp", VStr (clock s (ticks s)))])))
                (tick s))
      as (Hc1 & Hl1 & Hk1 & Ht1 & _ & _).
    fold s1 in Hc1, Hl1, Hk1, Ht1.
    destruct ((100 <=? balance) && truthy reviewed_lab_user) eqn:Hcond;
      [|destruct (truthy reviewed_lab_user); reflexivity].
    step_bind. unfold datetime_now at 1.
    step_bind. rewrite Hk1, Ht1. cbn [clock ticks tick].
    rewrite add_transaction_local_submit; [reflexivity | | reflexivity | reflexivity |].
    + cbn [lock_held tick]. rewrite Hl1. exact Hfree.
    + unfold pay_check, is_user_transfer. simpl_default.
      cbn [dict_get String.eqb Ascii.eqb Bool.eqb py_eq TX_TRANSFER_ECASH].
      simpl_default. cbn [py_eq andb].
      destruct (String.eqb u SYSTEM_ACCOUNT); cbn [negb]; [reflexivity|].
      rewrite (chain_balance_chain s) by (cbn [chain tick]; rewrite Hc1; reflexivity).
      rewrite Hbal. cbn [as_int].
      apply andb_true_iff in Hcond as [Hb _].
      replace (balance <? 100) with false by (symmetry; lia). reflexivity.
  - exact Hfree.
  - cbn [has_timestamp]. unfold dict_has.
    rewrite dict_update_app. cbn [dict_update fold_left fst snd].
    rewrite dict_get_dict_set, String.eqb_refl. reflexivity.
  - assert (Hget : forall d,
               dict_get d "type" = Some (VStr "PRESCRIPTION") ->
               valid_tx_format
                 (VDict (dict_update d
                           (dkvs ++ [("based_on_review_of_test_by", reviewed_lab_user);
                                     ("timestamp", VStr (clock s (ticks s)))])))
               = true).
    { intros d Hd. unfold valid_tx_format.
      rewrite dict_update_app. cbn [dict_update fold_left fst snd].
      rewrite !dict_get_dict_set. cbn [String.eqb Ascii.eqb Bool.eqb].
      fold (dict_update d dkvs). rewrite dict_get_dict_update by exact Hty.
      rewrite Hd. reflexivity. }
    apply Hget. reflexivity.
  - unfold pay_check, is_user_transfer.
    rewrite dict_update_app. cbn [dict_update fold_left fst snd].
    rewrite !dict_get_dict_set. cbn [String.eqb Ascii.eqb Bool.eqb].
    rewrite dict_get_dict_update by exact Hty. reflexivity.
Qed.

(** X22.  [doctor_review_results_and_prescribe] submits the payment of 100
    units from the doctor to the lab user exactly when the balance that
    the chain confirms for the doctor is at least 100 and a lab user is
    given; the payment then passes admission.  The prescription is
    submitted in every case, before the payment, and the message returned
    tells which of the three cases applied. *)
Theorem prescription_and_payment (s : Node) (ckvs dkvs : list (string * value))
    (u : string) (patient_id reviewed_lab_user : value) (balance : Z) :
  lock_held s = false ->
  dict_get ckvs "role" = Some (VStr "doctor") ->
  dict_get ckvs "username" = Some (VStr u) ->
  truthy patient_id = true ->
  dict_has dkvs "type" = false ->
  chain_balance s (VStr u) = Ret balance ->
  let presc_tx :=
    VDict (dict_update
             [("type", VStr "PRESCRIPTION"); ("patient_id", patient_id);
              ("prescribed_by", VStr u)]
             (dkvs ++ [("based_on_review_of_test_by", reviewed_lab_user);
                       ("timestamp", VStr (clock s (ticks s)))])) in
  let transfer_tx :=
    VDict [("type", VStr TX_TRANSFER_ECASH); ("from", VStr u);
           ("to", reviewed_lab_user); ("amount", VInt 100);
           ("reason", VStr "Payment for Lab Report Access");
           ("timestamp", VStr (clock s (S (ticks s))))] in
  let r :=
    doctor_review_results_and_prescribe (VDict ckvs) patient_id (VDict dkvs)
      reviewed_lab_user s in
  pending_transactions (snd r) =
    (if (100 <=? balance) && truthy reviewed_lab_user
     then pool_add (pool_add (pending_transactions s) presc_tx) transfer_tx
     else pool_add (pending_transactions s) presc_tx) /\
  fst r =
    Ret (if (100 <=? balance) && truthy reviewed_lab_user
         then "Prescription transaction created. " +:+ "Payment transaction ("
              +:+ pretty 100 +:+ " units to " +:+ py_str reviewed_lab_user
              +:+ ") created."
         else if negb (truthy reviewed_lab_user)
         then "Prescription transaction created. "
              +:+ "(Could not identify lab user for payment)."
         else "Prescription transaction created. "
              +:+ "(Payment skipped due to insufficient funds).") /\
  chain (snd r) = chain s /\ lock_held (snd r) = false.
Proof.
  intros Hfree Hrole Huser Hpid Hty Hbal. cbv zeta.
  rewrite (doctor_review_results_and_prescribe_outcome s ckvs dkvs u _ _ balance
             Hfree Hrole Huser Hpid Hty Hbal).
  destruct ((100 <=? balance) && truthy reviewed_lab_user); cbn [fst snd].
  - match goal with
    | |- context [submit ?pay (tick (submit ?presc (tick s)))] =>
        destruct (submit_frame pay (tick (submit presc (tick s))))
          as (-> & -> & _ & _ & _ & ->);
        cbn [chain lock_held pending_transactions tick];
        destruct (submit_frame presc (tick s)) as (-> & -> & _ & _ & _ & ->)
    end.
    split_and!; (reflexivity || exact Hfree).
  - match goal with
    | |- context [submit ?presc (tick s)] =>
        destruct (submit_frame presc (tick s)) as (-> & -> & _ & _ & _ & ->)
    end.
    split_and!; (reflexivity || exact Hfree).
Qed.

Lemma prescription_and_payment_witness :
  pending_transactions
    (snd (doctor_review_results_and_prescribe alice_session (VStr "p-001")
            iron_prescription (VStr "lab_tech_bob") paid_node))
  = [iron_prescription_tx; lab_access_payment] /\
  pending_transactions
    (snd (doctor_review_results_and_prescribe alice_session (VStr "p-001")
            iron_prescription (VStr "lab_tech_bob") fresh_node))
  = [iron_prescription_tx].
Proof.
  split.
  - unfold alice_session, iron_prescription.
    rewrite (proj1 (prescription_and_payment paid_node
               [("username", VStr "dr_alice"); ("password", VStr "password123");
                ("role", VStr "doctor"); ("name", VStr "Dr. Alice")]
               [("medication", VStr "Iron"); ("dosage", VStr "50 mg");
                ("frequency", VStr "daily"); ("duration", VStr "30 days")]
               "dr_alice" (VStr "p-001") (VStr "lab_tech_bob") 500
               eq_refl eq_refl eq_refl eq_refl eq_refl
               ltac:(vm_compute; reflexivity))).
    vm_compute. reflexivity.
  - unfold alice_session, iron_prescription.
    rewrite (proj1 (prescription_and_payment fresh_node
               [("username", VStr "dr_alice"); ("password", VStr "password123");
                ("role", VStr "doctor"); ("name", VStr "Dr. Alice")]
               [("medication", VStr "Iron"); ("dosage", VStr "50 mg");
                ("frequency", VStr "daily"); ("duration", VStr "30 days")]
               "dr_alice" (VStr "p-001") (VStr "lab_tech_bob") 0
               eq_refl eq_refl eq_refl eq_refl eq_refl
               ltac:(vm_compute; reflexivity))).
    vm_compute. reflexivity.
Defined.

(** * Patient registration *)

(** X23.  A registration by a doctor appends one row to the registry file,
    after the header row when the file did not exist, and submits a
    registration transaction that carries the same patient id, name,
    doctor and timestamp as the row.  When the file cannot be opened the
    file is left alone and the transaction is submitted all the same; the
    message returned is the same in both cases. *)
Theorem registration_is_logged_and_submitted (w : World)
    (ckvs : list (string * value)) (u patient_name : string) :
  lock_held (node w) = false ->
  dict_get ckvs "role" = Some (VStr "doctor") ->
  dict_get ckvs "username" = Some (VStr u) ->
  let patient_id := uuid_source w (uuids_drawn w) in
  let timestamp := clock (node w) (ticks (node w)) in
  let transaction :=
    VDict [("type", VStr "PATIENT_REGISTRATION"); ("patient_id", VStr patient_id);
           ("patient_name", VStr patient_name); ("registered_by", VStr u);
           ("timestamp", VStr timestamp)] in
  let row := [patient_id; patient_name; u; timestamp] in
  let r := register_new_patient (VDict ckvs) patient_name w in
  fst r = Ret (Some patient_id,
               "Registration tx created for " +:+ patient_name +:+ " (ID: "
               +:+ patient_id +:+ ") and logged to CSV.") /\
  node (snd r) = submit transaction (tick (node w)) /\
  patient_registry (snd r) =
    (if registry_writable w then
       match patient_registry w with
       | None => Some [PATIENT_CSV_HEADER; row]
       | Some rows => Some (rows ++ [row])
       end
     else patient_registry w).
Proof.
  intros Hfree Hrole Huser. cbv zeta.
  assert (E : register_new_patient (VDict ckvs) patient_name w =
              (Ret (Some (uuid_source w (uuids_drawn w)),
                    "Registration tx created for " +:+ patient_name +:+ " (ID: "
                    +:+ uuid_source w (uuids_drawn w) +:+ ") and logged to CSV."),
               set_registry
                 (if registry_writable w then
                    match patient_registry w with
                    | None =>
                        Some [PATIENT_CSV_HEADER;
                              [uuid_source w (uuids_drawn w); patient_name; u;
                               clock (node w) (ticks (node w))]]
                    | Some rows =>
                        Some (rows ++ [[uuid_source w (uuids_drawn w); patient_name; u;
                                        clock (node w) (ticks (node w))]])
                    end
                  else patient_registry w)
                 {| node :=
                      submit
                        (VDict [("type", VStr "PATIENT_REGISTRATION");
                                ("patient_id", VStr (uuid_source w (uuids_drawn w)));
                                ("patient_name", VStr patient_name);
                                ("registered_by", VStr u);
                                ("timestamp", VStr (clock (node w) (ticks (node w))))])
                        (tick (node w));
                    patient_registry := patient_registry w;
                    registry_writable := registry_writable w;
                    uuid_source := uuid_source w;
                    uuids_drawn := S (uuids_drawn w) |})).
  { unfold register_new_patient.
    step_bind. rewrite lacks_role_with by exact Hrole.
    step_bind. unfold uuid4 at 1.
    step_bind. unfold on_node at 1, datetime_now at 1. cbn [node set_node].
    step_bind. unfold py_item at 1. rewrite Huser. cbn [ret].
    step_bind. unfold gets at 1.
    step_bind. unfold gets at 1.
    step_bind. cbn [registry_writable patient_registry set_node node].
    assert (Hadd :
              forall w0 : World,
                node w0 = tick (node w) ->
                on_node
                  (add_transaction_local
                     (VDict [("type", VStr "PATIENT_REGISTRATION");
                             ("patient_id", VStr (uuid_source w (uuids_drawn w)));
                             ("patient_name", VStr patient_name);
                             ("registered_by", VStr u);
                             ("timestamp", VStr (clock (node w) (ticks (node w))))]))
                  w0
                = (Ret tt,
                   set_node
                     (submit
                        (VDict [("type", VStr "PATIENT_REGISTRATION");
                                ("patient_id", VStr (uuid_source w (uuids_drawn w)));
                                ("patient_name", VStr patient_name);
                                ("registered_by", VStr u);
                                ("timestamp", VStr (clock (node w) (ticks (node w))))])
                        (tick (node w))) w0)).
    { intros w0 Hw0. unfold on_node. rewrite Hw0.
      rewrite add_transaction_local_submit; [reflexivity|exact Hfree|reflexivity..]. }
    destruct (registry_writable w) eqn:Hwr.
    - destruct (patient_registry w) as [rows|] eqn:Hreg.
      + cbv beta iota zeta delta [bind ret modify writerow].
        cbn [patient_registry set_registry]. simpl_default.
        rewrite Hadd by reflexivity. cbn [csv_field py_str].
        unfold set_node, set_registry. cbn. reflexivity.
      + cbv beta iota zeta delta [bind ret modify writerow].
        cbn [patient_registry set_registry]. simpl_default.
        rewrite Hadd by reflexivity. cbn [csv_field py_str].
        unfold set_node, set_registry. cbn. reflexivity.
    - cbv beta iota zeta delta [bind ret modify writerow].
      rewrite Hadd by reflexivity.
      unfold set_node, set_registry. cbn. reflexivity. }
  rewrite E. cbn [fst snd node patient_registry set_registry].
  split_and!; reflexivity.
Qed.

Lemma registration_is_logged_and_submitted_witness :
  let r := register_new_patient alice_session "Dana" fresh_world in
  patient_registry (snd r)
  = Some [PATIENT_CSV_HEADER;
          ["3f2c9a4e-5b1d-4c7e-9a60-7d2e8b1f000"; "Dana"; "dr_alice"; demo_clock 1]] /\
  pending_transactions (node (snd r))
  = [VDict [("type", VStr "PATIENT_REGISTRATION");
            ("patient_id", VStr "3f2c9a4e-5b1d-4c7e-9a60-7d2e8b1f000");
            ("patient_name", VStr "Dana"); ("registered_by", VStr "dr_alice");
            ("timestamp", VStr (demo_clock 1))]].
Proof.
  cbv zeta.
  destruct (registration_is_logged_and_submitted fresh_world
              [("username", VStr "dr_alice"); ("password", VStr "password123");
               ("role", VStr "doctor"); ("name", VStr "Dr. Alice")]
              "dr_alice" "Dana" eq_refl eq_refl eq_refl) as (_ & Hn & Hr).
  split.
  - etransitivity; [exact Hr|]. vm_compute. reflexivity.
  - unfold alice_session. rewrite Hn. vm_compute. reflexivity.
Defined.

(** * The balance view *)

Lemma insert_key_perm (x : key) (l : list key) : insert_key x l ≡ₚ x :: l.
Proof.
  induction l as [|y l IH]; [reflexivity|].
  cbn [insert_key]. destruct (key_leb x y); [reflexivity|].
  rewrite IH. apply Permutation_swap.
Qed.

Lemma sort_keys_perm (l : list key) : foldr insert_key [] l ≡ₚ l.
Proof.
  induction l as [|x l IH]; [reflexivity|].
  cbn [foldr]. rewrite insert_key_perm, IH. reflexivity.
Qed.

Lemma insert_key_sorted (x : key) (l : list key) :
  is_str_key x = true ->
  Forall (fun k => is_str_key k = true) l ->
  StronglySorted (fun a b => key_leb a b = true) l ->
  StronglySorted (fun a b => key_leb a b = true) (insert_key x l).
Proof.
  intros Hx Hl Hs. induction Hs as [|y l Hs IH Hy]; [repeat constructor|].
  apply Forall_cons in Hl as [Hys Hl].
  cbn [insert_key]. destruct (key_leb x y) eqn:Hxy.
  - constructor; [constructor; assumption|].
    constructor; [exact Hxy|].
    rewrite Forall_forall in Hy, Hl. apply Forall_forall. intros z Hz.
    specialize (Hy z Hz). specialize (Hl z Hz).
    destruct x, y, z; try discriminate. cbn [key_leb] in *.
    eapply string_leb_trans; eassumption.
  - constructor; [apply IH, Hl|].
    rewrite insert_key_perm. constructor; [|exact Hy].
    destruct x, y; try discriminate. cbn [key_leb] in *.
    destruct (String.leb_total s s0); congruence.
Qed.

Lemma sort_keys_sorted (l : list key) :
  Forall (fun k => is_str_key k = true) l ->
  StronglySorted (fun a b => key_leb a b = true) (foldr insert_key [] l).
Proof.
  induction 1 as [|x l Hx Hl IH]; [constructor|].
  cbn [foldr]. apply insert_key_sorted; [exact Hx| |exact IH].
  rewrite sort_keys_perm. exact Hl.
Qed.

Lemma view_balances_free (s : Node) :
  lock_held s = false ->
  view_balances s =
    let keys := map fst (map_to_list (E_CASH_BALANCES s)) in
    if (length keys <=? 1)%nat || forallb is_int_key keys || forallb is_str_key keys
    then (Ret (map (fun user => (user, balance_of (E_CASH_BALANCES s) user))
                 (foldr insert_key [] keys)), s)
    else (Raise TypeError, s).
Proof.
  intros Hfree. unfold view_balances, with_lock. rewrite Hfree.
  cbv beta iota zeta delta [bind gets sorted_keys].
  cbn [E_CASH_BALANCES set_lock].
  destruct ((length (map fst (map_to_list (E_CASH_BALANCES s))) <=? 1)%nat
            || forallb is_int_key (map fst (map_to_list (E_CASH_BALANCES s)))
            || forallb is_str_key (map fst (map_to_list (E_CASH_BALANCES s))));
    cbv beta iota delta [ret raise]; rewrite set_lock_release by exact Hfree;
    reflexivity.
Qed.

Lemma ledger_keys (b : gmap key Z) (k : key) :
  k ∈ map fst (map_to_list b) <-> is_Some (b !! k).
Proof.
  rewrite list_elem_of_fmap. split.
  - intros ([k' v] & -> & Hin). apply elem_of_map_to_list in Hin. eauto.
  - intros [v Hv]. exists (k, v). split; [reflexivity|].
    apply elem_of_map_to_list, Hv.
Qed.

(** X24.  [view_balances] shows the ledger in the order of the names: when
    every principal of the ledger is a string it prints one line for each
    principal, with its balance, in ascending order, and leaves the node as
    it was.  When the ledger holds a principal that is a string and one
    that is not, the call raises [TypeError] from [sorted]. *)
Theorem view_balances_lists_the_ledger (s : Node) :
  lock_held s = false ->
  ((forall k, is_Some (E_CASH_BALANCES s !! k) -> is_str_key k = true) ->
   exists lines,
     view_balances s = (Ret lines, s) /\
     StronglySorted (fun x y => key_leb (fst x) (fst y) = true) lines /\
     NoDup (map fst lines) /\
     forall k v, (k, v) ∈ lines <-> E_CASH_BALANCES s !! k = Some v) /\
  (forall k k',
     is_Some (E_CASH_BALANCES s !! k) -> is_Some (E_CASH_BALANCES s !! k') ->
     is_str_key k = true -> is_str_key k' = false ->
     view_balances s = (Raise TypeError, s)).
Proof.
  intros Hfree. rewrite view_balances_free by exact Hfree. cbv zeta.
  set (keys := map fst (map_to_list (E_CASH_BALANCES s))).
  split.
  - intros Hstr.
    assert (Hall : Forall (fun k => is_str_key k = true) keys).
    { apply Forall_forall. intros k Hk. apply Hstr, ledger_keys, Hk. }
    assert (Hb : forallb is_str_key keys = true).
    { apply forallb_forall. intros k Hk. rewrite Forall_forall in Hall.
      apply Hall, list_elem_of_In, Hk. }
    rewrite Hb, orb_true_r. eexists. split; [reflexivity|]. split_and!.
    + apply (StronglySorted_fmap _ (fun a b => key_leb a b = true)).
      * intros x y Hxy. exact Hxy.
      * apply sort_keys_sorted, Hall.
    + rewrite map_map. cbn [fst]. rewrite map_id, sort_keys_perm.
      apply NoDup_fst_map_to_list.
    + intros k v. rewrite list_elem_of_fmap. split.
      * intros (k' & [= -> ->] & Hin). rewrite sort_keys_perm in Hin.
        apply ledger_keys in Hin as [v Hv]. unfold balance_of. rewrite Hv.
        reflexivity.
      * intros Hv. exists k. split.
        -- unfold balance_of. rewrite Hv. reflexivity.
        -- rewrite sort_keys_perm. apply ledger_keys. eauto.
  - intros k k' Hk Hk' Hs Hn.
    apply ledger_keys in Hk, Hk'. fold keys in Hk, Hk'.
    assert (H1 : (length keys <=? 1)%nat = false).
    { apply Nat.leb_gt. destruct keys as [|a [|b rest]]; cbn [length]; try lia.
      - inversion Hk.
      - apply list_elem_of_singleton in Hk, Hk'. subst. congruence. }
    assert (H2 : forallb is_int_key keys = false).
    { destruct (forallb is_int_key keys) eqn:E; [|reflexivity].
      rewrite forallb_forall in E. specialize (E k).
      rewrite <- list_elem_of_In in E. specialize (E Hk).
      destruct k; discriminate. }
    assert (H3 : forallb is_str_key keys = false).
    { destruct (forallb is_str_key keys) eqn:E; [|reflexivity].
      rewrite forallb_forall in E. specialize (E k').
      rewrite <- list_elem_of_In in E. specialize (E Hk'). congruence. }
    rewrite H1, H2, H3. reflexivity.
Qed.

Lemma view_balances_lists_the_ledger_witness :
  (exists lines,
     view_balances fresh_node = (Ret lines, fresh_node) /\
     StronglySorted (fun x y => key_leb (fst x) (fst y) = true) lines /\
     NoDup (map fst lines) /\
     forall k v, (k, v) ∈ lines <-> E_CASH_BALANCES fresh_node !! k = Some v) /\
  view_balances (set_balances ledger_with_number fresh_node)
  = (Raise TypeError, set_balances ledger_with_number fresh_node).
Proof.
  split.
  - apply (view_balances_lists_the_ledger fresh_node eq_refl).
    intros k [v Hk]. apply elem_of_map_to_list in Hk.
    assert (Hall : forallb (fun kv => is_str_key (fst kv))
                     (map_to_list (E_CASH_BALANCES fresh_node)) = true)
      by (vm_compute; reflexivity).
    rewrite forallb_forall in Hall.
    specialize (Hall (k, v)). cbv beta in Hall. cbn [fst] in Hall.
    apply Hall. exact (proj1 (list_elem_of_In _ _) Hk).
  - apply (view_balances_lists_the_ledger
             (set_balances ledger_with_number fresh_node) eq_refl)
      with (k := KStr "dr_alice") (k' := KInt 7).
    + exists 0. vm_compute. reflexivity.
    + exists 25. vm_compute. reflexivity.
    + reflexivity.
    + reflexivity.
Defined.

(** * The shells *)

Lemma history_records (c : list Block) (patient_id : value) :
  Forall (fun record => exists block kvs, record = history_record block (VDict kvs))
    (get_patient_history c patient_id).
Proof.
  unfold get_patient_history. apply Forall_concat, Forall_forall.
  intros rs Hrs. apply list_elem_of_In, in_map_iff in Hrs as (block & <- & _).
  apply Forall_forall. intros r Hr.
  apply list_elem_of_In, in_map_iff in Hr as (tx & <- & Htx).
  apply filter_In in Htx as [_ Htx].
  destruct tx; try discriminate Htx. eauto.
Qed.

Lemma find_reviewed_lab_user_spec {S : Type} (records : list value) (s : S) :
  Forall (fun record => exists block kvs, record = history_record block (VDict kvs))
    records ->
  find_reviewed_lab_user records s =
    (Ret match List.find is_blood_test (map transaction_of records) with
         | Some (VDict kvs) => default VNone (dict_get kvs "performed_by")
         | _ => VNone
         end, s).
Proof.
  induction 1 as [|record records (block & kvs & ->) _ IH]; [reflexivity|].
  cbn [find_reviewed_lab_user map List.find].
  rewrite transaction_of_history_record. cbn [is_blood_test].
  step_bind. cbn [py_item history_record dict_get String.eqb Ascii.eqb Bool.eqb ret].
  step_bind. cbn [py_get ret].
  destruct (py_eq (default VNone (dict_get kvs "type")) (VStr "LAB_TEST_RESULT"));
    cbn [andb].
  - step_bind. step_bind. cbn [py_get ret].
    destruct (py_eq (default VNone (dict_get kvs "test_name")) (VStr "Blood Test"));
      [reflexivity | exact IH].
  - step_bind. cbn [ret]. exact IH.
Qed.

Lemma view_patient_history_free (patient_id : value) (s : Node) :
  lock_held s = false ->
  view_patient_history patient_id s
  = (Ret (get_patient_history (chain s) patient_id), s).
Proof.
  intros Hfree. unfold view_patient_history, with_lock, gets. rewrite Hfree.
  cbn [chain set_lock]. rewrite set_lock_release by exact Hfree. reflexivity.
Qed.

Lemma prescribe_command_free (current_user active_patient_id : value)
    (medication dosage frequency duration : string) (s : Node) :
  lock_held s = false ->
  truthy active_patient_id = true ->
  all_given [medication; dosage; frequency; duration] = true ->
  prescribe_command current_user active_patient_id medication dosage frequency
    duration s =
    match
      doctor_review_results_and_prescribe current_user active_patient_id
        (VDict [("medication", VStr medication); ("dosage", VStr dosage);
                ("frequency", VStr frequency); ("duration", VStr duration)])
        (latest_lab_user (chain s) active_patient_id) s
    with
    | (Ret msg, s') => (Ret (Some msg), s')
    | (Raise e, s') => (Raise e, s')
    | (Deadlock, s') => (Deadlock, s')
    end.
Proof.
  intros Hfree Hpid Hall. unfold prescribe_command. rewrite Hpid, Hall.
  step_bind. rewrite view_patient_history_free by exact Hfree.
  step_bind.
  fold (view_patient_history active_patient_id).
  rewrite view_patient_history_free by exact Hfree.
  step_bind. rewrite find_reviewed_lab_user_spec.
  - rewrite map_rev. fold (patient_transactions (chain s) active_patient_id).
    fold (latest_lab_user (chain s) active_patient_id).
    step_bind. cbn [ret].
    destruct (doctor_review_results_and_prescribe _ _ _ _ s) as [[]]; reflexivity.
  - apply Forall_rev, history_records.
Qed.

Lemma pending_submit (tx : value) (s : Node) :
  pending_transactions (submit tx s) = pool_add (pending_transactions s) tx.
Proof. apply submit_frame. Qed.

(** X25.  The command [prescribe] of the doctor shell pays the lab user who
    performed the most recent blood test that the chain records for the
    active patient: it submits a prescription that names that user as the
    reviewer and, when the doctor's balance on the chain is at least 100
    and such a test exists, a transfer of 100 units from the doctor to
    that user; without such a test it submits the prescription alone. *)
Theorem prescribe_pays_the_latest_lab_user (s : Node) (ckvs : list (string * value))
    (u : string) (active_patient_id : value)
    (medication dosage frequency duration : string) (balance : Z) :
  lock_held s = false ->
  dict_get ckvs "role" = Some (VStr "doctor") ->
  dict_get ckvs "username" = Some (VStr u) ->
  truthy active_patient_id = true ->
  all_given [medication; dosage; frequency; duration] = true ->
  chain_balance s (VStr u) = Ret balance ->
  let lab_user := latest_lab_user (chain s) active_patient_id in
  let presc_tx :=
    VDict [("type", VStr "PRESCRIPTION"); ("patient_id", active_patient_id);
           ("prescribed_by", VStr u); ("medication", VStr medication);
           ("dosage", VStr dosage); ("frequency", VStr frequency);
           ("duration", VStr duration);
           ("based_on_review_of_test_by", lab_user);
           ("timestamp", VStr (clock s (ticks s)))] in
  let transfer_tx :=
    VDict [("type", VStr TX_TRANSFER_ECASH); ("from", VStr u);
           ("to", lab_user); ("amount", VInt 100);
           ("reason", VStr "Payment for Lab Report Access");
           ("timestamp", VStr (clock s (S (ticks s))))] in
  pending_transactions
    (snd (prescribe_command (VDict ckvs) active_patient_id medication dosage
            frequency duration s))
  = if (100 <=? balance) && truthy lab_user
    then pool_add (pool_add (pending_transactions s) presc_tx) transfer_tx
    else pool_add (pending_transactions s) presc_tx.
Proof.
  intros Hfree Hrole Huser Hpid Hall Hbal. cbv zeta.
  rewrite prescribe_command_free by assumption.
  rewrite (doctor_review_results_and_prescribe_outcome s ckvs
             [("medication", VStr medication); ("dosage", VStr dosage);
              ("frequency", VStr frequency); ("duration", VStr duration)]
             u _ _ balance Hfree Hrole Huser Hpid eq_refl Hbal).
  cbn [dict_update fold_left app dict_set fst snd String.eqb Ascii.eqb Bool.eqb].
  destruct ((100 <=? balance) && truthy (latest_lab_user (chain s) active_patient_id));
    cbn [snd]; rewrite ?pending_submit; cbn [pending_transactions tick];
    rewrite ?pending_submit; reflexivity.
Qed.

Lemma prescribe_pays_the_latest_lab_user_witness :
  latest_lab_user (chain funded_lab_node) (VStr "p-001") = VStr "lab_tech_bob" /\
  pending_transactions
    (snd (prescribe_command alice_session (VStr "p-001") "Iron" "50 mg" "daily"
            "30 days" funded_lab_node))
  = [iron_prescription_tx; lab_access_payment].
Proof.
  split; [vm_compute; reflexivity|].
  unfold alice_session.
  rewrite (prescribe_pays_the_latest_lab_user funded_lab_node
             [("username", VStr "dr_alice"); ("password", VStr "password123");
              ("role", VStr "doctor"); ("name", VStr "Dr. Alice")]
             "dr_alice" (VStr "p-001") "Iron" "50 mg" "daily" "30 days" 500
             eq_refl eq_refl eq_refl eq_refl eq_refl);
    vm_compute; reflexivity.
Defined.

Lemma collect_filled_spec {S : Type} (records : list value) (filled filled' : gset key)
    (s s' : S) :
  Forall (fun record => exists block kvs, record = history_record block (VDict kvs))
    records ->
  collect_filled records filled s = (Ret filled', s') ->
  s' = s /\
  forall k, (k ∈ filled') <->
            (k ∈ filled) \/ exists tx, In tx (map transaction_of records) /\ fills tx k.
Proof.
  intros Hr. revert filled.
  induction Hr as [|record records (block & kvs & ->) _ IH]; intros filled.
  - intros [= <- <-]. split; [reflexivity|]. intros k. split; [auto|].
    intros [Hk|(tx & [] & _)]. exact Hk.
  - cbn [collect_filled map]. rewrite transaction_of_history_record.
    step_bind. cbn [py_item history_record dict_get String.eqb Ascii.eqb Bool.eqb ret].
    step_bind. cbn [py_get ret].
    destruct (py_eq (default VNone (dict_get kvs "type")) (VStr "PRESCRIPTION_FILLED"))
      eqn:Hty.
    + step_bind. cbn [py_get ret]. step_bind. unfold hashable.
      destruct (hash_key (default VNone
                            (dict_get kvs "references_prescription_timestamp")))
        as [k0|] eqn:Hk0; [|discriminate].
      cbn [ret]. intros Hc. apply IH in Hc as [-> Hc]. split; [reflexivity|].
      intros k. rewrite Hc. rewrite elem_of_union, elem_of_singleton. split.
      * intros [[->|Hk]|(tx & Hin & Hf)].
        -- right. exists (VDict kvs). split; [left; reflexivity|].
           split; [exact Hty | exact Hk0].
        -- left. exact Hk.
        -- right. exists tx. split; [right; exact Hin | exact Hf].
      * intros [Hk|(tx & [<-|Hin] & Hf)].
        -- left. right. exact Hk.
        -- left. left. destruct Hf as [_ Hf]. cbn [reference_of] in Hf. congruence.
        -- right. exists tx. split; assumption.
    + intros Hc. apply IH in Hc as [-> Hc]. split; [reflexivity|].
      intros k. rewrite Hc. split.
      * intros [Hk|(tx & Hin & Hf)]; [left; exact Hk|].
        right. exists tx. split; [right; exact Hin | exact Hf].
      * intros [Hk|(tx & [<-|Hin] & Hf)]; [left; exact Hk| |].
        -- destruct Hf as [Hf _]. cbn [is_filling] in Hf. congruence.
        -- right. exists tx. split; assumption.
Qed.

Lemma find_unfilled_spec {S : Type} (records : list value) (filled : gset key)
    (found : value) (s s' : S) :
  Forall (fun record => exists block kvs, record = history_record block (VDict kvs))
    records ->
  find_unfilled records filled s = (Ret found, s') ->
  s' = s /\
  ((found = VNone /\
    forall p, In p (map transaction_of records) -> is_prescription p = true ->
              exists k, prescribed_at p k /\ (k ∈ filled))
   \/
   (exists newer older k,
      map transaction_of records = newer ++ found :: older /\
      prescribed_at found k /\ (k ∉ filled) /\
      forall p, In p newer -> is_prescription p = true ->
                exists k', prescribed_at p k' /\ (k' ∈ filled))).
Proof.
  intros Hr.
  induction Hr as [|record records (block & kvs & ->) _ IH].
  - intros [= <- <-]. split; [reflexivity|]. left. split; [reflexivity|].
    intros p [].
  - cbn [find_unfilled map]. rewrite transaction_of_history_record.
    step_bind. cbn [py_item history_record dict_get String.eqb Ascii.eqb Bool.eqb ret].
    step_bind. cbn [py_get ret].
    destruct (py_eq (default VNone (dict_get kvs "type")) (VStr "PRESCRIPTION"))
      eqn:Hty.
    + step_bind. cbn [py_get ret]. step_bind. unfold hashable.
      destruct (hash_key (default VNone (dict_get kvs "timestamp")))
        as [k0|] eqn:Hk0; [|discriminate].
      cbn [ret]. destruct (bool_decide (k0 ∈ filled)) eqn:Hin.
      * apply bool_decide_eq_true in Hin.
        intros Hf. apply IH in Hf as [-> Hf]. split; [reflexivity|].
        destruct Hf as [[-> Hall]|(newer & older & k & Heq & Hp & Hk & Hnew)].
        -- left. split; [reflexivity|]. intros p [<-|Hp] Hpres.
           ++ exists k0. split; [split; assumption | exact Hin].
           ++ apply Hall; assumption.
        -- right. exists (VDict kvs :: newer), older, k. split_and!.
           ++ rewrite Heq. reflexivity.
           ++ exact Hp.
           ++ exact Hk.
           ++ intros p [<-|Hp'] Hpres.
              ** exists k0. split; [split; assumption | exact Hin].
              ** apply Hnew; assumption.
      * apply bool_decide_eq_false in Hin.
        intros [= <- <-]. split; [reflexivity|]. right.
        exists [], (map transaction_of records), k0. split_and!.
        -- reflexivity.
        -- split; assumption.
        -- exact Hin.
        -- intros p [].
    + intros Hf. apply IH in Hf as [-> Hf]. split; [reflexivity|].
      destruct Hf as [[-> Hall]|(newer & older & k & Heq & Hp & Hk & Hnew)].
      * left. split; [reflexivity|]. intros p [<-|Hp] Hpres.
        -- cbn [is_prescription] in Hpres. congruence.
        -- apply Hall; assumption.
      * right. exists (VDict kvs :: newer), older, k. split_and!.
        -- rewrite Heq. reflexivity.
        -- exact Hp.
        -- exact Hk.
        -- intros p [<-|Hp'] Hpres.
           ++ cbn [is_prescription] in Hpres. congruence.
           ++ apply Hnew; assumption.
Qed.

Lemma pharmacy_fill_prescription_outcome (s : Node) (ckvs : list (string * value))
    (u : string) (patient_id ts : value) :
  lock_held s = false ->
  dict_get ckvs "role" = Some (VStr "pharmacy") ->
  dict_get ckvs "username" = Some (VStr u) ->
  truthy patient_id = true ->
  pharmacy_fill_prescription (VDict ckvs) patient_id ts s =
    (Ret "Prescription filled transaction created.",
     submit
       (VDict [("type", VStr "PRESCRIPTION_FILLED"); ("patient_id", patient_id);
               ("filled_by_pharmacy", VStr u);
               ("references_prescription_timestamp", ts);
               ("timestamp", VStr (clock s (ticks s)))])
       (tick s)).
Proof.
  intros Hfree Hrole Huser Hpid. unfold pharmacy_fill_prescription.
  step_bind. rewrite lacks_role_with by exact Hrole.
  rewrite Hpid. cbn [negb].
  step_bind. unfold py_item at 1. rewrite Huser. cbn [ret].
  step_bind. unfold datetime_now at 1.
  step_bind.
  rewrite add_transaction_local_submit; [reflexivity|exact Hfree|reflexivity..].
Qed.

(** X26.  The command [fill] of the pharmacy shell dispenses a prescription
    that the chain does not show as filled, and the most recent such: when
    it submits a record, the record refers to the timestamp of a
    prescription of the active patient on the chain that no filling record
    of the patient on the chain refers to, and every later prescription of
    the patient is referred to by one.  When it submits nothing, every
    prescription of the patient on the chain is referred to by a filling
    record, and the node is as it was. *)
Theorem fill_dispenses_the_latest_unfilled (s : Node) (ckvs : list (string * value))
    (u : string) (active_patient_id : value) (outcome : option string) :
  lock_held s = false ->
  dict_get ckvs "role" = Some (VStr "pharmacy") ->
  dict_get ckvs "username" = Some (VStr u) ->
  truthy active_patient_id = true ->
  fst (fill_command (VDict ckvs) active_patient_id true s) = Ret outcome ->
  let txs := patient_transactions (chain s) active_patient_id in
  let s' := snd (fill_command (VDict ckvs) active_patient_id true s) in
  match outcome with
  | None =>
      s' = s /\
      forall p, In p txs -> is_prescription p = true ->
                exists k f, prescribed_at p k /\ In f txs /\ fills f k
  | Some _ =>
      exists earlier tx later k,
        txs = earlier ++ tx :: later /\
        prescribed_at tx k /\
        (forall f, In f txs -> ~ fills f k) /\
        (forall p, In p later -> is_prescription p = true ->
                   exists k' f, prescribed_at p k' /\ In f txs /\ fills f k') /\
        pending_transactions s' =
          pool_add (pending_transactions s)
            (VDict [("type", VStr "PRESCRIPTION_FILLED");
                    ("patient_id", active_patient_id);
                    ("filled_by_pharmacy", VStr u);
                    ("references_prescription_timestamp", timestamp_of tx);
                    ("timestamp", VStr (clock s (ticks s)))])
  end.
Proof.
  intros Hfree Hrole Huser Hpid. cbv zeta.
  unfold fill_command. rewrite Hpid.
  step_bind. fold (view_patient_history active_patient_id).
  rewrite view_patient_history_free by exact Hfree.
  pose proof (history_records (chain s) active_patient_id) as Hrec.
  set (history := get_patient_history (chain s) active_patient_id) in *.
  step_bind.
  destruct (collect_filled history ∅ s) as [[filled| |] s1] eqn:Hc;
    try (cbn [fst]; discriminate).
  destruct (collect_filled_spec _ _ _ _ _ Hrec Hc) as [-> Hfilled].
  step_bind.
  destruct (find_unfilled (rev history) filled s) as [[found| |] s2] eqn:Hf;
    try (cbn [fst]; discriminate).
  assert (Hrec' : Forall (fun record =>
                           exists block kvs, record = history_record block (VDict kvs))
                    (rev history)) by (apply Forall_rev, Hrec).
  destruct (find_unfilled_spec _ _ _ _ _ Hrec' Hf) as [-> Hfound].
  assert (Hfilled' : forall k, (k ∈ filled) <->
                               exists f, In f (patient_transactions (chain s)
                                                 active_patient_id) /\ fills f k).
  { intros k. rewrite Hfilled. split; [|auto].
    intros [Hk|Hk]; [apply elem_of_empty in Hk; contradiction | exact Hk]. }
  rewrite map_rev in Hfound.
  fold (patient_transactions (chain s) active_patient_id) in Hfound.
  destruct Hfound as [[-> Hall]|(newer & older & k & Heq & Hp & Hk & Hnew)].
  - cbn [truthy ret fst snd]. intros [= <-]. split; [reflexivity|].
    intros p Hp Hpres.
    destruct (Hall p) as (k & Hpk & Hk); [apply (proj1 (in_rev _ _)); exact Hp | exact Hpres|].
    apply Hfilled' in Hk as (f & Hf' & Hfk). eauto.
  - assert (Hd : exists kvs, found = VDict kvs /\ truthy found = true).
    { destruct Hp as [Hp _]. destruct found as [| | | | |kvs]; try discriminate Hp.
      exists kvs. split; [reflexivity|].
      destruct kvs; [discriminate Hp | reflexivity]. }
    destruct Hd as (kvs & -> & Ht). rewrite Ht.
    step_bind. cbn [py_get ret]. step_bind. cbn [py_get ret].
    step_bind.
    rewrite (pharmacy_fill_prescription_outcome s ckvs u) by assumption.
    cbn [ret fst snd]. intros [= <-].
    exists (rev older), (VDict kvs), (rev newer), k. split_and!.
    + apply (f_equal (@rev value)) in Heq. rewrite rev_involutive in Heq.
      change (patient_transactions (chain s) active_patient_id)
        with (map transaction_of history).
      rewrite Heq, rev_app_distr. cbn [rev]. rewrite <- app_assoc. reflexivity.
    + exact Hp.
    + intros f Hin Hfk. apply Hk, Hfilled'. eauto.
    + intros p Hin Hpres.
      destruct (Hnew p) as (k' & Hpk & Hk'); [apply (proj2 (in_rev _ _)); exact Hin | exact Hpres|].
      apply Hfilled' in Hk' as (f & Hf' & Hfk). eauto.
    + rewrite pending_submit. reflexivity.
Qed.

Lemma fill_dispenses_the_latest_unfilled_witness :
  exists earlier tx later k,
    patient_transactions (chain pharmacy_node) (VStr "p-001")
    = earlier ++ tx :: later /\
    prescribed_at tx k /\
    (forall f, In f (patient_transactions (chain pharmacy_node) (VStr "p-001")) ->
               ~ fills f k) /\
    (forall p, In p later -> is_prescription p = true ->
               exists k' f,
                 prescribed_at p k' /\
                 In f (patient_transactions (chain pharmacy_node) (VStr "p-001")) /\
                 fills f k') /\
    pending_transactions
      (snd (fill_command charlie_session (VStr "p-001") true pharmacy_node))
    = pool_add (pending_transactions pharmacy_node)
        (VDict [("type", VStr "PRESCRIPTION_FILLED"); ("patient_id", VStr "p-001");
                ("filled_by_pharmacy", VStr "pharm_charlie");
                ("references_prescription_timestamp", timestamp_of tx);
                ("timestamp", VStr (clock pharmacy_node (ticks pharmacy_node)))]).
Proof.
  apply (fill_dispenses_the_latest_unfilled pharmacy_node
           [("username", VStr "pharm_charlie"); ("password", VStr "pharmpass");
            ("role", VStr "pharmacy"); ("name", VStr "Charlie (Pharmacy)")]
           "pharm_charlie" (VStr "p-001")
           (Some "Prescription filled transaction created.")
           eq_refl eq_refl eq_refl eq_refl).
  vm_compute. reflexivity.
Defined.

(** * The wire format *)

Lemma from_bytes_be_bytes_3 (n : Z) :
  0 <= n < 256 ^ 3 -> from_bytes (be_bytes 3 n) = n.
Proof.
  intros Hn. unfold from_bytes, be_bytes. cbn [seq map fold_left Nat.sub].
  change (2 ^ (8 * Z.of_nat 2)) with 65536.
  change (2 ^ (8 * Z.of_nat 1)) with 256.
  change (2 ^ (8 * Z.of_nat 0)) with 1.
  change (256 ^ 3) with 16777216 in Hn.
  rewrite Z.div_1_r.
  pose proof (Z.div_mod n 256 ltac:(lia)) as H1.
  pose proof (Z.div_mod (n / 256) 256 ltac:(lia)) as H2.
  pose proof (Z.mod_pos_bound n 256 ltac:(lia)) as B1.
  pose proof (Z.mod_pos_bound (n / 256) 256 ltac:(lia)) as B2.
  assert (H3 : n / 65536 = n / 256 / 256).
  { rewrite Z.div_div by lia. reflexivity. }
  assert (B3 : 0 <= n / 65536 < 256).
  { split; [apply Z.div_pos; lia | apply Z.div_lt_upper_bound; lia]. }
  rewrite (Z.mod_small (n / 65536)) by exact B3. lia.
Qed.

Lemma from_bytes_be_bytes_1 (n : Z) :
  0 <= n < 256 ^ 1 -> from_bytes (be_bytes 1 n) = n.
Proof.
  intros Hn. unfold from_bytes, be_bytes. cbn [seq map fold_left Nat.sub].
  change (2 ^ (8 * Z.of_nat 0)) with 1. change (256 ^ 1) with 256 in Hn.
  rewrite Z.div_1_r, Z.mod_small by lia. lia.
Qed.

Lemma to_bytes_Some (n : Z) (len : nat) (bytes : list Z) :
  to_bytes n len = Some bytes ->
  0 <= n < 256 ^ Z.of_nat len /\ bytes = be_bytes len n /\ length bytes = len.
Proof.
  unfold to_bytes.
  destruct (Z.leb_spec 0 n); destruct (Z.ltb_spec n (256 ^ Z.of_nat len));
    cbn [andb]; try discriminate.
  intros [= <-]. split_and!; [lia..|reflexivity|].
  unfold be_bytes. rewrite length_map, length_seq. reflexivity.
Qed.

Lemma recv_payload_complete (fuel : nat) (msg_len : Z) (done left rest : list Z)
    (ds : list nat) :
  (length left <= fuel)%nat ->
  msg_len = Z.of_nat (length done + length left) ->
  exists ds',
    recv_payload fuel msg_len (Z.of_nat (length done)) done
      {| incoming := left ++ rest; ready := ds |}
    = (Complete (done ++ left), {| incoming := rest; ready := ds' |}).
Proof.
  revert done left ds.
  induction fuel as [|fuel IH]; intros done left ds Hfuel Hlen.
  - destruct left; [|cbn [length] in Hfuel; lia].
    cbn [recv_payload].
    replace (Z.of_nat (length done) <? msg_len) with false
      by (symmetry; apply Z.ltb_ge; cbn [length] in Hlen; lia).
    exists ds. rewrite app_nil_r. reflexivity.
  - cbn [recv_payload].
    destruct left as [|x left].
    { replace (Z.of_nat (length done) <? msg_len) with false
        by (symmetry; apply Z.ltb_ge; cbn [length] in Hlen; lia).
      exists ds. rewrite app_nil_r. reflexivity. }
    replace (Z.of_nat (length done) <? msg_len) with true
      by (symmetry; apply Z.ltb_lt; cbn [length] in Hlen; lia).
    unfold recv. cbn [incoming ready].
    set (n := Nat.min _ _).
    assert (Hn : (1 <= n <= length (x :: left))%nat).
    { subst n. unfold MSG_BUFFER_SIZE. cbn [length] in *.
      destruct ds as [|d ds]; rewrite ?length_app; cbn [length]; lia. }
    assert (Htake : take n ((x :: left) ++ rest) = take n (x :: left))
      by (apply take_app_le; lia).
    assert (Hdrop : drop n ((x :: left) ++ rest) = drop n (x :: left) ++ rest)
      by (apply drop_app_le; lia).
    rewrite Htake, Hdrop.
    destruct (take n (x :: left)) as [|c chunk] eqn:Hchunk.
    { apply (f_equal (@length Z)) in Hchunk. rewrite length_take in Hchunk.
      cbn [length] in *. lia. }
    rewrite <- Hchunk.
    replace (Z.of_nat (length done) + Z.of_nat (length (take n (x :: left))))
      with (Z.of_nat (length (done ++ take n (x :: left))))
      by (rewrite length_app; lia).
    destruct (IH (done ++ take n (x :: left)) (drop n (x :: left)) (tail ds))
      as (ds' & Hrec).
    + rewrite length_drop. cbn [length] in *. lia.
    + rewrite length_app, length_take, length_drop. cbn [length] in *. lia.
    + exists ds'. rewrite Hrec, <- app_assoc, take_drop. reflexivity.
Qed.

Lemma recv_payload_disconnected (fuel : nat) (msg_len bytes_recd : Z)
    (data left : list Z) (ds : list nat) :
  (length left < fuel)%nat ->
  Z.of_nat (length left) < msg_len - bytes_recd ->
  fst (recv_payload fuel msg_len bytes_recd data {| incoming := left; ready := ds |})
  = Disconnected.
Proof.
  revert bytes_recd data left ds.
  induction fuel as [|fuel IH]; intros bytes_recd data left ds Hfuel Hlen; [lia|].
  cbn [recv_payload].
  replace (bytes_recd <? msg_len) with true by (symmetry; apply Z.ltb_lt; lia).
  unfold recv. cbn [incoming ready].
  set (n := Nat.min _ _).
  destruct left as [|x left]; [rewrite take_nil; reflexivity|].
  assert (Hn : (1 <= n)%nat).
  { subst n. unfold MSG_BUFFER_SIZE. cbn [length] in *.
    destruct ds as [|d ds]; cbn [length]; lia. }
  destruct (take n (x :: left)) as [|c chunk] eqn:Hchunk.
  { apply (f_equal (@length Z)) in Hchunk. rewrite length_take in Hchunk.
    cbn [length] in *. lia. }
  rewrite <- Hchunk. apply IH.
  - rewrite length_drop. cbn [length] in *. lia.
  - rewrite length_drop, length_take. cbn [length] in *. lia.
Qed.

Lemma recv_payload_finishes (fuel : nat) (msg_len bytes_recd : Z) (data : list Z)
    (sock : Socket) :
  msg_len - bytes_recd <= Z.of_nat fuel ->
  fst (recv_payload fuel msg_len bytes_recd data sock) <> Unfinished.
Proof.
  revert bytes_recd data sock.
  induction fuel as [|fuel IH]; intros bytes_recd data sock Hfuel.
  - cbn [recv_payload].
    replace (bytes_recd <? msg_len) with false by (symmetry; apply Z.ltb_ge; lia).
    discriminate.
  - cbn [recv_payload]. destruct (Z.ltb_spec bytes_recd msg_len); [|discriminate].
    destruct (recv (Z.min (msg_len - bytes_recd) MSG_BUFFER_SIZE) sock)
      as [[|c chunk] sock']; [discriminate|].
    apply IH. cbn [length]. lia.
Qed.

(** X27.  A frame that [send_message] builds is read back by
    [_handle_connection] as the same type and the same payload, in
    whatever pieces the network delivers the payload, and the bytes that
    follow the frame stay on the connection for the next round, provided
    the first [recv] returns the four bytes of the header. *)
Theorem frame_round_trip (msg_type : Z) (data bytes rest : list Z) (ds : list nat) :
  frame msg_type data = Some bytes ->
  match ds with [] => True | n :: _ => (4 <= n)%nat end ->
  exists ds',
    read_message {| incoming := bytes ++ rest; ready := ds |}
    = (Received msg_type data, {| incoming := rest; ready := ds' |}).
Proof.
  unfold frame. intros Hframe Hds.
  destruct (to_bytes (Z.of_nat (length data)) 3) as [lb|] eqn:Hl; [|discriminate].
  destruct (to_bytes msg_type 1) as [tb|] eqn:Ht; [|discriminate].
  injection Hframe as <-.
  apply to_bytes_Some in Hl as (Hlr & -> & Hll).
  apply to_bytes_Some in Ht as (Htr & -> & Htl).
  unfold read_message, recv.
  cbn [incoming ready].
  set (hdr := be_bytes 3 (Z.of_nat (length data)) ++ be_bytes 1 msg_type).
  assert (Hh : length hdr = 4%nat) by (subst hdr; rewrite length_app; lia).
  set (n := Nat.min _ _).
  assert (Hn : n = 4%nat).
  { subst n. unfold MSG_HEADER_LENGTH.
    destruct ds as [|d ds]; rewrite ?length_app; lia. }
  rewrite Hn, <- app_assoc.
  rewrite take_app_length' by exact Hh. rewrite drop_app_length' by exact Hh.
  rewrite Hh. unfold MSG_HEADER_LENGTH. cbn [orb Z.eqb Z.ltb Z.of_nat].
  change (Z.of_nat 4 =? 0) with false. change (Z.of_nat 4 <? 4) with false.
  cbn [orb]. cbv zeta.
  subst hdr.
  rewrite take_app_length' by exact Hll. rewrite drop_app_length' by exact Hll.
  rewrite from_bytes_be_bytes_3 by exact Hlr.
  rewrite from_bytes_be_bytes_1 by exact Htr.
  rewrite Nat2Z.id.
  destruct (recv_payload_complete (length data) (Z.of_nat (length data)) [] data rest
              (tail ds)) as (ds' & Hrec); [lia | reflexivity|].
  change (Z.of_nat (length (@nil Z))) with 0 in Hrec.
  change ([] ++ data) with data in Hrec.
  rewrite Hrec. exists ds'. reflexivity.
Qed.

Lemma frame_round_trip_witness :
  exists ds',
    read_message sample_socket = (Received 1 sample_payload, {| incoming := [0]; ready := ds' |}).
Proof.
  apply (frame_round_trip 1 sample_payload [0; 0; 5; 1; 128; 4; 75; 42; 46] [0]
           [4; 2; 1]%nat).
  - reflexivity.
  - cbn. lia.
Defined.

(** X28.  What [send_message] and [_handle_connection] do at the edges of
    the format.  No frame is built for a payload of 2^24 bytes or more, or
    for a type outside 0..255: [to_bytes] raises [OverflowError].  A first
    [recv] that returns fewer than four bytes leaves the loop of the
    connection, also when the rest of the frame is on its way.  A peer that
    closes the connection before the announced payload is complete makes
    the read raise [ConnectionAbortedError].  The payload loop never needs
    more rounds than the announced length. *)
Theorem frame_edges (msg_type : Z) (data : list Z) (sock : Socket) :
  (frame msg_type data = None <->
   256 ^ 3 <= Z.of_nat (length data) \/ msg_type < 0 \/ 256 <= msg_type) /\
  ((length (fst (recv MSG_HEADER_LENGTH sock)) < 4)%nat ->
   fst (read_message sock) = LoopLeft) /\
  (forall bytes cut ds,
     frame msg_type data = Some bytes ->
     (cut < length data)%nat ->
     match ds with [] => True | n :: _ => (4 <= n)%nat end ->
     fst (read_message {| incoming := take (4 + cut) bytes; ready := ds |})
     = ConnectionAborted) /\
  fst (read_message sock) <> OutOfFuel.
Proof.
  split_and!.
  - unfold frame, to_bytes.
    change (256 ^ Z.of_nat 3) with (256 ^ 3). change (256 ^ Z.of_nat 1) with 256.
    destruct (Z.leb_spec 0 (Z.of_nat (length data)));
      destruct (Z.ltb_spec (Z.of_nat (length data)) (256 ^ 3));
      destruct (Z.leb_spec 0 msg_type); destruct (Z.ltb_spec msg_type 256);
      cbn [andb]; split; intros H'; try discriminate H'; try reflexivity; lia.
  - intros Hshort. unfold read_message.
    destruct (recv MSG_HEADER_LENGTH sock) as [header sock1]. cbn [fst] in *.
    unfold MSG_HEADER_LENGTH.
    destruct (Z.eqb_spec (Z.of_nat (length header)) 0); cbn [orb]; [reflexivity|].
    replace (Z.of_nat (length header) <? 4) with true
      by (symmetry; apply Z.ltb_lt; lia).
    reflexivity.
  - intros bytes cut ds Hframe Hcut Hds. unfold frame in Hframe.
    destruct (to_bytes (Z.of_nat (length data)) 3) as [lb|] eqn:Hl; [|discriminate].
    destruct (to_bytes msg_type 1) as [tb|] eqn:Ht; [|discriminate].
    injection Hframe as <-.
    apply to_bytes_Some in Hl as (Hlr & -> & Hll).
    apply to_bytes_Some in Ht as (Htr & -> & Htl).
    set (hdr := be_bytes 3 (Z.of_nat (length data)) ++ be_bytes 1 msg_type).
    assert (Hh : length hdr = 4%nat) by (subst hdr; rewrite length_app; lia).
    assert (Hin : take (4 + cut) (hdr ++ data) = hdr ++ take cut data).
    { rewrite <- Hh. apply take_app_add'. reflexivity. }
    rewrite Hin. unfold read_message, recv. cbn [incoming ready].
    set (n := Nat.min _ _).
    assert (Hn : n = 4%nat).
    { subst n. unfold MSG_HEADER_LENGTH.
      destruct ds as [|d ds]; rewrite ?length_app; lia. }
    rewrite Hn.
    rewrite take_app_length' by exact Hh. rewrite drop_app_length' by exact Hh.
    rewrite Hh. unfold MSG_HEADER_LENGTH.
    change (Z.of_nat 4 =? 0) with false. change (Z.of_nat 4 <? 4) with false.
    cbn [orb]. cbv zeta. subst hdr.
    rewrite take_app_length' by exact Hll. rewrite drop_app_length' by exact Hll.
    rewrite from_bytes_be_bytes_3 by exact Hlr.
    rewrite Nat2Z.id.
    pose proof (recv_payload_disconnected (length data) (Z.of_nat (length data)) 0 []
                  (take cut data) (tail ds)) as Hd.
    destruct (recv_payload (length data) (Z.of_nat (length data)) 0 []
                {| incoming := take cut data; ready := tail ds |}) as [p sock2].
    cbn [fst] in Hd. rewrite Hd; [reflexivity| |].
    + rewrite length_take. lia.
    + rewrite length_take. lia.
  - unfold read_message.
    destruct (recv MSG_HEADER_LENGTH sock) as [header sock1].
    destruct ((Z.of_nat (length header) =? 0)
              || (Z.of_nat (length header) <? MSG_HEADER_LENGTH)); [discriminate|].
    cbv zeta.
    pose proof (recv_payload_finishes (Z.to_nat (from_bytes (take 3 header)))
                  (from_bytes (take 3 header)) 0 [] sock1) as Hf.
    destruct (recv_payload (Z.to_nat (from_bytes (take 3 header)))
                (from_bytes (take 3 header)) 0 [] sock1) as [[data'| |] sock2];
      cbn [fst] in *; try discriminate.
    exfalso. apply Hf; [lia | reflexivity].
Qed.

Lemma frame_edges_witness :
  frame 256 sample_payload = None /\
  fst (read_message {| incoming := incoming sample_socket; ready := [3]%nat |})
  = LoopLeft /\
  fst (read_message {| incoming := [0; 0; 5; 1; 128; 4]; ready := [] |})
  = ConnectionAborted.
Proof.
  split_and!.
  - apply (frame_edges 256 sample_payload sample_socket). right. right. lia.
  - apply (frame_edges 1 sample_payload
             {| incoming := incoming sample_socket; ready := [3]%nat |}).
    vm_compute. lia.
  - apply (frame_edges 1 sample_payload sample_socket
           ) with (bytes := [0; 0; 5; 1; 128; 4; 75; 42; 46]) (cut := 2%nat) (ds := []).
    + reflexivity.
    + vm_compute. lia.
    + exact I.
Defined.

(** * Start-up *)

(** X29.  A node starts consistent whatever the time: [Node.__init__]
    returns with a chain that holds the genesis block alone and that
    [is_chain_valid] and [_validate_chain_balances] accept, an empty pool,
    a free lock, and the initial ledger, whose balances add up to the
    system allocation. *)
Theorem node_starts_consistent (clk : nat -> string) :
  let s := snd (Node_init clk) in
  fst (Node_init clk) = Ret tt /\
  chain s = [genesis_block (clk 0%nat)] /\
  is_chain_valid (chain s) None = true /\
  _validate_chain_balances (chain s) = Ret true /\
  pending_transactions s = [] /\
  lock_held s = false /\
  E_CASH_BALANCES s = initial_balances /\
  total (E_CASH_BALANCES s) = INITIAL_SYSTEM_BALANCE.
Proof.
  cbv zeta. unfold Node_init.
  rewrite _recalculate_all_balances_free by reflexivity.
  cbn [chain]. unfold Blockchain_init.
  assert (Hr : for_each [genesis_block (clk 0%nat)] replay_block initial_balances
               = (Ret tt, initial_balances)) by reflexivity.
  rewrite Hr. cbn [fst snd chain pending_transactions lock_held E_CASH_BALANCES
                     set_lock set_balances].
  split_and!; try reflexivity.
  apply is_chain_valid_self. eexists _, _. split_and!; try reflexivity.
  - apply Forall_cons_2; [apply genesis_block_sealed | apply Forall_nil_2].
  - intros i cur prev Hc. destruct i; discriminate Hc.
Qed.

Lemma resolve_conflicts_not_longer_witness :
  resolve_conflicts (chain fresh_node) fresh_node = (Ret false, fresh_node).
Proof.
  apply (resolve_conflicts_not_longer (chain fresh_node) fresh_node).
  - reflexivity.
  - reflexivity.
Defined.

(** * Amounts that are not ints *)

(** ** On JSON data the update on numbers is the update on ints *)

Lemma initial_numbers_ints : initial_numbers = NInt <$> initial_balances.
Proof.
  unfold initial_numbers, initial_balances. cbn [foldr USERS].
  rewrite !fmap_insert, fmap_empty. reflexivity.
Qed.

Lemma number_at_ints (b : gmap key Z) (k : key) :
  number_at (NInt <$> b) k = NInt (balance_of b k).
Proof.
  unfold number_at, balance_of. rewrite lookup_fmap.
  destruct (b !! k); reflexivity.
Qed.

Lemma init_number_ints (b : gmap key Z) (k : key) :
  init_number k (NInt <$> b) = NInt <$> init_account k b.
Proof.
  unfold init_number, init_account. rewrite lookup_fmap.
  destruct (b !! k); cbn [fmap option_fmap option_map];
    [reflexivity | rewrite fmap_insert; reflexivity].
Qed.

Lemma credit_debit_number_json (tx : value) (b : gmap key Z) :
  credit_debit_number (Json tx) (NInt <$> b)
  = (fst (credit_debit tx b), NInt <$> snd (credit_debit tx b)).
Proof.
  unfold credit_debit_number, credit_debit, get_item, get_amount, number_of,
    py_get, hashable, int_of, number_sub, number_add.
  cbv beta iota zeta delta [bind ret raise gets modify].
  destruct tx as [| | | | |kvs]; try reflexivity.
  destruct (py_eq _ _); [|reflexivity].
  destruct (hash_key (default VNone (dict_get kvs "from"))) as [ks|];
    [|reflexivity].
  destruct (hash_key (default VNone (dict_get kvs "to"))) as [kr|]; cbn [fst snd];
    [|rewrite init_number_ints; reflexivity].
  destruct (as_int (default (VInt 0) (dict_get kvs "amount"))) as [a|];
    cbn [fst snd]; rewrite !init_number_ints; [|reflexivity].
  rewrite number_at_ints, <- fmap_insert, number_at_ints, <- fmap_insert.
  reflexivity.
Qed.

Lemma for_each_ints {A B : Type} (f : A -> M (gmap key Z) unit)
    (g : B -> M (gmap key number) unit) (inj : A -> B) :
  (forall x b, g (inj x) (NInt <$> b) = (fst (f x b), NInt <$> snd (f x b))) ->
  forall l b,
    for_each (map inj l) g (NInt <$> b)
    = (fst (for_each l f b), NInt <$> snd (for_each l f b)).
Proof.
  intros Hstep l. induction l as [|x l IH]; intros b; [reflexivity|].
  cbn [map for_each]. unfold bind. rewrite Hstep.
  destruct (f x b) as [[[]| |] b1]; cbn [fst snd]; [apply IH|reflexivity..].
Qed.

(** A block of JSON data, as the update on numbers reads it. *)
Lemma update_numbers_json (block : Block) (b : gmap key Z) :
  update_numbers (map Json (transactions block)) (NInt <$> b)
  = (fst (replay_block block b), NInt <$> snd (replay_block block b)).
Proof. apply for_each_ints, credit_debit_number_json. Qed.

Lemma recalculate_numbers_json (c : list Block) :
  recalculate_numbers (json_chain c)
  = (fst (for_each c replay_block initial_balances),
     NInt <$> snd (for_each c replay_block initial_balances)).
Proof.
  unfold recalculate_numbers, json_chain. rewrite initial_numbers_ints.
  apply (for_each_ints replay_block update_numbers
           (fun block => map Json (transactions block))).
  intros block b. apply update_numbers_json.
Qed.

(** The value of a ledger of ints is the sum of its balances. *)
Lemma exact_total_ints (b : gmap key Z) :
  exact_total (NInt <$> b) = Some (inject_Z (total b)).
Proof.
  unfold exact_total. rewrite map_fold_fmap.
  apply (map_fold_weak_ind (fun r m => r = Some (inject_Z (total m)))).
  - reflexivity.
  - intros k v m r Hk ->. cbn [compose exact].
    rewrite total_insert. unfold balance_of. rewrite Hk. cbn [default from_option].
    unfold Qplus, inject_Z. cbn [Qnum Qden Pos.mul]. do 2 f_equal. lia.
Qed.

(** On a chain of well-typed JSON data the loop on numbers returns, with
    int balances whose sum is the initial allocation. *)
Lemma recalculate_numbers_int_amounts (c : list Block) :
  well_typed_chain c ->
  fst (recalculate_numbers (json_chain c)) = Ret tt /\
  exact_total (snd (recalculate_numbers (json_chain c)))
  = Some (inject_Z INITIAL_SYSTEM_BALANCE).
Proof.
  intros Hwt. rewrite recalculate_numbers_json. cbn [fst snd]. split.
  - apply replay_chain_returns, Hwt.
  - rewrite exact_total_ints, replay_chain_total, total_initial_balances.
    reflexivity.
Qed.

(** The two floats of the sample chain are the quotients 1/10 and 7/10 as
    float division rounds them, which is what the literals [0.1] and
    [0.7] denote. *)
Lemma float_0_1_and_0_7 :
  SFdiv 53 1024 (binary_normalize 53 1024 1 0 false)
                (binary_normalize 53 1024 10 0 false) = float_0_1 /\
  SFdiv 53 1024 (binary_normalize 53 1024 7 0 false)
                (binary_normalize 53 1024 10 0 false) = float_0_7 /\
  valid_binary 53 1024 float_0_1 = true /\
  valid_binary 53 1024 float_0_7 = true.
Proof. split_and!; vm_compute; reflexivity. Qed.

(** C10.  On a chain in which the system account pays 0.1 and 0.7, the
    loop of the full recomputation returns; it leaves the floats 0.1 and
    0.7 with the recipients and the float nearest to 999999.2, which is
    8589927720052327 / 2^33, with the system account.  The sum of the
    balances is 1,000,000 + 2516581 / 2^55, not the initial allocation.
    The update of the ledger of a fresh node with the second block gives
    the same balances. *)
Theorem float_amounts_are_not_conserved :
  let b := snd (recalculate_numbers float_chain) in
  fst (recalculate_numbers float_chain) = Ret tt /\
  b !! KStr "dr_alice" = Some (NFloat float_0_1) /\
  b !! KStr "lab_tech_bob" = Some (NFloat float_0_7) /\
  b !! KStr "pharm_charlie" = Some (NInt 0) /\
  b !! KStr SYSTEM_ACCOUNT
    = Some (NFloat (S754_finite false 8589927720052327 (-33))) /\
  (exists q, exact_total b = Some q /\
             Qeq q (Qplus (inject_Z INITIAL_SYSTEM_BALANCE)
                          (Qmake 2516581 (2 ^ 55))) /\
             ~ Qeq q (inject_Z INITIAL_SYSTEM_BALANCE)) /\
  (exists q, exact_total initial_numbers = Some q /\
             Qeq q (inject_Z INITIAL_SYSTEM_BALANCE)) /\
  forall k, snd (update_numbers (nth 1 float_chain []) initial_numbers) !! k = b !! k.
Proof.
  cbv zeta. split_and!.
  - vm_compute. reflexivity.
  - vm_compute. reflexivity.
  - vm_compute. reflexivity.
  - vm_compute. reflexivity.
  - vm_compute. reflexivity.
  - eexists. split_and!; [vm_compute; reflexivity | vm_compute; reflexivity |].
    vm_compute. discriminate.
  - eexists. split; vm_compute; reflexivity.
  - intros k. vm_compute. reflexivity.
Qed.
